(** * Armory metrics and the GTSRB poisoning scenario

    A shallow embedding of [armory/utils/metrics.py] and of
    [armory/scenarios/poisoning_gtsrb_scenario.py].

    Python floats and numpy [float64] values are Rocq's primitive binary64
    floats, so every arithmetic step rounds as it does in the program.
    Python exceptions are values of [exn]; a computation that may raise
    returns a [result].  [Unmodelled] marks the few numpy behaviours left
    outside the embedding (broadcasting between arrays of different
    shapes).  Code that mutates shared objects (the resource ledger, the
    metric lists) threads the object explicitly. *)

From Stdlib Require Import String Ascii DecimalString.
From Stdlib Require Import ZArith List Bool Lia Floats Permutation.
Import ListNotations.

Local Open Scope string_scope.
Local Open Scope list_scope.
Local Open Scope nat_scope.

(** ** Exceptions and results *)

Inductive exn : Type :=
| ValueError (msg : string)
| KeyError (msg : string)
| TypeError (msg : string)
| IndexError (msg : string)
| ZeroDivisionError (msg : string)
| OverflowError (msg : string)
| StopIteration
| Unmodelled (what : string).

Inductive result (A : Type) : Type :=
| Ok (a : A)
| Raise (e : exn).

Arguments Ok {A} a.
Arguments Raise {A} e.

Definition bind {A B : Type} (r : result A) (k : A -> result B) : result B :=
  match r with
  | Ok a => k a
  | Raise e => Raise e
  end.

Notation "'let*' x ':=' r 'in' k" := (bind r (fun x => k))
  (at level 10, x pattern, r at level 100, k at level 200).

Fixpoint mapM {A B : Type} (f : A -> result B) (l : list A) : result (list B) :=
  match l with
  | [] => Ok []
  | a :: l' =>
      let* b := f a in
      let* bs := mapM f l' in
      Ok (b :: bs)
  end.

(** ** Numbers *)

(** A Python or numpy number: an integer or a binary64 float. *)
Inductive scalar : Type :=
| SInt (z : Z)
| SFlt (f : float).

(** Conversion of an integer to binary64, rounding to nearest even. *)
Definition float_of_Z (z : Z) : float :=
  SF2Prim (binary_normalize prec emax z 0 false).

(** [float(x)] *)
Definition float_of_scalar (x : scalar) : float :=
  match x with
  | SInt z => float_of_Z z
  | SFlt f => f
  end.

(** [int(x)] on a float truncates toward zero; it raises on infinities and
    NaN. *)
Definition int_of_float (f : float) : result Z :=
  match Prim2SF f with
  | S754_zero _ => Ok 0%Z
  | S754_finite s m e =>
      let mag := match e with
                 | Zneg p => Z.shiftr (Zpos m) (Zpos p)
                 | _ => Z.shiftl (Zpos m) e
                 end in
      Ok (if s then Z.opp mag else mag)
  | S754_infinity _ => Raise (OverflowError "cannot convert float infinity to integer")
  | S754_nan => Raise (ValueError "cannot convert float NaN to integer")
  end.

(** A float that is a zero or a finite non-zero number, neither an
    infinity nor NaN. *)
Definition finite (f : float) : bool :=
  match Prim2SF f with
  | S754_zero _ | S754_finite _ _ _ => true
  | _ => false
  end.

(** A float that is [0.0] or [-0.0]. *)
Definition is_zero_float (f : float) : bool :=
  match Prim2SF f with
  | S754_zero _ => true
  | _ => false
  end.


(** [x == y] on numbers: integers compare exactly, anything else as floats
    (IEEE: [nan] differs from itself, [0.0 == -0.0]).  The integers are
    those of one numpy integer type; numpy compares an [int64] array
    with a [uint64] array, which holds an integer from [2^63] on, through
    [float64], and that comparison is not modelled. *)
Definition scalar_eqb (x y : scalar) : bool :=
  match x, y with
  | SInt a, SInt b => Z.eqb a b
  | _, _ => PrimFloat.eqb (float_of_scalar x) (float_of_scalar y)
  end.

(** [x <= y] on numbers. *)
Definition scalar_leb (x y : scalar) : bool :=
  match x, y with
  | SInt a, SInt b => Z.leb a b
  | _, _ => PrimFloat.leb (float_of_scalar x) (float_of_scalar y)
  end.

Definition scalar_is_nan (x : scalar) : bool :=
  match x with
  | SInt _ => false
  | SFlt f => PrimFloat.is_nan f
  end.

(** [x + y] on numbers. *)
Definition scalar_add (x y : scalar) : scalar :=
  match x, y with
  | SInt a, SInt b => SInt (a + b)
  | _, _ => SFlt (float_of_scalar x + float_of_scalar y)
  end.

(** [x < y] on numbers. *)
Definition scalar_ltb (x y : scalar) : bool :=
  match x, y with
  | SInt a, SInt b => Z.ltb a b
  | _, _ => PrimFloat.ltb (float_of_scalar x) (float_of_scalar y)
  end.

(** [int(x)] *)
Definition int_of_scalar (x : scalar) : result Z :=
  match x with
  | SInt z => Ok z
  | SFlt f => int_of_float f
  end.

(** [int(b)] of a boolean. *)
Definition int_of_bool (b : bool) : scalar := SInt (if b then 1 else 0).

(** ** numpy arrays *)

(** An [ndarray]: its shape and its elements in row-major order. *)
Record ndarray : Type := mk_ndarray { shape : list nat; data : list scalar }.

Definition ndim (a : ndarray) : nat := length (shape a).

Definition size_of (s : list nat) : nat := fold_right Nat.mul 1 s.

(** [np.array([a])] *)
Definition wrap (a : ndarray) : ndarray := mk_ndarray (1 :: shape a) (data a).

(** [np.asarray] of a Python list of numbers. *)
Definition array_of_list (l : list scalar) : ndarray := mk_ndarray [length l] l.

Definition shape_eqb (s t : list nat) : bool :=
  if list_eq_dec Nat.eq_dec s t then true else false.

(** [len(a)] *)
Definition len (a : ndarray) : result nat :=
  match shape a with
  | [] => Raise (TypeError "len() of unsized object")
  | n :: _ => Ok n
  end.

Fixpoint chunks {A : Type} (k n : nat) (l : list A) : list (list A) :=
  match n with
  | O => []
  | S n' => firstn k l :: chunks k n' (skipn k l)
  end.

(** The sub-arrays met when iterating over the first axis, each flattened. *)
Definition rows (a : ndarray) : result (list (list scalar)) :=
  match shape a with
  | [] => Raise (TypeError "iteration over a 0-d array")
  | n :: s => Ok (chunks (size_of s) n (data a))
  end.

Fixpoint map2 {A B C : Type} (f : A -> B -> C) (l : list A) (m : list B) : list C :=
  match l, m with
  | a :: l', b :: m' => f a b :: map2 f l' m'
  | _, _ => []
  end.

(** [[int(x) for x in list(b)]] for a boolean array [b] of shape [s]:
    [int] of a sub-array succeeds only when it holds a single element. *)
Definition ints_of_bools (s : list nat) (b : list bool) : result (list scalar) :=
  match s with
  | [] => Raise (TypeError "iteration over a 0-d array")
  | [_] => Ok (map int_of_bool b)
  | n :: t =>
      mapM (fun row => match row with
                       | [x] => Ok (int_of_bool x)
                       | _ => Raise (TypeError "only size-1 arrays can be converted to Python scalars")
                       end)
           (chunks (size_of t) n b)
  end.

(** [np.argmax] of one vector: the first maximal entry, a NaN being
    maximal. *)
Fixpoint argmax_from (best : scalar) (besti i : nat) (l : list scalar) : nat :=
  match l with
  | [] => besti
  | x :: l' =>
      if scalar_is_nan best then besti
      else if negb (scalar_leb x best) then argmax_from x i (S i) l'
      else argmax_from best besti (S i) l'
  end.

Definition argmax (l : list scalar) : result nat :=
  match l with
  | [] => Raise (ValueError "attempt to get argmax of an empty sequence")
  | x :: l' => Ok (argmax_from x 0 1 l')
  end.

(** [np.argmax(a, axis=-1)] *)
Definition argmax_last (a : ndarray) : result ndarray :=
  match rev (shape a) with
  | [] => let* i := argmax (data a) in Ok (mk_ndarray [] [SInt (Z.of_nat i)])
  | k :: rs =>
      let s := rev rs in
      let* idx := mapM argmax (chunks k (size_of s) (data a)) in
      Ok (mk_ndarray s (map (fun i => SInt (Z.of_nat i)) idx))
  end.

(** [y == z] between arrays; shapes that differ would broadcast. *)
Definition array_eq (y z : ndarray) : result (list bool) :=
  if shape_eqb (shape y) (shape z)
  then Ok (map2 scalar_eqb (data y) (data z))
  else Raise (Unmodelled "broadcasting").

(** ** Accuracy metrics *)

Definition categorical_accuracy (y y_pred : ndarray) : result (list scalar) :=
  let '(y, y_pred) :=
    if ndim y =? 0 then (wrap y, wrap y_pred) else (y, y_pred) in
  if shape_eqb (shape y) (shape y_pred) then
    ints_of_bools (shape y) (map2 scalar_eqb (data y) (data y_pred))
  else if ndim y + 1 =? ndim y_pred then
    let* am := argmax_last y_pred in
    let* b := array_eq y am in
    if ndim y =? 0 then Ok (map int_of_bool b)
    else ints_of_bools (shape y) b
  else Raise (ValueError "mismatched dimensions").

(** numpy and Python library functions that have no counterpart among the
    primitive float operations; the metrics take them as given. *)
Record library : Type := mk_library {
  np_argsort : list scalar -> list nat;   (* [np.argsort] of one vector *)
  np_power : float -> float -> float;     (* [x ** p] *)
  np_log10 : float -> float;              (* [np.log10] *)
  float_repr : float -> string            (* [str] of a float *)
}.

Definition lastn {A : Type} (n : nat) (l : list A) : list A :=
  skipn (length l - n) l.

Section Metrics.

Variable lib : library.

Definition top_n_categorical_accuracy (y y_pred : ndarray) (n : scalar)
  : result (list scalar) :=
  if scalar_ltb n (SInt 1) then Raise (ValueError "n must be a positive integer")
  else
    let* n := int_of_scalar n in
    if (n =? 1)%Z then categorical_accuracy y y_pred
    else
      let '(y, y_pred) :=
        if ndim y =? 0 then (wrap y, wrap y_pred) else (y, y_pred) in
      let* ly := len y in
      let* lp := len y_pred in
      if negb (ly =? lp) then Raise (ValueError "y and y_pred are of different length")
      else if shape_eqb (shape y) (shape y_pred) then
        Raise (ValueError "Must supply multiple predictions for top 5 accuracy")
      else if ndim y + 1 =? ndim y_pred then
        match shape y_pred with
        | [m; k] =>
            let y_pred_top5 :=
              map (fun r => map (fun i => SInt (Z.of_nat i))
                                (lastn (Z.to_nat n) (np_argsort lib r)))
                  (chunks k m (data y_pred)) in
            if ndim y =? 0 then
              Ok (map (fun v => int_of_bool (existsb (scalar_eqb v) (concat y_pred_top5)))
                      (data y))
            else
              Ok (map2 (fun v top => int_of_bool (existsb (scalar_eqb v) top))
                       (data y) y_pred_top5)
        | _ => Raise (Unmodelled "top-n accuracy of label arrays of rank above one")
        end
      else Raise (ValueError "mismatched dimensions").

Definition top_5_categorical_accuracy (y y_pred : ndarray) : result (list scalar) :=
  top_n_categorical_accuracy y y_pred (SInt 5).

(** ** Norms *)

(** The loop of numpy's pairwise summation over at most 7 leftover items. *)
Definition sum_loop (acc : float) (l : list float) : float :=
  fold_left PrimFloat.add l acc.

Fixpoint accumulate8 (blocks : nat) (r a : list float) : list float * list float :=
  match blocks with
  | O => (r, a)
  | S b => accumulate8 b (map2 PrimFloat.add r (firstn 8 a)) (skipn 8 a)
  end.

Definition reduce8 (r : list float) : float :=
  match r with
  | [r0; r1; r2; r3; r4; r5; r6; r7] =>
      (((r0 + r1) + (r2 + r3)) + ((r4 + r5) + (r6 + r7)))%float
  | _ => 0%float
  end.

(** numpy's [pairwise_sum]: a plain loop below 8 items, eight running
    accumulators up to 128 items, and a split in two above.  [fuel] bounds
    the depth of the splits; [length a] is always enough. *)
Fixpoint pairwise_sum (fuel : nat) (a : list float) : float :=
  let n := length a in
  if n <? 8 then sum_loop 0%float a
  else if n <=? 128 then
    let '(r, rest) := accumulate8 (n / 8 - 1) (firstn 8 a) (skipn 8 a) in
    sum_loop (reduce8 r) rest
  else
    match fuel with
    | O => sum_loop 0%float a
    | S fuel' =>
        let n2 := n / 2 - (n / 2) mod 8 in
        (pairwise_sum fuel' (firstn n2 a) + pairwise_sum fuel' (skipn n2 a))%float
    end.

(** [np.add.reduce] of one vector, starting from the identity [0.]. *)
Definition add_reduce (a : list float) : float :=
  (0 + pairwise_sum (length a) a)%float.

(** [a.mean()] of one vector; an empty vector gives NaN. *)
Definition np_mean (a : list float) : float :=
  (add_reduce a / float_of_Z (Z.of_nat (length a)))%float.

Definition np_maximum (a b : float) : float :=
  if (b <=? a)%float || PrimFloat.is_nan a then a else b.

Definition np_minimum (a b : float) : float :=
  if (a <=? b)%float || PrimFloat.is_nan a then a else b.

(** [np.linalg.norm(v, ord=ord)] of one row [v]. *)
Definition vector_norm (ord : scalar) (v : list float) : result float :=
  let zero_size := ValueError "zero-size array to reduction operation which has no identity" in
  if scalar_eqb ord (SFlt infinity) then
    match map PrimFloat.abs v with
    | [] => Raise zero_size
    | a :: l => Ok (fold_left np_maximum l a)
    end
  else if scalar_eqb ord (SFlt neg_infinity) then
    match map PrimFloat.abs v with
    | [] => Raise zero_size
    | a :: l => Ok (fold_left np_minimum l a)
    end
  else if scalar_eqb ord (SInt 0) then
    Ok (add_reduce (map (fun d => if (d =? 0)%float then 0%float else 1%float) v))
  else if scalar_eqb ord (SInt 1) then
    Ok (add_reduce (map PrimFloat.abs v))
  else if scalar_eqb ord (SInt 2) then
    Ok (PrimFloat.sqrt (add_reduce (map (fun d => d * d)%float v)))
  else
    let p := float_of_scalar ord in
    Ok (np_power lib
          (add_reduce (map (fun d => np_power lib (PrimFloat.abs d) p) v))
          (1 / p)%float).

(** The difference [x.astype(float) - x_adv.astype(float)]. *)
Definition float_diff (x x_adv : ndarray) : result (list float) :=
  if shape_eqb (shape x) (shape x_adv)
  then Ok (map2 (fun a b => (float_of_scalar a - float_of_scalar b)%float)
                (data x) (data x_adv))
  else Raise (Unmodelled "broadcasting").

Definition norm (x x_adv : ndarray) (ord : scalar) : result (list scalar) :=
  let* diff := float_diff x x_adv in
  match shape x with
  | [] => Raise (IndexError "tuple index out of range")
  | O :: _ => Raise (ValueError "cannot reshape array of size 0 into shape (0,newaxis)")
  | n :: s =>
      let* values := mapM (vector_norm ord) (chunks (size_of s) n diff) in
      Ok (map SFlt values)
  end.

Definition linf (x x_adv : ndarray) := norm x x_adv (SFlt infinity).
Definition l2 (x x_adv : ndarray) := norm x x_adv (SInt 2).
Definition l1 (x x_adv : ndarray) := norm x x_adv (SInt 1).
Definition l0 (x x_adv : ndarray) := norm x x_adv (SInt 0).

Definition lp (x x_adv : ndarray) (p : scalar) : result (list scalar) :=
  if scalar_leb p (SInt 0) then Raise (ValueError "p must be positive")
  else norm x x_adv p.

(** ** Signal to noise ratio *)

(** The sub-arrays met when iterating over the first axis. *)
Definition subarrays (a : ndarray) : result (list ndarray) :=
  let* r := rows a in
  Ok (map (mk_ndarray (tl (shape a))) r).

Definition _snr (x_i x_adv_i : ndarray) : result float :=
  if negb (shape_eqb (shape x_i) (shape x_adv_i)) then
    Raise (ValueError "x_i.shape != x_adv_i.shape")
  else if negb (ndim x_i =? 1) then
    Raise (ValueError "_snr input must be single dimensional (not multichannel)")
  else
    let xs := map float_of_scalar (data x_i) in
    let advs := map float_of_scalar (data x_adv_i) in
    let signal_power := np_mean (map (fun v => v * v)%float xs) in
    let noise_power :=
      np_mean (map2 (fun a b => (a - b) * (a - b))%float xs advs) in
    Ok (signal_power / noise_power)%float.

Definition snr (x x_adv : ndarray) : result (list scalar) :=
  let* lx := len x in
  let* la := len x_adv in
  if negb (lx =? la) then Raise (ValueError "len(x) != len(x_adv)")
  else
    let* xs := subarrays x in
    let* advs := subarrays x_adv in
    let* v := mapM (fun p => _snr (fst p) (snd p)) (combine xs advs) in
    Ok (map SFlt v).

Definition decibels (l : list scalar) : list scalar :=
  map (fun v => SFlt (10 * np_log10 lib (float_of_scalar v))%float) l.

Definition snr_db (x x_adv : ndarray) : result (list scalar) :=
  let* v := snr x x_adv in Ok (decibels v).

Definition _snr_spectrogram (x_i x_adv_i : ndarray) : result float :=
  if negb (shape_eqb (shape x_i) (shape x_adv_i)) then
    Raise (ValueError "x_i.shape != x_adv_i.shape")
  else
    let xs := map float_of_scalar (data x_i) in
    let advs := map float_of_scalar (data x_adv_i) in
    let signal_power := np_mean (map PrimFloat.abs xs) in
    let noise_power := np_mean (map2 (fun a b => PrimFloat.abs (a - b))%float xs advs) in
    Ok (signal_power / noise_power)%float.

Definition snr_spectrogram (x x_adv : ndarray) : result (list scalar) :=
  if negb (shape_eqb (shape x) (shape x_adv)) then
    Raise (ValueError "x.shape != x_adv.shape")
  else
    let* xs := subarrays x in
    let* advs := subarrays x_adv in
    let* v := mapM (fun p => _snr_spectrogram (fst p) (snd p)) (combine xs advs) in
    Ok (map SFlt v).

Definition snr_spectrogram_db (x x_adv : ndarray) : result (list scalar) :=
  let* v := snr_spectrogram x x_adv in Ok (decibels v).

(** ** Python dictionaries

    A [dict] keeps its keys in insertion order; assigning to a key that
    is present replaces its value in place. *)

Definition dict (V : Type) : Type := list (string * V).

Fixpoint dict_get {V : Type} (k : string) (d : dict V) : option V :=
  match d with
  | [] => None
  | (k', v) :: d' => if String.eqb k k' then Some v else dict_get k d'
  end.

Fixpoint dict_set {V : Type} (k : string) (v : V) (d : dict V) : dict V :=
  match d with
  | [] => [(k, v)]
  | (k', v') :: d' =>
      if String.eqb k k' then (k', v) :: d' else (k', v') :: dict_set k v d'
  end.

Definition dict_mem {V : Type} (k : string) (d : dict V) : bool :=
  match dict_get k d with Some _ => true | None => false end.

Definition keys {V : Type} (d : dict V) : list string := map fst d.

(** A Python value held in a ledger entry or in a results mapping. *)
Inductive pyval : Type :=
| VNum (x : scalar)
| VStr (s : string)
| VList (l : list scalar).

Definition str_of_scalar (x : scalar) : string :=
  match x with
  | SInt z => NilZero.string_of_int (Z.to_int z)
  | SFlt f => float_repr lib f
  end.

(** [str(v)], as an f-string renders it. *)
Definition py_str (v : pyval) : string :=
  match v with
  | VNum x => str_of_scalar x
  | VStr s => s
  | VList l => ("[" ++ String.concat ", " (map str_of_scalar l) ++ "]")%string
  end.

Definition py_add (a b : pyval) : result pyval :=
  match a, b with
  | VNum x, VNum y => Ok (VNum (scalar_add x y))
  | VStr s, VStr t => Ok (VStr (s ++ t)%string)
  | VList l, VList m => Ok (VList (l ++ m))
  | _, _ => Raise (TypeError "unsupported operand type(s) for +")
  end.

Definition scalar_is_zero (x : scalar) : bool := scalar_eqb x (SInt 0).

(** [a / b], Python's true division. *)
Definition py_truediv (a b : pyval) : result pyval :=
  match a, b with
  | VNum x, VNum y =>
      if scalar_is_zero y then Raise (ZeroDivisionError "division by zero")
      else Ok (VNum (SFlt (float_of_scalar x / float_of_scalar y)))
  | _, _ => Raise (TypeError "unsupported operand type(s) for /")
  end.

(** ** The registry of metrics *)

(** A metric as [MetricList.append] calls it: two batches and whatever
    further positional argument the caller passed. *)
Definition metric_fn : Type :=
  ndarray -> ndarray -> option scalar -> result (list scalar).

Definition binary_metric (f : ndarray -> ndarray -> result (list scalar)) : metric_fn :=
  fun x y extra =>
    match extra with
    | None => f x y
    | Some _ => Raise (TypeError "takes 2 positional arguments but 3 were given")
    end.

Definition ternary_metric (f : ndarray -> ndarray -> scalar -> result (list scalar))
  : metric_fn :=
  fun x y extra =>
    match extra with
    | Some v => f x y v
    | None => Raise (TypeError "missing 1 required positional argument")
    end.

Definition SUPPORTED_METRICS : dict metric_fn :=
  [ ("categorical_accuracy", binary_metric categorical_accuracy);
    ("top_n_categorical_accuracy", ternary_metric top_n_categorical_accuracy);
    ("top_5_categorical_accuracy", binary_metric top_5_categorical_accuracy);
    ("norm", ternary_metric norm);
    ("l0", binary_metric l0);
    ("l1", binary_metric l1);
    ("l2", binary_metric l2);
    ("lp", ternary_metric lp);
    ("linf", binary_metric linf);
    ("snr", binary_metric snr);
    ("snr_db", binary_metric snr_db);
    ("snr_spectrogram", binary_metric snr_spectrogram);
    ("snr_spectrogram_db", binary_metric snr_spectrogram_db) ].

(** ** MetricList *)

Record MetricList : Type := mk_MetricList {
  name : string;
  function : metric_fn;
  _values : list scalar
}.

(** The [function] argument of the constructor. *)
Inductive function_arg : Type :=
| FunctionNone
| FunctionCallable (f : metric_fn)
| FunctionOther.

Definition MetricList_init (nm : string) (fn : function_arg) : result MetricList :=
  match fn with
  | FunctionNone =>
      match dict_get nm SUPPORTED_METRICS with
      | Some f => Ok (mk_MetricList nm f [])
      | None => Raise (KeyError (nm ++ " is not part of armory.utils.metrics")%string)
      end
  | FunctionCallable f => Ok (mk_MetricList nm f [])
  | FunctionOther => Raise (ValueError "function must be callable or None")
  end.

Definition clear (m : MetricList) : MetricList :=
  mk_MetricList (name m) (function m) [].

Definition append (m : MetricList) (x y : ndarray) (extra : option scalar)
  : result MetricList :=
  let* value := function m x y extra in
  Ok (mk_MetricList (name m) (function m) (_values m ++ value)).

Definition values (m : MetricList) : list scalar := _values m.

(** [sum(float(x) for x in self._values) / len(self._values)] *)
Definition mean (m : MetricList) : result float :=
  let total :=
    fold_left (fun acc x => scalar_add acc (SFlt (float_of_scalar x)))
              (_values m) (SInt 0) in
  let* q := py_truediv (VNum total) (VNum (SInt (Z.of_nat (length (_values m))))) in
  match q with
  | VNum x => Ok (float_of_scalar x)
  | _ => Raise (TypeError "not a number")
  end.

(** ** MetricsLogger *)

(** One ledger entry, a [defaultdict(lambda: 0)]. *)
Definition entry : Type := dict pyval.

Definition ledger : Type := dict entry.

Record MetricsLogger : Type := mk_MetricsLogger {
  tasks : list MetricList;
  adversarial_tasks : list MetricList;
  perturbations : list MetricList;
  means : bool;
  full : bool;
  computational_resource_dict : ledger
}.

(** The [task] and [perturbation] arguments of the constructor. *)
Inductive names_arg : Type :=
| NamesNone
| NamesStr (s : string)
| NamesList (l : list string)
| NamesOther.

Definition _generate_counters (names : names_arg) : result (list MetricList) :=
  match names with
  | NamesNone => Ok []
  | NamesStr s => mapM (fun x => MetricList_init x FunctionNone) [s]
  | NamesList l => mapM (fun x => MetricList_init x FunctionNone) l
  | NamesOther => Raise (ValueError "must be one of (None, str, list)")
  end.

(** [MetricsLogger.__init__]; the two warnings it may log are not
    modelled.  [profiler_type] and [computational_resource_dict] are the
    last two arguments. *)
Definition MetricsLogger_init (task perturbation : names_arg)
    (means_arg record_metric_per_sample : bool)
    (profiler_type : option string)
    (computational_resource_dict_arg : option ledger) : result MetricsLogger :=
  let* t := _generate_counters task in
  let* a := _generate_counters task in
  let* p := _generate_counters perturbation in
  Ok (mk_MetricsLogger t a p means_arg record_metric_per_sample []).

Definition MetricsLogger_clear (lg : MetricsLogger) : MetricsLogger :=
  mk_MetricsLogger (map clear (tasks lg)) (map clear (adversarial_tasks lg))
                   (map clear (perturbations lg)) (means lg) (full lg)
                   (computational_resource_dict lg).

(** [for metric in ms: metric.append(x, y)].  The lists are mutated one
    after the other, so a failure keeps the appends already made. *)
Fixpoint append_all (ms : list MetricList) (x y : ndarray)
  : list MetricList * option exn :=
  match ms with
  | [] => ([], None)
  | m :: ms' =>
      match append m x y None with
      | Raise e => (m :: ms', Some e)
      | Ok m' => let '(r, e) := append_all ms' x y in (m' :: r, e)
      end
  end.

Definition update_task (lg : MetricsLogger) (y y_pred : ndarray) (adversarial : bool)
  : MetricsLogger * option exn :=
  if adversarial then
    let '(a, e) := append_all (adversarial_tasks lg) y y_pred in
    (mk_MetricsLogger (tasks lg) a (perturbations lg) (means lg) (full lg)
                      (computational_resource_dict lg), e)
  else
    let '(t, e) := append_all (tasks lg) y y_pred in
    (mk_MetricsLogger t (adversarial_tasks lg) (perturbations lg) (means lg) (full lg)
                      (computational_resource_dict lg), e).

Definition update_perturbation (lg : MetricsLogger) (x x_adv : ndarray)
  : MetricsLogger * option exn :=
  let '(p, e) := append_all (perturbations lg) x x_adv in
  (mk_MetricsLogger (tasks lg) (adversarial_tasks lg) p (means lg) (full lg)
                    (computational_resource_dict lg), e).

(** The inner loop of [results] for one group of metrics. *)
Fixpoint results_of_metrics (full_flag means_flag : bool) (prefix : string)
    (metrics : list MetricList) (results : dict pyval) : result (dict pyval) :=
  match metrics with
  | [] => Ok results
  | metric :: rest =>
      let results :=
        if full_flag
        then dict_set (prefix ++ "_" ++ name metric)%string (VList (values metric)) results
        else results in
      let* results :=
        if means_flag then
          match mean metric with
          | Ok v => Ok (dict_set (prefix ++ "_mean_" ++ name metric)%string
                                 (VNum (SFlt v)) results)
          | Raise (ZeroDivisionError _) =>
              Raise (ZeroDivisionError
                       ("No values to calculate mean in " ++ prefix ++ "_" ++ name metric)%string)
          | Raise e => Raise e
          end
        else Ok results in
      results_of_metrics full_flag means_flag prefix rest results
  end.

(** The loop of [results] over the resource ledger; [todo] holds the
    entries still to visit. *)
Fixpoint results_of_ledger (todo : ledger) (results : dict pyval)
  : result (dict pyval) :=
  match todo with
  | [] => Ok results
  | (nm, e) :: rest =>
      match dict_get "execution_count" e, dict_get "total_time" e with
      | Some execution_count, Some total_time =>
          let* average_time := py_truediv total_time execution_count in
          let results :=
            dict_set ("Avg. CPU time (s) for " ++ py_str execution_count
                        ++ " executions of " ++ nm)%string average_time results in
          let results :=
            match dict_get "stats" e with
            | Some stats => dict_set (nm ++ " profiler stats")%string stats results
            | None => results
            end in
          results_of_ledger rest results
      | _, _ =>
          Raise (ValueError "Computational resource dictionary entry corrupted, missing data.")
      end
  end.

(** The first loop of [results], over the three groups of metrics. *)
Definition results_of_groups (lg : MetricsLogger) : result (dict pyval) :=
  let* r := results_of_metrics (full lg) (means lg) "benign" (tasks lg) [] in
  let* r := results_of_metrics (full lg) (means lg) "adversarial" (adversarial_tasks lg) r in
  results_of_metrics (full lg) (means lg) "perturbation" (perturbations lg) r.

Definition results (lg : MetricsLogger) : result (dict pyval) :=
  let* r := results_of_groups lg in
  results_of_ledger (computational_resource_dict lg) r.

End Metrics.

(** ** The scoped resource profiler

    [resource_context] is a generator wrapped by [contextlib.contextmanager]
    and used as [with resource_context(...): body].  The [world] holds what
    the region reads and writes: the clock, the ledger object passed as
    [computational_resource_dict], and the text [pstats] would print for
    the profile collected so far.  A region body is any computation on the
    world that returns or raises. *)

Record world : Type := mk_world {
  perf_counter : float;
  resource_ledger : ledger;
  profile_stats : string
}.

Definition region (A : Type) : Type := world -> result A * world.

Definition profiler_types : list string := ["Basic"; "Deterministic"].

(** [comp[k] += v] on a [defaultdict(lambda: 0)]: reading a missing key
    first stores the default. *)
Definition entry_iadd (k : string) (v : pyval) (comp : entry) : entry * option exn :=
  let comp := if dict_mem k comp then comp else dict_set k (VNum (SInt 0)) comp in
  match dict_get k comp with
  | Some old =>
      match py_add old v with
      | Ok s => (dict_set k s comp, None)
      | Raise e => (comp, Some e)
      end
  | None => (comp, None)
  end.

(** [comp[k]] read on a [defaultdict(lambda: 0)]. *)
Definition entry_get (k : string) (comp : entry) : pyval :=
  match dict_get k comp with
  | Some v => v
  | None => VNum (SInt 0)
  end.

(** The statements after [yield], run on the ledger [d]. *)
Definition record_usage (nm : string) (deterministic : bool) (elapsedTime : float)
    (stats : string) (d : ledger) : ledger * option exn :=
  let d :=
    if dict_mem nm d then d
    else dict_set nm (if deterministic then [("stats", VStr "")] else []) d in
  let comp := match dict_get nm d with Some e => e | None => [] end in
  let '(comp, e1) := entry_iadd "execution_count" (VNum (SInt 1)) comp in
  match e1 with
  | Some e => (dict_set nm comp d, Some e)
  | None =>
      let '(comp, e2) := entry_iadd "total_time" (VNum (SFlt elapsedTime)) comp in
      match e2 with
      | Some e => (dict_set nm comp d, Some e)
      | None =>
          if deterministic then
            let '(comp, e3) := entry_iadd "stats" (VStr stats) comp in
            (dict_set nm comp d, e3)
          else (dict_set nm comp d, None)
      end
  end.

(** [with resource_context(name, profiler, computational_resource_dict): body].
    [dict_given] tells whether a ledger was passed rather than [None].
    An exception raised by the body is thrown into the generator at its
    [yield]; the generator does not catch it, so the statements after the
    [yield] do not run and the exception leaves the [with] statement. *)
Definition resource_context {A : Type} (nm : string) (profiler : option string)
    (dict_given : bool) (body : region A) : region A :=
  fun w =>
    match profiler with
    | None => body w
    | Some p =>
        if negb (existsb (String.eqb p) profiler_types) then
          (Raise (ValueError "Profiler is not one of ['Basic', 'Deterministic']."), w)
        else
          let deterministic := String.eqb p "Deterministic" in
          let startTime := perf_counter w in
          let '(r, w1) := body w in
          match r with
          | Raise e => (Raise e, w1)
          | Ok a =>
              let elapsedTime := (perf_counter w1 - startTime)%float in
              let stats := profile_stats w1 in
              if negb dict_given then
                (Raise (TypeError "argument of type 'NoneType' is not iterable"), w1)
              else
                let '(d, err) :=
                  record_usage nm deterministic elapsedTime stats (resource_ledger w1) in
                let w2 := mk_world (perf_counter w1) d (profile_stats w1) in
                match err with
                | Some e => (Raise e, w2)
                | None => (Ok a, w2)
                end
          end
    end.

(** ** The poisoning scenario *)

(** An entry of the label list [poison_y]: a label of the clean data, or
    the label array the attack returned. *)
Inductive label : Type :=
| LabelInt (c : nat)
| LabelArr (l : list nat).

(** [int(entry)], as [to_categorical] reads an entry. *)
Definition label_value (l : label) : option nat :=
  match l with
  | LabelInt c => Some c
  | LabelArr [c] => Some c
  | LabelArr _ => None
  end.

Definition index {A : Type} (l : list A) (i : nat) : result A :=
  match nth_error l i with
  | Some a => Ok a
  | None => Raise (IndexError "index out of bounds")
  end.

(** [np.concatenate(l, axis=0)] *)
Definition concatenate {A : Type} (l : list (list A)) : result (list A) :=
  match l with
  | [] => Raise (ValueError "need at least one array to concatenate")
  | _ => Ok (concat l)
  end.

(** [np.bincount(y)] *)
Definition bincount (y : list nat) : list nat :=
  match y with
  | [] => []
  | _ => map (count_occ Nat.eq_dec y) (seq 0 (S (list_max y)))
  end.

(** [np.where(y == c)[0]], the indices counted from [i]. *)
Fixpoint where_from (i : nat) (y : list nat) (c : nat) : list nat :=
  match y with
  | [] => []
  | l :: y' =>
      if l =? c then i :: where_from (S i) y' c else where_from (S i) y' c
  end.

Definition where_eq (y : list nat) (c : nat) : list nat := where_from 0 y c.

(** [a[mask]] for a boolean mask over the first axis. *)
Fixpoint select {A : Type} (mask : list bool) (l : list A) : list A :=
  match mask, l with
  | b :: mask', a :: l' => if b then a :: select mask' l' else select mask' l'
  | _, _ => []
  end.

Definition mask_select {A : Type} (l : list A) (mask : list bool) : result (list A) :=
  if length mask =? length l then Ok (select mask l)
  else Raise (IndexError "boolean index did not match indexed array").

Definition mask_rows (a : ndarray) (mask : list bool) : result ndarray :=
  match shape a with
  | [] => Raise (IndexError "too many indices for array")
  | n :: s =>
      let* kept := mask_select (chunks (size_of s) n (data a)) mask in
      Ok (mk_ndarray (length kept :: s) (concat kept))
  end.

Definition labels_array (y : list nat) : ndarray :=
  array_of_list (map (fun c => SInt (Z.of_nat c)) y).

Inductive split_type : Type := train | test | poison_split | poison_test.

Record config : Type := mk_config {
  dataset_batch_size : nat;
  attack_type : option string;
  train_epochs : nat;
  source_class : nat;
  target_class : nat;
  fit_batch_size : option nat;
  np_seed : Z;
  tf_seed : Z;
  use_poison_filtering_defense : option bool;
  defense_train_epochs : option nat;
  num_images_target_class : nat;
  fraction_poisoned : float;
  poison_dataset_flag : bool
}.

Section Scenario.

Variable lib : library.

(** Images, as the datasets give them and with the channel axis first
    as the attack takes them, and the two transpositions between them. *)
Variables image channels : Type.
Variable transpose_201 : image -> channels.
Variable transpose_120 : channels -> image.

(** The attack object: [attack.poison(x, y)]. *)
Variable attack : Type.
Variable poison : attack -> channels -> list nat -> channels * list nat.

(** numpy's global random generator. *)
Variable rng : Type.
Variable seed : Z -> rng.
Variable permutation : rng -> nat -> list nat * rng.

(** The model, the defense, the datasets and the label encoding. *)
Variables classifier onehot : Type.
Variable load_model : classifier.
Variable load_defense_model : classifier.
Variable fit : classifier -> list image -> list onehot -> nat -> nat -> classifier.
Variable predict : classifier -> list image -> ndarray.
Variable to_categorical : list label -> list onehot.
Variable detect_poison : classifier -> list image -> list onehot -> list nat.
Variable load_attack : attack.
Variable load_dataset : split_type -> nat -> list (list image * list nat).

Definition poison_sample (src_imgs : list image) (src_lbls : list nat) (src tgt : nat)
    (atk : attack) (poisoned_indices : list nat) (idx : nat) : result (image * label) :=
  let* lbl := index src_lbls idx in
  if (lbl =? src) && existsb (Nat.eqb idx) poisoned_indices then
    let* img := index src_imgs idx in
    let src_img := transpose_201 img in
    let '(p_img, p_label) := poison atk src_img [tgt] in
    Ok (transpose_120 p_img, LabelArr p_label)
  else
    let* img := index src_imgs idx in
    Ok (img, LabelInt lbl).

Definition poison_dataset (src_imgs : list image) (src_lbls : list nat) (src tgt : nat)
    (ds_size : nat) (atk : attack) (poisoned_indices : list nat)
  : result (list image * list label) :=
  let* samples :=
    mapM (poison_sample src_imgs src_lbls src tgt atk poisoned_indices)
         (seq 0 ds_size) in
  Ok (map fst samples, map snd samples).

(** [np.random.choice(a, size=size, replace=False)] *)
Definition choice (g : rng) (a : list nat) (size : Z) : result (list nat * rng) :=
  let pop_size := length a in
  if (pop_size =? 0) && negb (size =? 0)%Z then
    Raise (ValueError "'a' cannot be empty unless no samples are taken")
  else if (Z.of_nat pop_size <? size)%Z then
    Raise (ValueError "Cannot take a larger sample than population when 'replace=False'")
  else if (size <? 0)%Z then
    Raise (ValueError "negative dimensions are not allowed")
  else
    let '(perm, g') := permutation g pop_size in
    let* picked := mapM (index a) (firstn (Z.to_nat size) perm) in
    Ok (picked, g').

(** [int(fraction_poisoned * total_count)] *)
Definition scaled_count (fraction : float) (total_count : nat) : result Z :=
  int_of_float (fraction * float_of_Z (Z.of_nat total_count))%float.

(** Lines 142-151 of [_evaluate]: the choice of the indices to poison. *)
Definition select_poisoned_indices (g : rng) (y_train_all : list nat) (src_class : nat)
    (fraction : float) : result (list nat * rng) :=
  let* total_count := index (bincount y_train_all) src_class in
  let* poison_count := scaled_count fraction total_count in
  let src_indices := where_eq y_train_all src_class in
  choice g src_indices poison_count.

(** The loop over the clean batches in preloaded mode, drawing one batch
    of poison for each. *)
Fixpoint interleave (clean poison_data : list (list image * list nat))
  : result (list (list image) * list (list nat)) :=
  match clean with
  | [] => Ok ([], [])
  | (x_clean, y_clean) :: clean' =>
      match poison_data with
      | [] => Raise StopIteration
      | (x_poison, y_poison) :: poison' =>
          let* (xs, ys) := interleave clean' poison' in
          Ok (x_clean :: x_poison :: xs, y_clean :: y_poison :: ys)
      end
  end.

(** Lines 96-160: the in-memory training set. *)
Definition build_training_set (cfg : config) (g : rng)
  : result (list image * list label) :=
  let clean_data := load_dataset train (dataset_batch_size cfg) in
  match attack_type cfg with
  | Some "preloaded" =>
      let* num_poisoned :=
        scaled_count (fraction_poisoned cfg) (num_images_target_class cfg) in
      if (num_poisoned =? 0)%Z then
        Raise (ValueError "For the preloaded attack, fraction_poisoned must be set so that at least on data point is poisoned.")
      else
        let poison_data := load_dataset poison_split (Z.to_nat num_poisoned) in
        let* (xs, ys) := interleave clean_data poison_data in
        let* x_train_all := concatenate xs in
        let* y_train_all := concatenate ys in
        Ok (x_train_all, map LabelInt y_train_all)
  | _ =>
      let* x_train_all := concatenate (map fst clean_data) in
      let* y_train_all := concatenate (map snd clean_data) in
      if poison_dataset_flag cfg then
        let* (poisoned_indices, _) :=
          select_poisoned_indices g y_train_all (source_class cfg)
                                  (fraction_poisoned cfg) in
        poison_dataset x_train_all y_train_all (source_class cfg) (target_class cfg)
                       (length y_train_all) load_attack poisoned_indices
      else Ok (x_train_all, map LabelInt y_train_all)
  end.

(** Lines 164-214: the optional filtering defense, then the training. *)
Definition train_classifier (cfg : config) (check_run : bool)
    (x_train_all : list image) (y_train_all : list label) : result classifier :=
  let batch := match fit_batch_size cfg with
               | Some b => b
               | None => dataset_batch_size cfg
               end in
  let use_defense :=
    if check_run then false
    else match use_poison_filtering_defense cfg with
         | Some b => b
         | None => true
         end in
  let y_train_all_categorical := to_categorical y_train_all in
  let* (x_train_final, y_train_final) :=
    if use_defense then
      let epochs := match defense_train_epochs cfg with
                    | Some e => e
                    | None => train_epochs cfg
                    end in
      let classifier_for_defense :=
        fit load_defense_model x_train_all y_train_all_categorical batch epochs in
      let is_clean :=
        detect_poison classifier_for_defense x_train_all y_train_all_categorical in
      let indices_to_keep := map (Nat.eqb 1) is_clean in
      let* x := mask_select x_train_all indices_to_keep in
      let* y := mask_select y_train_all_categorical indices_to_keep in
      Ok (x, y)
    else Ok (x_train_all, y_train_all_categorical) in
  match x_train_final with
  | [] => Ok load_model
  | _ => Ok (fit load_model x_train_final y_train_final batch (train_epochs cfg))
  end.

(** Lines 227-234: the loop over the clean test batches. *)
Fixpoint test_clean (c : classifier) (src_class : nat)
    (batches : list (list image * list nat))
    (validation_metric target_class_benign_metric : MetricList)
  : result (MetricList * MetricList) :=
  match batches with
  | [] => Ok (validation_metric, target_class_benign_metric)
  | (x, y) :: rest =>
      let y_pred := predict c x in
      let* validation_metric := append validation_metric (labels_array y) y_pred None in
      let* y_pred_tgt_class := mask_rows y_pred (map (fun l => l =? src_class) y) in
      let* n := len y_pred_tgt_class in
      let* target_class_benign_metric :=
        if n =? 0 then Ok target_class_benign_metric
        else append target_class_benign_metric
                    (labels_array (repeat src_class n)) y_pred_tgt_class None in
      test_clean c src_class rest validation_metric target_class_benign_metric
  end.

(** Lines 255-262: the loop over the preloaded poisoned test batches. *)
Fixpoint test_preloaded_poison (c : classifier) (src_class : nat)
    (batches : list (list image * list nat))
    (test_metric targeted_test_metric : MetricList)
  : result (MetricList * MetricList) :=
  match batches with
  | [] => Ok (test_metric, targeted_test_metric)
  | (x_poison_test, y_poison_test) :: rest =>
      let y_pred := predict c x_poison_test in
      let* n := len y_pred in
      let y_true := repeat src_class n in
      let* targeted_test_metric :=
        append targeted_test_metric (labels_array y_poison_test) y_pred None in
      let* test_metric := append test_metric (labels_array y_true) y_pred None in
      test_preloaded_poison c src_class rest test_metric targeted_test_metric
  end.

(** Lines 270-275: the loop over the clean test batches in preloaded mode. *)
Fixpoint test_preloaded_clean (c : classifier)
    (batches : list (list image * list nat)) (test_metric : MetricList)
  : result MetricList :=
  match batches with
  | [] => Ok test_metric
  | (x_clean_test, y_clean_test) :: rest =>
      let y_pred := predict c x_clean_test in
      let* test_metric := append test_metric (labels_array y_clean_test) y_pred None in
      test_preloaded_clean c rest test_metric
  end.

(** Lines 286-306: the loop over the test batches with the whole source
    class poisoned. *)
Fixpoint test_poisoned (c : classifier) (src_class tgt_class : nat)
    (batches : list (list image * list nat))
    (test_metric targeted_test_metric : MetricList)
  : result (MetricList * MetricList) :=
  match batches with
  | [] => Ok (test_metric, targeted_test_metric)
  | (x_test, y_test) :: rest =>
      let src_indices := where_eq y_test src_class in
      let poisoned_indices := src_indices in
      let* (x_test, _) :=
        poison_dataset x_test y_test src_class tgt_class (length y_test)
                       load_attack poisoned_indices in
      let y_pred := predict c x_test in
      let* test_metric := append test_metric (labels_array y_test) y_pred None in
      let* y_pred_targeted := mask_rows y_pred (map (fun l => l =? src_class) y_test) in
      let* n := len y_pred_targeted in
      let* targeted_test_metric :=
        if n =? 0 then Ok targeted_test_metric
        else append targeted_test_metric
                    (labels_array (repeat tgt_class n)) y_pred_targeted None in
      test_poisoned c src_class tgt_class rest test_metric targeted_test_metric
  end.

Definition is_preloaded (cfg : config) : bool :=
  match attack_type cfg with
  | Some t => String.eqb t "preloaded"
  | None => false
  end.

(** [GTSRB._evaluate]; logging and the TensorFlow seed are not modelled. *)
Definition _evaluate (check_run : bool) (cfg : config) (num_eval_batches : option nat)
  : result (dict float) :=
  match num_eval_batches with
  | Some (S _) => Raise (ValueError "num_eval_batches shouldn't be set for poisoning scenario")
  | _ =>
      let src_class := source_class cfg in
      let tgt_class := target_class cfg in
      let batch := match fit_batch_size cfg with
                   | Some b => b
                   | None => dataset_batch_size cfg
                   end in
      let g := seed (np_seed cfg) in
      let* (x_train_all, y_train_all) := build_training_set cfg g in
      let* c := train_classifier cfg check_run x_train_all y_train_all in
      let test_data := load_dataset test batch in
      let* validation_metric := MetricList_init lib "categorical_accuracy" FunctionNone in
      let* target_class_benign_metric :=
        MetricList_init lib "categorical_accuracy" FunctionNone in
      let* (validation_metric, target_class_benign_metric) :=
        test_clean c src_class test_data validation_metric target_class_benign_metric in
      let* validation_accuracy := mean validation_metric in
      let* validation_accuracy_targeted_class := mean target_class_benign_metric in
      let results :=
        dict_set "validation_accuracy_targeted_class" validation_accuracy_targeted_class
          (dict_set "validation_accuracy" validation_accuracy []) in
      let* test_metric := MetricList_init lib "categorical_accuracy" FunctionNone in
      let* targeted_test_metric :=
        MetricList_init lib "categorical_accuracy" FunctionNone in
      let* (test_metric, targeted_test_metric) :=
        if is_preloaded cfg then
          let* num_poisoned :=
            scaled_count (fraction_poisoned cfg) (num_images_target_class cfg) in
          let test_data_poison :=
            load_dataset poison_test (Z.to_nat num_poisoned) in
          let* (test_metric, targeted_test_metric) :=
            test_preloaded_poison c src_class test_data_poison
                                  test_metric targeted_test_metric in
          let test_data_clean := load_dataset test batch in
          let* test_metric := test_preloaded_clean c test_data_clean test_metric in
          Ok (test_metric, targeted_test_metric)
        else if poison_dataset_flag cfg then
          test_poisoned c src_class tgt_class (load_dataset test batch)
                        test_metric targeted_test_metric
        else Ok (test_metric, targeted_test_metric) in
      if poison_dataset_flag cfg || is_preloaded cfg then
        let* test_accuracy := mean test_metric in
        let results := dict_set "test_accuracy" test_accuracy results in
        let* targeted := mean targeted_test_metric in
        Ok (dict_set "targeted_misclassification_accuracy" targeted results)
      else Ok results
  end.

End Scenario.


(** ** Concrete collaborators for the examples *)

(** A stable [argsort] by insertion. *)
Fixpoint insert_index (v : list scalar) (i : nat) (sorted : list nat) : list nat :=
  match sorted with
  | [] => [i]
  | j :: rest =>
      if scalar_ltb (nth i v (SInt 0)) (nth j v (SInt 0)) then i :: j :: rest
      else j :: insert_index v i rest
  end.

Definition insertion_argsort (v : list scalar) : list nat :=
  fold_left (fun sorted i => insert_index v i sorted) (seq 0 (length v)) [].

(** A library whose [argsort] sorts; the examples below never reach its
    power, logarithm or float printing, which are left constant. *)
Definition example_library : library :=
  mk_library insertion_argsort (fun _ _ => nan) (fun _ => nan) (fun _ => "nan").

Definition example_labels : ndarray := array_of_list [SInt 1; SInt 0; SInt 1].
Definition example_predictions : ndarray := array_of_list [SInt 1; SInt 1; SInt 1].

(** A ledger a caller might pass to the constructor of the logger. *)
Definition example_ledger : ledger :=
  [("fit", [("execution_count", VNum (SInt 3)); ("total_time", VNum (SFlt 1.5))])].

(** A world at time 10 with an empty ledger, a body that takes two
    seconds and returns, and one that takes two seconds and raises. *)
Definition example_world : world := mk_world 10 [] "".

Definition returning_body : region unit :=
  fun w => (Ok tt, mk_world (perf_counter w + 2) (resource_ledger w) (profile_stats w)).

Definition raising_body : region unit :=
  fun w => (Raise (ValueError "failure inside the region"),
            mk_world (perf_counter w + 2) (resource_ledger w) (profile_stats w)).

(** A vector of zeros, and a number that is zero. *)
Definition all_zero (l : list float) : Prop := Forall (fun d => d = 0%float) l.


(** A generator whose permutations reverse the range; its state never
    changes. *)
Definition reversing_permutation (g : unit) (n : nat) : list nat * unit :=
  (rev (seq 0 n), g).

Definition example_train_labels : list nat := [3; 1; 3; 0; 3; 3].

(** A small run of the scenario: images are numbers, the attack adds
    100 to a pixel, the model is never changed by training and scores
    class [x mod 3] highest, the defense keeps every sample. *)
Definition example_predict (c : unit) (x : list nat) : ndarray :=
  mk_ndarray [length x; 3]
    (concat (map (fun img => map (fun k => SFlt (if Nat.eqb k (img mod 3)
                                                   then 1%float else 0%float))
                                 [0; 1; 2]) x)).

Definition example_load_dataset (split : split_type) (batch_size : nat)
  : list (list nat * list nat) :=
  match split with
  | train => [([0; 1; 2], [0; 1; 2]); ([4; 5], [1; 2])]
  | test => [([0; 1; 2; 1], [0; 1; 2; 2])]
  | _ => []
  end.

Definition example_config : config :=
  mk_config 16 None 1 1 2 None 0 0 None None 0 0.5 false.

Definition example_evaluate (check_run : bool) (cfg : config)
    (num_eval_batches : option nat) : result (dict float) :=
  _evaluate example_library nat nat (fun x => x) (fun x => x)
            unit (fun _ x y => (x + 100, y))
            unit (fun _ => tt) reversing_permutation
            unit nat tt tt (fun c _ _ _ _ => c) example_predict
            (map (fun l => match label_value l with Some c => c | None => 0 end))
            (fun _ x _ => repeat 1 (length x)) tt example_load_dataset
            check_run cfg num_eval_batches.


(** Two samples of two readings, the second silent, and an all-zero
    adversarial batch of the same shape. *)
Definition example_audio : ndarray :=
  mk_ndarray [2; 2] [SFlt 3; SInt 4; SFlt 0; SInt 0].

Definition example_silence : ndarray :=
  mk_ndarray [2; 2] [SFlt 0; SInt 0; SFlt (-0); SFlt 0].

(** One call made on a logger between its construction and [results()]. *)
Inductive logger_update : Type :=
| UpdateTask (y y_pred : ndarray) (adversarial : bool)
| UpdatePerturbation (x x_adv : ndarray).

(** The logger after the call, whether the call returned or raised. *)
Definition apply_update (lg : MetricsLogger) (u : logger_update) : MetricsLogger :=
  match u with
  | UpdateTask y y_pred adversarial => fst (update_task lg y y_pred adversarial)
  | UpdatePerturbation x x_adv => fst (update_perturbation lg x x_adv)
  end.

(** A benign [update_task] on two lists of labels. *)
Definition label_update (batch : list scalar * list scalar) : logger_update :=
  UpdateTask (array_of_list (fst batch)) (array_of_list (snd batch)) false.

(** An adversarial [update_task] on a pair of arrays. *)
Definition adversarial_update (batch : ndarray * ndarray) : logger_update :=
  UpdateTask (fst batch) (snd batch) true.

(** A ledger entry as a region leaves it: a positive integer count and a
    numeric total time. *)
Definition timed_entry (e : entry) : Prop :=
  exists c t,
    dict_get "execution_count" e = Some (VNum (SInt c))
    /\ (1 <= c)%Z
    /\ dict_get "total_time" e = Some (VNum t).

Definition timed_ledger (d : ledger) : Prop :=
  Forall (fun ne => timed_entry (snd ne)) d.

(** Configurations of the small run that poison the training data: one
    with source class 1, of which half of the two training samples are
    poisoned, and one with source class 0, whose single training sample
    gives a poison count of 0. *)
Definition example_poisoned_config : config :=
  mk_config 16 None 1 1 2 None 0 0 None None 0 0.5 true.

Definition example_rare_class_config : config :=
  mk_config 16 None 1 0 2 None 0 0 None None 0 0.5 true.

(** A clean configuration whose source class 5 is no label of the test
    data. *)
Definition example_absent_class_config : config :=
  mk_config 16 None 1 5 2 None 0 0 None None 0 0.5 false.

(** * Properties *)

(** ** Sanity checks of the embedding *)

Example float_of_Z_3 : float_of_Z 3 = 3%float.
Proof. reflexivity. Qed.

(** [0.29 * 100] is just below 29 in binary64. *)
Example int_of_float_29 : int_of_float (0x1.28f5c28f5c28fp-2 * float_of_Z 100) = Ok 28%Z.
Proof. vm_compute. reflexivity. Qed.

Example categorical_accuracy_labels :
  categorical_accuracy (array_of_list [SInt 1; SInt 0; SInt 1])
                       (array_of_list [SInt 1; SInt 1; SInt 1])
  = Ok [SInt 1; SInt 0; SInt 1].
Proof. reflexivity. Qed.

Example categorical_accuracy_scores :
  categorical_accuracy (array_of_list [SInt 1; SInt 0])
                       (mk_ndarray [2; 3] [SFlt 0.5; SFlt 2; SFlt 1; SFlt 0.25; SFlt 4; SFlt 8])
  = Ok [SInt 1; SInt 0].
Proof. vm_compute. reflexivity. Qed.

(** ** MetricList *)

Lemma mean_no_values (m : MetricList) :
  _values m = [] -> mean m = Raise (ZeroDivisionError "division by zero").
Proof.
  intros H. unfold mean. rewrite H. reflexivity.
Qed.

Lemma MetricList_init_values (lib : library) (nm : string) (fn : function_arg)
    (m : MetricList) :
  MetricList_init lib nm fn = Ok m -> _values m = [] /\ name m = nm.
Proof.
  unfold MetricList_init. destruct fn.
  - destruct (dict_get nm (SUPPORTED_METRICS lib)); intros H; inversion H; auto.
  - intros H; inversion H; auto.
  - discriminate.
Qed.

(** C7: [mean()] of a MetricList that holds no score raises
    [ZeroDivisionError] (the EmptyAggregate failure): on every list whose
    values are empty, hence on a freshly constructed list and on any list
    right after [clear()]; it never returns a number there. *)
Theorem mean_empty_aggregate :
  (forall m : MetricList,
      _values m = [] -> mean m = Raise (ZeroDivisionError "division by zero"))
  /\ (forall lib nm fn m,
         MetricList_init lib nm fn = Ok m ->
         mean m = Raise (ZeroDivisionError "division by zero"))
  /\ (forall m : MetricList,
         mean (clear m) = Raise (ZeroDivisionError "division by zero")).
Proof.
  split; [exact mean_no_values | split].
  - intros lib nm fn m H. apply mean_no_values.
    exact (proj1 (MetricList_init_values lib nm fn m H)).
  - intros m. apply mean_no_values. reflexivity.
Qed.

Lemma mean_empty_aggregate_witness :
  exists m m',
    MetricList_init example_library "categorical_accuracy" FunctionNone = Ok m
    /\ mean m = Raise (ZeroDivisionError "division by zero")
    /\ append m example_labels example_predictions None = Ok m'
    /\ mean m' = Ok (2 / 3)%float
    /\ mean (clear m') = Raise (ZeroDivisionError "division by zero").
Proof.
  destruct mean_empty_aggregate as [_ [Hinit Hclear]].
  eexists. eexists.
  split; [reflexivity |].
  split; [apply (Hinit example_library "categorical_accuracy" FunctionNone); reflexivity |].
  split; [reflexivity |].
  split; [vm_compute; reflexivity | apply Hclear].
Defined.

Lemma mean_some_values (m : MetricList) :
  _values m <> [] -> exists f, mean m = Ok f.
Proof.
  intros H. unfold mean. destruct (_values m) as [|v vs]; [congruence |].
  eexists. cbn [length]. unfold py_truediv, scalar_is_zero, scalar_eqb.
  rewrite Nat2Z.inj_succ.
  destruct (Z.eqb_spec (Z.succ (Z.of_nat (length vs))) 0) as [E|E]; [lia |].
  cbn. reflexivity.
Qed.

(** ** Accuracy metrics *)

(** C4, as stated, fails for [n = 1]: with identical shapes the call is
    handed to [categorical_accuracy], which compares the labels and
    returns. *)
Lemma top_n_identical_shape_counterexample :
  shape example_labels = shape example_predictions
  /\ top_n_categorical_accuracy example_library example_labels example_predictions (SInt 1)
     = Ok [SInt 1; SInt 0; SInt 1].
Proof. split; reflexivity. Qed.

(** C4, amended: for [y] and [y_pred] of identical shape and every [n]
    that is at least 1, [top_n_categorical_accuracy] raises the
    [ValueError] asking for several predictions (the ShapeMismatch
    failure) when the integer value of [n] is not 1 (so at least 2);
    when it is 1 the call returns what [categorical_accuracy] returns,
    which for arrays of rank 0 or 1 is a list of 0/1 scores, one per
    element, and no error. *)
Theorem top_n_identical_shape_fails (lib : library) (y y_pred : ndarray)
    (n : scalar) (z : Z) :
  shape y = shape y_pred ->
  scalar_ltb n (SInt 1) = false ->
  int_of_scalar n = Ok z ->
  (z <> 1%Z ->
   top_n_categorical_accuracy lib y y_pred n
   = Raise (ValueError "Must supply multiple predictions for top 5 accuracy"))
  /\ (z = 1%Z ->
      top_n_categorical_accuracy lib y y_pred n = categorical_accuracy y y_pred
      /\ (ndim y <= 1 ->
          exists r,
            categorical_accuracy y y_pred = Ok r
            /\ Forall (fun v => v = SInt 0 \/ v = SInt 1) r
            /\ (length (data y_pred) = length (data y) ->
                length r = length (data y)))).
Proof.
  intros Hs Hn Hz. split.
  - intros Hz1. unfold top_n_categorical_accuracy.
    rewrite Hn, Hz. cbn [bind].
    destruct (Z.eqb_spec z 1) as [E|_]; [contradiction |].
    unfold ndim, len. destruct y as [s d], y_pred as [s' d']. cbn in Hs |- *. subst s'.
    destruct s as [|k s]; cbn.
    + reflexivity.
    + rewrite Nat.eqb_refl. cbn. unfold shape_eqb.
      destruct (list_eq_dec Nat.eq_dec (k :: s) (k :: s)); [reflexivity | congruence].
  - intros ->. split.
    + unfold top_n_categorical_accuracy. rewrite Hn, Hz. reflexivity.
    + intros Hrank.
      assert (Hscores : forall b : list bool,
                 Forall (fun v => v = SInt 0 \/ v = SInt 1) (map int_of_bool b)).
      { intros b. apply Forall_forall. intros v Hv. apply in_map_iff in Hv.
        destruct Hv as [[] [<- _]]; [now right | now left]. }
      assert (Hlen : forall a b : list scalar,
                 length b = length a -> length (map2 scalar_eqb a b) = length a).
      { intros a. induction a as [|u a IH]; intros [|w b] H; cbn in H |- *;
          try discriminate; [reflexivity |]. f_equal. apply IH. lia. }
      unfold categorical_accuracy, ndim in *.
      destruct y as [s d], y_pred as [s' d']. cbn [shape data] in *. subst s'.
      destruct s as [|k [|k' s]]; cbn [length Nat.eqb wrap shape data] in *; [| | lia].
      * eexists. split; [reflexivity |]. split; [apply Hscores |].
        intros H. rewrite length_map. now apply Hlen.
      * unfold shape_eqb.
        destruct (list_eq_dec Nat.eq_dec [k] [k]); [| congruence].
        eexists. split; [reflexivity |]. split; [apply Hscores |].
        intros H. rewrite length_map. now apply Hlen.
Qed.

Lemma top_n_identical_shape_fails_witness :
  top_n_categorical_accuracy example_library example_labels example_predictions (SInt 5)
  = Raise (ValueError "Must supply multiple predictions for top 5 accuracy")
  /\ top_n_categorical_accuracy example_library example_labels example_predictions
                                (SFlt 1.5)
     = categorical_accuracy example_labels example_predictions.
Proof.
  split.
  - apply (proj1 (top_n_identical_shape_fails example_library example_labels
                    example_predictions (SInt 5) 5%Z eq_refl eq_refl eq_refl)).
    lia.
  - apply (proj2 (top_n_identical_shape_fails example_library example_labels
                    example_predictions (SFlt 1.5) 1%Z eq_refl eq_refl eq_refl)).
    reflexivity.
Defined.

(** With [n = 1] and two arrays of rank 2 and identical shape, the
    conversion of a row of two booleans to an integer fails. *)
Example top_1_of_square_arrays :
  top_n_categorical_accuracy example_library
    (mk_ndarray [2; 2] [SInt 1; SInt 0; SInt 1; SInt 0])
    (mk_ndarray [2; 2] [SInt 1; SInt 1; SInt 1; SInt 0]) (SInt 1)
  = Raise (TypeError "only size-1 arrays can be converted to Python scalars").
Proof. reflexivity. Qed.

(** ** MetricsLogger *)

(** C6, as stated, fails: after the benign update alone the adversarial
    list of the same metric is still empty, and [results()] raises the
    error it raises for an empty list. *)
Lemma benign_only_results_counterexample :
  exists lg,
    MetricsLogger_init example_library (NamesStr "categorical_accuracy") NamesNone
                       true false None None = Ok lg
    /\ snd (update_task lg example_labels example_predictions false) = None
    /\ results example_library
               (fst (update_task lg example_labels example_predictions false))
       = Raise (ZeroDivisionError
                  "No values to calculate mean in adversarial_categorical_accuracy").
Proof.
  eexists. split; [reflexivity |]. split; [reflexivity |].
  vm_compute. reflexivity.
Qed.

Lemma mapM_app {A B : Type} (f : A -> result B) (l1 l2 : list A) (r : list B) :
  mapM f (l1 ++ l2) = Ok r ->
  exists r1 r2, mapM f l1 = Ok r1 /\ mapM f l2 = Ok r2 /\ r = r1 ++ r2.
Proof.
  revert r. induction l1 as [|a l1 IH]; intros r H; cbn [app mapM] in *.
  - exists [], r. auto.
  - destruct (f a) as [b|e]; [| discriminate]. cbn [bind] in *.
    destruct (mapM f (l1 ++ l2)) as [bs|e] eqn:E; [| discriminate].
    cbn [bind] in H. inversion H; subst r.
    destruct (IH bs eq_refl) as [r1 [r2 [H1 [H2 ->]]]].
    exists (b :: r1), r2. rewrite H1. auto.
Qed.

(** Adversarial updates that return extend the adversarial list of the
    metric by their scores and nothing else. *)
Lemma adversarial_updates_scores (t : list MetricList) (vals : list scalar)
    (batches : list (ndarray * ndarray)) (scores : list (list scalar)) :
  mapM (fun b => categorical_accuracy (fst b) (snd b)) batches = Ok scores ->
  fold_left apply_update (map adversarial_update batches)
            (mk_MetricsLogger
               t [mk_MetricList "categorical_accuracy"
                                (binary_metric categorical_accuracy) vals]
               [] true false [])
  = mk_MetricsLogger
      t [mk_MetricList "categorical_accuracy" (binary_metric categorical_accuracy)
                       (vals ++ concat scores)]
      [] true false [].
Proof.
  revert vals scores. induction batches as [|[y p] batches IH]; intros vals scores H;
    cbn [mapM map fold_left] in *.
  - inversion H. cbn [concat]. now rewrite app_nil_r.
  - cbn [fst snd] in H.
    destruct (categorical_accuracy y p) as [v|e] eqn:Ev; [| discriminate].
    cbn [bind] in H.
    destruct (mapM (fun b => categorical_accuracy (fst b) (snd b)) batches)
      as [sc|e] eqn:Es; [| discriminate].
    cbn [bind] in H. inversion H; subst scores.
    change (adversarial_update (y, p)) with (UpdateTask y p true).
    cbn [apply_update].
    unfold update_task. cbn [adversarial_tasks append_all].
    unfold append. cbn [function binary_metric name _values]. rewrite Ev.
    cbn [bind fst tasks perturbations means full computational_resource_dict].
    rewrite (IH (vals ++ v) sc eq_refl). cbn [concat]. now rewrite app_assoc.
Qed.

(** C6, amended: for a logger built with [task="categorical_accuracy"]
    and [means=True], after [update_task([1,0,1],[1,1,1])] and any
    adversarial updates made before or after it that return, at least
    one of them scoring a non-empty batch, [results()] returns a mapping
    that sends ["benign_mean_categorical_accuracy"] to exactly [2/3]. *)
Theorem benign_mean_two_thirds (lib : library)
    (before after : list (ndarray * ndarray)) (scores : list (list scalar))
    (lg : MetricsLogger) :
  mapM (fun b => categorical_accuracy (fst b) (snd b)) (before ++ after) = Ok scores ->
  concat scores <> [] ->
  MetricsLogger_init lib (NamesStr "categorical_accuracy") NamesNone
                     true false None None = Ok lg ->
  let lg1 := fold_left apply_update (map adversarial_update before) lg in
  let lg2 := fst (update_task lg1 example_labels example_predictions false) in
  let lg3 := fold_left apply_update (map adversarial_update after) lg2 in
  exists r,
    results lib lg3 = Ok r
    /\ dict_get "benign_mean_categorical_accuracy" r = Some (VNum (SFlt (2 / 3))).
Proof.
  intros Hacc Hne Hinit. cbn in Hinit. inversion Hinit; subst lg; clear Hinit.
  destruct (mapM_app _ _ _ _ Hacc) as [s1 [s2 [H1 [H2 ->]]]].
  set (ca := mk_MetricList "categorical_accuracy" (binary_metric categorical_accuracy)).
  intros lg1 lg2 lg3.
  assert (E1 : lg1 = mk_MetricsLogger [ca []] [ca (concat s1)] [] true false []).
  { subst lg1 ca. now rewrite (adversarial_updates_scores _ _ _ _ H1). }
  assert (E2 : lg2 = mk_MetricsLogger [ca [SInt 1; SInt 0; SInt 1]] [ca (concat s1)] []
                                      true false []).
  { subst lg2. rewrite E1. reflexivity. }
  assert (E3 : lg3 = mk_MetricsLogger [ca [SInt 1; SInt 0; SInt 1]]
                                      [ca (concat s1 ++ concat s2)] [] true false []).
  { subst lg3 ca. rewrite E2. now rewrite (adversarial_updates_scores _ _ _ _ H2). }
  rewrite E3. rewrite concat_app in Hne. unfold results, results_of_groups.
  cbn [tasks adversarial_tasks perturbations means full computational_resource_dict
       results_of_metrics].
  replace (mean (ca [SInt 1; SInt 0; SInt 1]))
    with (Ok (A := float) (2 / 3)%float) by (vm_compute; reflexivity).
  destruct (mean_some_values (ca (concat s1 ++ concat s2))) as [f Hf]; [exact Hne |].
  rewrite Hf. cbn. eexists. split; reflexivity.
Qed.

Lemma benign_mean_two_thirds_witness :
  exists lg r,
    MetricsLogger_init example_library (NamesStr "categorical_accuracy") NamesNone
                       true false None None = Ok lg
    /\ results example_library
         (fold_left apply_update
            [UpdateTask example_labels example_predictions true;
             UpdateTask example_labels example_predictions false;
             UpdateTask (array_of_list []) (array_of_list []) true;
             UpdateTask example_predictions example_predictions true] lg) = Ok r
    /\ dict_get "benign_mean_categorical_accuracy" r = Some (VNum (SFlt (2 / 3))).
Proof.
  eexists.
  destruct (benign_mean_two_thirds example_library
              [(example_labels, example_predictions)]
              [(array_of_list [], array_of_list []);
               (example_predictions, example_predictions)]
              _ _ eq_refl ltac:(discriminate) eq_refl) as [r [Hr Hk]].
  exists r. split; [reflexivity |]. split; [exact Hr | exact Hk].
Defined.

(** C10: whatever is passed as [computational_resource_dict], the logger
    the constructor builds is the one it builds for [None]; its ledger is
    empty, and [results()] on it is what the loop over the metric groups
    produces, the loop over the ledger adding no entry. *)
Theorem fresh_logger_ledger_empty (lib : library) (task perturbation : names_arg)
    (means_arg record_metric_per_sample : bool) (profiler_type : option string)
    (d : option ledger) (lg : MetricsLogger) :
  MetricsLogger_init lib task perturbation means_arg record_metric_per_sample
                     profiler_type d = Ok lg ->
  MetricsLogger_init lib task perturbation means_arg record_metric_per_sample
                     profiler_type None = Ok lg
  /\ computational_resource_dict lg = []
  /\ results lib lg = results_of_groups lg.
Proof.
  intros H. split; [exact H |].
  unfold MetricsLogger_init in H.
  destruct (_generate_counters lib task) as [t|]; [| discriminate].
  destruct (_generate_counters lib perturbation) as [q|]; [| discriminate].
  cbn in H. inversion H; subst lg; clear H.
  split; [reflexivity |].
  unfold results. cbn [computational_resource_dict].
  destruct (results_of_groups _); reflexivity.
Qed.

Lemma fresh_logger_ledger_empty_witness :
  exists lg,
    MetricsLogger_init example_library (NamesStr "l2") NamesNone false true
                       (Some "Basic") (Some example_ledger) = Ok lg
    /\ computational_resource_dict lg = []
    /\ results example_library lg
       = Ok [("benign_l2", VList []); ("adversarial_l2", VList [])].
Proof.
  eexists. split; [reflexivity |].
  destruct (fresh_logger_ledger_empty example_library (NamesStr "l2") NamesNone
              false true (Some "Basic") (Some example_ledger) _ eq_refl)
    as [_ [Hd Hr]].
  split; [exact Hd |]. rewrite Hr. reflexivity.
Defined.

(** ** The scoped resource profiler *)

Lemma dict_get_set_same {V : Type} (k : string) (v : V) (d : dict V) :
  dict_get k (dict_set k v d) = Some v.
Proof.
  induction d as [|[k' v'] d IH]; cbn.
  - now rewrite String.eqb_refl.
  - destruct (String.eqb_spec k k') as [E|E]; cbn.
    + subst. now rewrite String.eqb_refl.
    + destruct (String.eqb_spec k k'); [contradiction | exact IH].
Qed.

Lemma dict_get_set_other {V : Type} (k k' : string) (v : V) (d : dict V) :
  k <> k' -> dict_get k (dict_set k' v d) = dict_get k d.
Proof.
  intros Hk. induction d as [|[k0 v0] d IH]; cbn.
  - destruct (String.eqb_spec k k'); [contradiction | reflexivity].
  - destruct (String.eqb_spec k' k0) as [E|E]; cbn.
    + subst k0. destruct (String.eqb_spec k k'); [contradiction | reflexivity].
    + destruct (String.eqb_spec k k0); [reflexivity | exact IH].
Qed.

Lemma entry_iadd_frame (k k' : string) (v : pyval) (comp : entry) :
  k' <> k -> dict_get k' (fst (entry_iadd k v comp)) = dict_get k' comp.
Proof.
  intros Hk. unfold entry_iadd, dict_mem.
  destruct (dict_get k comp) as [old|] eqn:E.
  - rewrite E. destruct (py_add old v); cbn; [now apply dict_get_set_other | reflexivity].
  - rewrite dict_get_set_same.
    destruct (py_add (VNum (SInt 0)) v); cbn;
      repeat rewrite dict_get_set_other by assumption; reflexivity.
Qed.

Lemma entry_iadd_num (k : string) (x y : scalar) (comp : entry) :
  entry_get k comp = VNum x ->
  snd (entry_iadd k (VNum y) comp) = None
  /\ dict_get k (fst (entry_iadd k (VNum y) comp)) = Some (VNum (scalar_add x y)).
Proof.
  unfold entry_get, entry_iadd, dict_mem. intros H.
  destruct (dict_get k comp) as [old|] eqn:E.
  - subst old. rewrite E. cbn. split; [reflexivity | apply dict_get_set_same].
  - inversion H; subst x. rewrite dict_get_set_same. cbn.
    split; [reflexivity | apply dict_get_set_same].
Qed.

Lemma record_usage_fields (nm : string) (deterministic : bool) (elapsed : float)
    (stats : string) (d : ledger) (count time : scalar) :
  let old := match dict_get nm d with Some e => e | None => [] end in
  entry_get "execution_count" old = VNum count ->
  entry_get "total_time" old = VNum time ->
  exists e,
    dict_get nm (fst (record_usage nm deterministic elapsed stats d)) = Some e
    /\ dict_get "execution_count" e = Some (VNum (scalar_add count (SInt 1)))
    /\ dict_get "total_time" e = Some (VNum (scalar_add time (SFlt elapsed))).
Proof.
  intros old Hc Ht. unfold record_usage.
  remember (if dict_mem nm d then d
            else dict_set nm (if deterministic then [("stats", VStr "")] else []) d)
    as d0 eqn:Hd0.
  remember (match dict_get nm d0 with Some e => e | None => [] end) as comp eqn:Hcomp.
  assert (Hc0 : entry_get "execution_count" comp = VNum count).
  { subst comp d0 old. unfold dict_mem. destruct (dict_get nm d) eqn:E.
    - rewrite E. exact Hc.
    - rewrite dict_get_set_same. destruct deterministic; exact Hc. }
  assert (Ht0 : entry_get "total_time" comp = VNum time).
  { subst comp d0 old. unfold dict_mem. destruct (dict_get nm d) eqn:E.
    - rewrite E. exact Ht.
    - rewrite dict_get_set_same. destruct deterministic; exact Ht. }
  clear Hcomp Hd0 old Hc Ht.
  destruct (entry_iadd_num "execution_count" count (SInt 1) comp Hc0) as [E1 G1].
  pose proof (entry_iadd_frame "execution_count" "total_time" (VNum (SInt 1)) comp
                ltac:(discriminate)) as F1.
  destruct (entry_iadd "execution_count" (VNum (SInt 1)) comp) as [comp1 e1].
  cbn [fst snd] in E1, G1, F1. subst e1.
  assert (Ht1 : entry_get "total_time" comp1 = VNum time)
    by (unfold entry_get in *; rewrite F1; exact Ht0).
  destruct (entry_iadd_num "total_time" time (SFlt elapsed) comp1 Ht1) as [E2 G2].
  pose proof (entry_iadd_frame "total_time" "execution_count" (VNum (SFlt elapsed)) comp1
                ltac:(discriminate)) as F2.
  destruct (entry_iadd "total_time" (VNum (SFlt elapsed)) comp1) as [comp2 e2].
  cbn [fst snd] in E2, G2, F2. subst e2. rewrite G1 in F2.
  destruct deterministic.
  - pose proof (entry_iadd_frame "stats" "execution_count" (VStr stats) comp2
                  ltac:(discriminate)) as F3.
    pose proof (entry_iadd_frame "stats" "total_time" (VStr stats) comp2
                  ltac:(discriminate)) as F4.
    destruct (entry_iadd "stats" (VStr stats) comp2) as [comp3 e3].
    cbn [fst snd] in *. exists comp3. rewrite dict_get_set_same.
    split; [reflexivity |]. split; congruence.
  - cbn [fst]. exists comp2. rewrite dict_get_set_same. auto.
Qed.

(** C1, as stated, fails on the error exit: an exception raised inside
    the region leaves the [with] statement at once and the ledger gets no
    entry for the region. *)
Lemma resource_context_error_exit_counterexample :
  resource_context "fit" (Some "Basic") true raising_body example_world
  = (Raise (ValueError "failure inside the region"), mk_world 12 [] "")
  /\ dict_get "fit"
       (resource_ledger
          (snd (resource_context "fit" (Some "Basic") true raising_body example_world)))
     = None.
Proof. split; vm_compute; reflexivity. Qed.

(** C1, amended: for a region entered with profiler mode ["Basic"] or
    ["Deterministic"] and a ledger, when the body returns, the ledger
    entry of the region's name has [execution_count] increased by 1 and
    [total_time] increased by the clock difference across the body (the
    counts read as 0 when the entry or the field is new); when the body
    raises, the exception leaves the region and the ledger stays as the
    body left it. *)
Theorem resource_context_exit {A : Type} (nm p : string) (body : region A)
    (w w1 : world) :
  In p profiler_types ->
  (forall a count time,
      body w = (Ok a, w1) ->
      let old := match dict_get nm (resource_ledger w1) with
                 | Some e => e
                 | None => []
                 end in
      entry_get "execution_count" old = VNum count ->
      entry_get "total_time" old = VNum time ->
      exists e,
        dict_get nm (resource_ledger (snd (resource_context nm (Some p) true body w)))
        = Some e
        /\ dict_get "execution_count" e = Some (VNum (scalar_add count (SInt 1)))
        /\ dict_get "total_time" e
           = Some (VNum (scalar_add time
                           (SFlt (perf_counter w1 - perf_counter w)%float))))
  /\ (forall e,
         body w = (Raise e, w1) ->
         resource_context nm (Some p) true body w = (Raise e, w1)).
Proof.
  intros Hp.
  assert (Hin : existsb (String.eqb p) profiler_types = true).
  { apply existsb_exists. exists p. split; [exact Hp | apply String.eqb_refl]. }
  split.
  - intros a count time Hb old Hc Ht.
    unfold resource_context. rewrite Hin, Hb. cbn [negb].
    destruct (record_usage_fields nm (String.eqb p "Deterministic")
                (perf_counter w1 - perf_counter w)%float (profile_stats w1)
                (resource_ledger w1) count time Hc Ht) as [e [He [Hce Hte]]].
    destruct (record_usage nm _ _ _ (resource_ledger w1)) as [d err].
    cbn [fst] in He. exists e.
    split; [| split; assumption].
    destruct err; exact He.
  - intros e Hb. unfold resource_context. rewrite Hin, Hb. reflexivity.
Qed.

Lemma resource_context_exit_witness :
  exists e,
    dict_get "fit"
      (resource_ledger
         (snd (resource_context "fit" (Some "Basic") true returning_body example_world)))
    = Some e
    /\ dict_get "execution_count" e = Some (VNum (SInt 1))
    /\ dict_get "total_time" e = Some (VNum (SFlt 2)).
Proof.
  exact (proj1 (resource_context_exit "fit" "Basic" returning_body example_world
                  (mk_world 12 [] "") (or_introl eq_refl))
               tt (SInt 0) (SInt 0) eq_refl eq_refl eq_refl).
Defined.

(** ** The poisoning scenario *)

Lemma mapM_total {A B : Type} (f : A -> result B) (l : list A) :
  (forall a, In a l -> exists b, f a = Ok b) -> exists r, mapM f l = Ok r.
Proof.
  induction l as [|a l IH]; intros H; cbn.
  - now exists [].
  - destruct (H a (or_introl eq_refl)) as [b Hb]. rewrite Hb. cbn.
    destruct IH as [r Hr]; [intros; apply H; now right |].
    rewrite Hr. cbn. now exists (b :: r).
Qed.

Lemma mapM_nth {A B : Type} (f : A -> result B) (l : list A) (r : list B) :
  mapM f l = Ok r ->
  length r = length l
  /\ forall i a, nth_error l i = Some a ->
                 exists b, nth_error r i = Some b /\ f a = Ok b.
Proof.
  revert r. induction l as [|a l IH]; intros r H; cbn in H.
  - inversion H. split; [reflexivity |]. intros [|i] a Hi; discriminate.
  - destruct (f a) as [b|] eqn:Hb; [| discriminate]. cbn in H.
    destruct (mapM f l) as [bs|] eqn:Hbs; [| discriminate]. cbn in H.
    inversion H; subst r; clear H.
    destruct (IH bs eq_refl) as [Hl Hn].
    split; [cbn; now rewrite Hl |].
    intros [|i] a' Hi; cbn in Hi |- *.
    + inversion Hi; subst a'. now exists b.
    + now apply Hn.
Qed.

Lemma index_nth_error {A : Type} (l : list A) (i : nat) (a : A) :
  nth_error l i = Some a -> index l i = Ok a.
Proof. unfold index. now intros ->. Qed.

Lemma existsb_eqb_In (i : nat) (l : list nat) :
  existsb (Nat.eqb i) l = true <-> In i l.
Proof.
  rewrite existsb_exists. split.
  - intros [x [Hx E]]. apply Nat.eqb_eq in E. now subst.
  - intros H. exists i. split; [exact H | apply Nat.eqb_refl].
Qed.

Section ScenarioProperties.

Variables image channels : Type.
Variable transpose_201 : image -> channels.
Variable transpose_120 : channels -> image.
Variable attack : Type.
Variable poison : attack -> channels -> list nat -> channels * list nat.

(** C2: with [ds_size] the size of the training set, an attack that
    returns the labels it is given, and [poisoned_indices] among the
    indices labelled [src], [poison_dataset] returns one sample per input
    sample; a sample whose index is not in [poisoned_indices] keeps its
    input and its label, and a sample whose index is in
    [poisoned_indices] becomes the poisoned input (transposed to channels
    first, poisoned, transposed back) with the label array [[tgt]], whose
    label value is [tgt]. *)
Theorem poison_dataset_frame (src_imgs : list image) (src_lbls : list nat)
    (src tgt : nat) (atk : attack) (poisoned_indices : list nat) :
  length src_imgs = length src_lbls ->
  (forall x, snd (poison atk x [tgt]) = [tgt]) ->
  (forall i, In i poisoned_indices -> nth_error src_lbls i = Some src) ->
  exists poison_x poison_y,
    poison_dataset image channels transpose_201 transpose_120 attack poison
                   src_imgs src_lbls src tgt (length src_lbls) atk poisoned_indices
    = Ok (poison_x, poison_y)
    /\ length poison_x = length src_lbls
    /\ length poison_y = length src_lbls
    /\ forall i img lbl,
         nth_error src_imgs i = Some img ->
         nth_error src_lbls i = Some lbl ->
         (~ In i poisoned_indices ->
          nth_error poison_x i = Some img
          /\ nth_error poison_y i = Some (LabelInt lbl))
         /\ (In i poisoned_indices ->
             nth_error poison_x i
             = Some (transpose_120 (fst (poison atk (transpose_201 img) [tgt])))
             /\ nth_error poison_y i = Some (LabelArr [tgt])
             /\ label_value (LabelArr [tgt]) = Some tgt).
Proof.
  intros Hlen Hatk Hsrc. unfold poison_dataset.
  set (f := poison_sample image channels transpose_201 transpose_120 attack poison
              src_imgs src_lbls src tgt atk poisoned_indices).
  assert (Hf : forall i img lbl,
             nth_error src_imgs i = Some img ->
             nth_error src_lbls i = Some lbl ->
             f i = Ok (if existsb (Nat.eqb i) poisoned_indices
                       then (transpose_120 (fst (poison atk (transpose_201 img) [tgt])),
                             LabelArr [tgt])
                       else (img, LabelInt lbl))).
  { intros i img lbl Hi Hl. subst f. unfold poison_sample.
    rewrite (index_nth_error _ _ _ Hl), (index_nth_error _ _ _ Hi). cbn [bind].
    destruct (existsb (Nat.eqb i) poisoned_indices) eqn:E.
    - apply existsb_eqb_In in E. apply Hsrc in E. rewrite Hl in E.
      inversion E; subst lbl. rewrite Nat.eqb_refl. cbn [andb].
      specialize (Hatk (transpose_201 img)).
      destruct (poison atk (transpose_201 img) [tgt]) as [p_img p_label].
      cbn in Hatk |- *. now subst p_label.
    - rewrite andb_false_r. reflexivity. }
  destruct (mapM_total f (seq 0 (length src_lbls))) as [samples Hs].
  { intros i Hi. apply in_seq in Hi.
    destruct (nth_error src_lbls i) as [lbl|] eqn:Hl;
      [| apply nth_error_None in Hl; lia].
    destruct (nth_error src_imgs i) as [img|] eqn:Him;
      [| apply nth_error_None in Him; lia].
    eexists. exact (Hf i img lbl Him Hl). }
  rewrite Hs. cbn [bind]. destruct (mapM_nth _ _ _ Hs) as [Hlen' Hnth].
  rewrite length_seq in Hlen'.
  exists (map fst samples), (map snd samples).
  split; [reflexivity |]. rewrite !length_map.
  split; [exact Hlen' |]. split; [exact Hlen' |].
  intros i img lbl Him Hl.
  assert (Hi : i < length src_lbls) by (apply nth_error_Some; congruence).
  destruct (Hnth i i) as [b [Hb Hfb]].
  { rewrite nth_error_nth' with (d := 0) by (rewrite length_seq; exact Hi).
    now rewrite seq_nth. }
  rewrite (Hf i img lbl Him Hl) in Hfb.
  rewrite !nth_error_map, Hb. cbn [option_map].
  split.
  - intros Hn. destruct (existsb (Nat.eqb i) poisoned_indices) eqn:E.
    + apply existsb_eqb_In in E. contradiction.
    + inversion Hfb; subst b. split; reflexivity.
  - intros Hin. apply existsb_eqb_In in Hin. rewrite Hin in Hfb.
    inversion Hfb; subst b. repeat split; reflexivity.
Qed.

End ScenarioProperties.

(** ** Binary64 arithmetic

    Facts about the primitive floats, read off their specification. *)

Local Open Scope Z_scope.

(** [x - x] is [0.0] for every finite [x]. *)
Lemma sub_self (f : float) : finite f = true -> (f - f)%float = 0%float.
Proof.
  unfold finite. intros H. apply Prim2SF_inj. rewrite sub_spec.
  destruct (Prim2SF f) as [s|s| |s m e]; try discriminate.
  - destruct s; reflexivity.
  - unfold SF64sub, SFsub. rewrite Z.sub_diag. reflexivity.
Qed.

(** [f == 0] holds of the two zeros only. *)
Lemma eqb_zero (f : float) : (f =? 0)%float = is_zero_float f.
Proof.
  rewrite eqb_spec. unfold is_zero_float.
  change (Prim2SF 0) with (S754_zero false).
  destruct (Prim2SF f) as [s|s| |s m e]; try reflexivity; destruct s; reflexivity.
Qed.



(** The number of binary digits of a mantissa. *)
Lemma digits2_pos_size (p : positive) : digits2_pos p = Pos.size p.
Proof. induction p; cbn; congruence. Qed.

Lemma digits2_pos_gt (p : positive) : Z.pos p < 2 ^ Z.pos (digits2_pos p).
Proof.
  rewrite digits2_pos_size. pose proof (Pos.size_gt p) as H.
  apply Pos2Z.pos_lt_pos in H. now rewrite Pos2Z.inj_pow in H.
Qed.

Lemma digits2_pos_le (p : positive) : 2 ^ (Z.pos (digits2_pos p) - 1) <= Z.pos p.
Proof.
  rewrite digits2_pos_size. pose proof (Pos.size_le p) as H.
  apply Pos2Z.pos_le_pos in H. rewrite Pos2Z.inj_pow in H.
  change (Z.pos p~0) with (2 * Z.pos p) in H.
  replace (Z.pos (Pos.size p)) with (Z.succ (Z.pos (Pos.size p) - 1)) in H by lia.
  rewrite Z.pow_succ_r in H by lia. lia.
Qed.

(** digits bounded by any power above *)
Lemma digits2_pos_bound (p : positive) (k : Z) :
  Z.pos p < 2 ^ k -> Z.pos (digits2_pos p) <= k.
Proof.
  intros H. destruct (Z.le_gt_cases (Z.pos (digits2_pos p)) k) as [L|G]; [exact L |].
  exfalso. pose proof (digits2_pos_le p) as D.
  assert (0 <= k) by (destruct k; try lia; cbn in H; lia).
  assert (2 ^ k <= 2 ^ (Z.pos (digits2_pos p) - 1)) by (apply Z.pow_le_mono_r; lia).
  lia.
Qed.

Lemma iter_pos_nat {A : Type} (f : A -> A) (p : positive) (x : A) :
  iter_pos f p x = Nat.iter (Pos.to_nat p) f x.
Proof.
  revert x. induction p as [p IH|p IH|]; intros x; cbn [iter_pos].
  - rewrite !IH.
    replace (Pos.to_nat p~1) with (Pos.to_nat p + (Pos.to_nat p + 1))%nat
      by (rewrite Pos2Nat.inj_xI; lia).
    now rewrite !Nat.iter_add.
  - rewrite !IH.
    replace (Pos.to_nat p~0) with (Pos.to_nat p + Pos.to_nat p)%nat
      by (rewrite Pos2Nat.inj_xO; lia).
    now rewrite Nat.iter_add.
  - reflexivity.
Qed.

(** what [shr_1] does to a non-negative mantissa *)
Lemma shr_1_spec (m : Z) (r s : bool) :
  0 <= m ->
  shr_m (shr_1 (Build_shr_record m r s)) = m / 2
  /\ shr_r (shr_1 (Build_shr_record m r s)) = Z.odd m
  /\ shr_s (shr_1 (Build_shr_record m r s)) = (r || s)%bool.
Proof.
  intros Hm. destruct m as [|p|p]; [now cbn | | lia].
  destruct p as [p|p|]; cbn [shr_1 shr_m shr_r shr_s].
  - split; [| split; reflexivity]. apply Z.div_unique with (r := 1); lia.
  - split; [| split; reflexivity]. apply Z.div_unique with (r := 0); lia.
  - repeat split.
Qed.

Lemma shr_iter_spec (n : nat) (m : Z) :
  0 <= m ->
  shr_m (Nat.iter n shr_1 (Build_shr_record m false false)) = m / 2 ^ Z.of_nat n
  /\ (m mod 2 ^ Z.of_nat n = 0 ->
      shr_r (Nat.iter n shr_1 (Build_shr_record m false false)) = false
      /\ shr_s (Nat.iter n shr_1 (Build_shr_record m false false)) = false).
Proof.
  intros Hm. induction n as [|n IH].
  - cbn. split; [now rewrite Z.div_1_r | auto].
  - rewrite !Nat.iter_succ. destruct IH as [IHm IHrs].
    destruct (Nat.iter n shr_1 (Build_shr_record m false false)) as [m' r' s'].
    cbn [shr_m shr_r shr_s] in IHm, IHrs.
    assert (P : 0 < 2 ^ Z.of_nat n) by (apply Z.pow_pos_nonneg; lia).
    assert (0 <= m') by (subst m'; apply Z.div_pos; lia).
    destruct (shr_1_spec m' r' s' ltac:(assumption)) as [H1 [H2 H3]].
    rewrite Nat2Z.inj_succ, Z.pow_succ_r by lia.
    split.
    + rewrite H1. subst m'. rewrite Z.div_div by lia.
      f_equal. lia.
    + intros Hmod. rewrite H2, H3.
      apply Z.mod_divide in Hmod; [| lia]. destruct Hmod as [q Hq].
      assert (Hmod' : m mod 2 ^ Z.of_nat n = 0).
      { apply Z.mod_divide; [lia |]. exists (q * 2). lia. }
      destruct (IHrs Hmod') as [-> ->]. split; [| reflexivity].
      subst m' m. replace (q * (2 * 2 ^ Z.of_nat n)) with (q * 2 * 2 ^ Z.of_nat n) by lia.
      rewrite Z.div_mul by lia. rewrite Z.mul_comm, Z.odd_mul. reflexivity.
Qed.

(** [shr] of an exact record by [k] places *)
Lemma shr_spec (m e k : Z) :
  0 <= m ->
  let '(mrs, e') := shr (Build_shr_record m false false) e k in
  e' = e + Z.max k 0
  /\ shr_m mrs = m / 2 ^ Z.max k 0
  /\ (m mod 2 ^ Z.max k 0 = 0 -> shr_r mrs = false /\ shr_s mrs = false).
Proof.
  intros Hm. unfold shr. destruct k as [|p|p].
  - cbn. rewrite Z.div_1_r. repeat split; lia.
  - rewrite iter_pos_nat.
    destruct (shr_iter_spec (Pos.to_nat p) m Hm) as [H1 H2].
    rewrite positive_nat_Z in H1, H2.
    replace (Z.max (Z.pos p) 0) with (Z.pos p) by lia. auto.
  - cbn. rewrite Z.div_1_r. repeat split; lia.
Qed.

Lemma fexp_eq (x : Z) : fexp prec emax x = Z.max (x - 53) (-1074).
Proof. reflexivity. Qed.

Lemma round_nearest_even_bound (mrs : shr_record) :
  let m2 := round_nearest_even (shr_m mrs) (loc_of_shr_record mrs) in
  shr_m mrs <= m2 <= shr_m mrs + 1
  /\ (shr_r mrs = false /\ shr_s mrs = false -> m2 = shr_m mrs).
Proof.
  destruct mrs as [m r s]. cbn [shr_m shr_r shr_s].
  destruct r, s; cbn; try destruct (Z.even m); split; try lia; intros [? ?]; congruence.
Qed.

(** dividing a bounded mantissa keeps the bound at the raised exponent *)
Lemma div_pow_bound (m X K : Z) :
  0 <= K -> m <= X * 2 ^ K -> m / 2 ^ K <= X.
Proof.
  intros HK H. assert (P : 0 < 2 ^ K) by (apply Z.pow_pos_nonneg; lia).
  apply Z.div_le_upper_bound; lia.
Qed.

Lemma Zdigits2_bound (m k : Z) : 0 <= m -> 0 <= k -> m < 2 ^ k -> Zdigits2 m <= k.
Proof.
  intros Hm Hk H. destruct m as [|p|p]; cbn; [lia | | lia].
  now apply digits2_pos_bound.
Qed.

(** Rounding a product that is at most the integer [N] gives a float
    that is at most [N]: the rounded mantissa is compared with [N] at
    the exponent of the result. *)
Lemma binary_round_aux_bound (M : positive) (E N : Z) :
  E <= 0 -> 0 <= N < 2 ^ 53 -> Z.pos M <= N * 2 ^ (- E) ->
  binary_round_aux prec emax false (Z.pos M) E loc_Exact = S754_zero false
  \/ exists m3 e3,
      binary_round_aux prec emax false (Z.pos M) E loc_Exact = S754_finite false m3 e3
      /\ e3 <= 0 /\ Z.pos m3 <= N * 2 ^ (- e3).
Proof.
  intros HE HN HM. unfold binary_round_aux, shr_fexp.
  cbn [shr_record_of_loc].
  pose proof (fexp_eq (Zdigits2 (Z.pos M) + E)) as F1.
  set (k := fexp prec emax (Zdigits2 (Z.pos M) + E) - E) in *.
  pose proof (shr_spec (Z.pos M) E k ltac:(lia)) as S1.
  destruct (shr (Build_shr_record (Z.pos M) false false) E k) as [mrs e'].
  destruct S1 as [He' [Hm1 Hex]].
  pose proof (round_nearest_even_bound mrs) as R. cbn zeta in R.
  set (m2 := round_nearest_even (shr_m mrs) (loc_of_shr_record mrs)) in *.
  destruct R as [Rb Rex].
  assert (P53 : forall e, e <= 0 -> N * 2 ^ (- e) < 2 ^ (53 - e)).
  { intros e He. replace (53 - e) with (53 + - e) by lia.
    rewrite Z.pow_add_r by lia.
    assert (0 < 2 ^ (- e)) by (apply Z.pow_pos_nonneg; lia). nia. }
  assert (HdM : Zdigits2 (Z.pos M) + E <= 53).
  { pose proof (Zdigits2_bound (Z.pos M) (53 - E) ltac:(lia) ltac:(lia)) as D.
    specialize (P53 E HE). lia. }
  assert (HK : Z.max k 0 = e' - E) by lia.
  assert (He'0 : e' <= 0) by lia.
  assert (Hpow : 2 ^ (- E) = 2 ^ (- e') * 2 ^ Z.max k 0).
  { rewrite <- Z.pow_add_r by lia. f_equal. lia. }
  assert (PK : 0 < 2 ^ Z.max k 0) by (apply Z.pow_pos_nonneg; lia).
  assert (Hm1pos : 0 <= shr_m mrs) by (rewrite Hm1; apply Z.div_pos; lia).
  assert (Hm2 : 0 <= m2 <= N * 2 ^ (- e')).
  { split; [lia |].
    assert (B : shr_m mrs <= N * 2 ^ (- e')).
    { rewrite Hm1. apply div_pow_bound; [lia |]. rewrite Hpow in HM. lia. }
    destruct (Z.eq_dec (shr_m mrs) (N * 2 ^ (- e'))) as [Eq|Ne]; [| lia].
    assert (Hmod : Z.pos M mod 2 ^ Z.max k 0 = 0).
    { pose proof (Z.mul_div_le (Z.pos M) (2 ^ Z.max k 0) PK) as L.
      rewrite <- Hm1, Eq in L.
      assert (Z.pos M = N * 2 ^ (- e') * 2 ^ Z.max k 0) by (rewrite Hpow in HM; lia).
      rewrite H. apply Z.mod_mul. lia. }
    rewrite (Rex (Hex Hmod)). lia. }
  clearbody m2. clear Rb Rex Hex Hm1 HM Hpow PK HK F1 He' HdM Hm1pos mrs. clear k.
  pose proof (fexp_eq (Zdigits2 m2 + e')) as F2.
  set (k2 := fexp prec emax (Zdigits2 m2 + e') - e') in *.
  pose proof (shr_spec m2 e' k2 ltac:(lia)) as S2.
  destruct (shr (Build_shr_record m2 false false) e' k2) as [mrs2 e2].
  destruct S2 as [He2 [Hm3 _]].
  assert (Hd2 : Zdigits2 m2 + e' <= 53).
  { pose proof (Zdigits2_bound m2 (53 - e') ltac:(lia) ltac:(lia)) as D.
    specialize (P53 e' He'0). lia. }
  assert (He20 : e2 <= 0) by lia.
  assert (Hpow : 2 ^ (- e') = 2 ^ (- e2) * 2 ^ Z.max k2 0).
  { rewrite <- Z.pow_add_r by lia. f_equal. lia. }
  assert (PK : 0 < 2 ^ Z.max k2 0) by (apply Z.pow_pos_nonneg; lia).
  assert (Hm3b : 0 <= shr_m mrs2 <= N * 2 ^ (- e2)).
  { rewrite Hm3. split; [apply Z.div_pos; lia |].
    apply div_pow_bound; [lia |]. rewrite Hpow in Hm2. lia. }
  destruct (shr_m mrs2) as [|m3|m3]; [now left | | lia].
  right. exists m3, e2.
  replace (e2 <=? emax - prec) with true
    by (symmetry; apply Z.leb_le; change (emax - prec) with 971; lia).
  repeat split; lia.
Qed.

Lemma iter_xO_spec (m p : positive) :
  Z.pos (Pos.iter xO m p) = Z.pos m * 2 ^ Z.pos p
  /\ Z.pos (digits2_pos (Pos.iter xO m p)) = Z.pos (digits2_pos m) + Z.pos p.
Proof.
  induction p as [|p IH] using Pos.peano_ind.
  - cbn [Pos.iter]. split; [lia | cbn [digits2_pos]; lia].
  - rewrite Pos.iter_succ. destruct IH as [IH1 IH2].
    split.
    + rewrite Pos2Z.inj_xO, IH1, Pos2Z.inj_succ, Z.pow_succ_r by lia. lia.
    + cbn [digits2_pos]. lia.
Qed.

(** the binary64 image of a natural number below [2^53] is that number *)
Lemma binary_normalize_small (m : positive) :
  Z.pos m < 2 ^ 53 ->
  exists mc ec,
    binary_normalize prec emax (Z.pos m) 0 false = S754_finite false mc ec
    /\ valid_binary (S754_finite false mc ec) = true
    /\ - 52 <= ec <= 0 /\ Z.pos mc = Z.pos m * 2 ^ (- ec).
Proof.
  intros Hm. cbn [binary_normalize]. unfold binary_round.
  pose proof (digits2_pos_bound m 53 Hm) as Hd.
  assert (Hd1 : 1 <= Z.pos (digits2_pos m)) by lia.
  rewrite fexp_eq.
  replace (Z.max (Z.pos (digits2_pos m) + 0 - 53) (-1074))
    with (Z.pos (digits2_pos m) - 53) by lia.
  set (ez := Z.pos (digits2_pos m) - 53) in *.
  assert (exists mz, shl_align m 0 ez = (mz, ez)
                     /\ Z.pos mz = Z.pos m * 2 ^ (- ez)
                     /\ Z.pos (digits2_pos mz) = 53) as [mz [Hsh [Hmz Hdz]]].
  { unfold shl_align. rewrite Z.sub_0_r. destruct ez as [|p|p] eqn:Ez.
    - exists m. cbn. repeat split; lia.
    - lia.
    - exists (Pos.iter xO m p). destruct (iter_xO_spec m p) as [I1 I2].
      repeat split; [exact I1 | lia]. }
  rewrite Hsh. unfold binary_round_aux, shr_fexp. cbn [shr_record_of_loc Zdigits2].
  rewrite Hdz, fexp_eq.
  replace (Z.max (53 + ez - 53) (-1074) - ez) with 0 by lia.
  cbn [shr shr_m loc_of_shr_record round_nearest_even shr_record_of_loc Zdigits2].
  rewrite Hdz, fexp_eq.
  replace (Z.max (53 + ez - 53) (-1074) - ez) with 0 by lia.
  cbn [shr shr_m].
  replace (ez <=? emax - prec) with true
    by (symmetry; apply Z.leb_le; change (emax - prec) with 971; lia).
  exists mz, ez. split; [reflexivity |]. split; [| split; [lia | exact Hmz]].
  cbn [valid_binary]. unfold bounded, canonical_mantissa.
  rewrite Hdz, fexp_eq. apply andb_true_intro. split.
  - apply Z.eqb_eq. lia.
  - apply Z.leb_le. change (emax - prec) with 971. lia.
Qed.

Lemma Prim2SF_float_of_Z_pos (m : positive) :
  Z.pos m < 2 ^ 53 ->
  exists mc ec,
    Prim2SF (float_of_Z (Z.pos m)) = S754_finite false mc ec
    /\ - 52 <= ec <= 0 /\ Z.pos mc = Z.pos m * 2 ^ (- ec).
Proof.
  intros Hm. destruct (binary_normalize_small m Hm) as [mc [ec [E [V [B H]]]]].
  exists mc, ec. unfold float_of_Z. rewrite E, Prim2SF_SF2Prim by exact V. auto.
Qed.

(** a float in [[0, 1]] is a zero or a positive mantissa at most [2^(-e)] *)
Lemma unit_interval_cases (f : float) :
  (0 <=? f)%float = true -> (f <=? 1)%float = true ->
  (exists s, Prim2SF f = S754_zero s)
  \/ exists mf ef, Prim2SF f = S754_finite false mf ef
                   /\ ef <= 0 /\ Z.pos mf <= 2 ^ (- ef).
Proof.
  rewrite !leb_spec. pose proof (Prim2SF_valid f) as V.
  change (Prim2SF 0) with (S754_zero false).
  change (Prim2SF 1) with (S754_finite false 4503599627370496 (-52)).
  destruct (Prim2SF f) as [s|s| |s mf ef]; intros H0 H1.
  - left. now exists s.
  - destruct s; discriminate.
  - discriminate.
  - destruct s; [discriminate |]. right. exists mf, ef. split; [reflexivity |].
    cbn [valid_binary] in V. unfold bounded, canonical_mantissa in V.
    apply andb_prop in V. destruct V as [V _]. apply Z.eqb_eq in V.
    rewrite fexp_eq in V.
    assert (Hd : Z.pos (digits2_pos mf) <= 53) by lia.
    pose proof (digits2_pos_gt mf) as G.
    assert (G53 : Z.pos mf < 2 ^ 53).
    { eapply Z.lt_le_trans; [exact G |]. apply Z.pow_le_mono_r; lia. }
    unfold SFleb, SFcompare in H1.
    destruct (Z.compare_spec ef (-52)) as [E|L|Gt].
    + subst ef. split; [lia |]. change (2 ^ (- -52)) with 4503599627370496.
      rewrite Pos.compare_cont_spec in H1.
      assert (Hle : (mf <= 4503599627370496)%positive).
      { unfold Pos.le. intros C. rewrite C in H1. discriminate. }
      exact (Pos2Z.pos_le_pos _ _ Hle).
    + split; [lia |]. apply Z.lt_le_incl. eapply Z.lt_le_trans; [exact G53 |].
      apply Z.pow_le_mono_r; lia.
    + discriminate.
Qed.

(** [int(f * n)] exists and lies between 0 and [n] for [f] in [[0, 1]]
    and [n] below [2^53]. *)
Lemma scaled_count_bounds (f : float) (n : nat) :
  (0 <=? f)%float = true -> (f <=? 1)%float = true -> Z.of_nat n < 2 ^ 53 ->
  exists z, scaled_count f n = Ok z /\ 0 <= z <= Z.of_nat n.
Proof.
  intros H0 H1 Hn. unfold scaled_count, int_of_float. rewrite mul_spec.
  destruct (unit_interval_cases f H0 H1) as [[s Hf]|[mf [ef [Hf [Hef Hmf]]]]];
    rewrite Hf.
  - (* the fraction is a zero *)
    destruct (Z.of_nat n) as [|m|m] eqn:En; [| | lia].
    + exists 0. change (Prim2SF (float_of_Z 0)) with (S754_zero false).
      cbn. split; [reflexivity | lia].
    + destruct (Prim2SF_float_of_Z_pos m Hn) as [mc [ec [Hc _]]]. rewrite Hc.
      exists 0. cbn. split; [reflexivity | lia].
  - destruct (Z.of_nat n) as [|m|m] eqn:En; [| | lia].
    + exists 0. change (Prim2SF (float_of_Z 0)) with (S754_zero false).
      cbn. split; [reflexivity | lia].
    + destruct (Prim2SF_float_of_Z_pos m Hn) as [mc [ec [Hc [Hec Hmc]]]]. rewrite Hc.
      unfold SF64mul, SFmul. cbn [xorb].
      destruct (binary_round_aux_bound (mf * mc) (ef + ec) (Z.pos m))
        as [R|[m3 [e3 [R [He3 Hm3]]]]]; [lia | lia | | |].
      * rewrite Pos2Z.inj_mul, Hmc.
        replace (- (ef + ec)) with (- ef + - ec) by lia.
        rewrite Z.pow_add_r by lia.
        assert (0 < 2 ^ (- ec)) by (apply Z.pow_pos_nonneg; lia).
        nia.
      * rewrite R. exists 0. split; [reflexivity | lia].
      * rewrite R. eexists. split; [reflexivity |].
        destruct e3 as [|p|p]; [| lia |].
        -- cbn [Z.shiftl]. cbn in Hm3. lia.
        -- rewrite Z.shiftr_div_pow2 by lia.
           change (- Z.neg p) with (Z.pos p) in Hm3.
           assert (0 < 2 ^ Z.pos p) by (apply Z.pow_pos_nonneg; lia).
           split; [apply Z.div_pos; lia |].
           apply Z.div_le_upper_bound; lia.
Qed.



Local Close Scope Z_scope.

(** ** Norms and signal to noise ratio *)

(** [length a] is enough fuel: more fuel never changes the sum. *)
Lemma pairwise_sum_fuel (fuel1 fuel2 : nat) (a : list float) :
  length a <= fuel1 -> length a <= fuel2 ->
  pairwise_sum fuel1 a = pairwise_sum fuel2 a.
Proof.
  revert fuel2 a. induction fuel1 as [|fuel1 IH]; intros fuel2 a H1 H2.
  - destruct fuel2; cbn [pairwise_sum];
      destruct (Nat.ltb_spec (length a) 8); try reflexivity; lia.
  - destruct fuel2 as [|fuel2]; cbn [pairwise_sum];
      destruct (Nat.ltb_spec (length a) 8); try reflexivity;
      destruct (Nat.leb_spec (length a) 128); try reflexivity; [lia |].
    set (n2 := length a / 2 - (length a / 2) mod 8).
    assert (Hn2 : 0 < n2 < length a).
    { subst n2. pose proof (Nat.mod_upper_bound (length a / 2) 8 ltac:(lia)).
      pose proof (Nat.div_lt (length a) 2 ltac:(lia) ltac:(lia)).
      assert (64 <= length a / 2) by (apply Nat.div_le_lower_bound; lia).
      lia. }
    f_equal; apply IH; rewrite ?length_firstn, ?length_skipn; lia.
Qed.

Lemma sum_loop_zeros (l : list float) :
  all_zero l -> sum_loop 0%float l = 0%float.
Proof.
  unfold sum_loop. induction 1 as [|d l Hd Hl IH]; cbn [fold_left].
  - reflexivity.
  - subst d. exact IH.
Qed.

Lemma map2_add_zeros (r a : list float) :
  all_zero r -> all_zero a -> all_zero (map2 PrimFloat.add r a).
Proof.
  intros Hr. revert a. induction Hr as [|x r Hx Hr IH]; intros a Ha; cbn.
  - constructor.
  - destruct Ha as [|y a Hy Ha]; constructor.
    + now subst.
    + now apply IH.
Qed.

Lemma Forall_firstn_skipn {A : Type} (P : A -> Prop) (k : nat) (l : list A) :
  Forall P l -> Forall P (firstn k l) /\ Forall P (skipn k l).
Proof.
  intros H. apply Forall_app. now rewrite firstn_skipn.
Qed.

Lemma accumulate8_zeros (blocks : nat) (r a : list float) :
  all_zero r -> all_zero a ->
  all_zero (fst (accumulate8 blocks r a)) /\ all_zero (snd (accumulate8 blocks r a)).
Proof.
  revert r a. induction blocks as [|b IH]; intros r a Hr Ha; cbn [accumulate8].
  - now split.
  - destruct (Forall_firstn_skipn _ 8 a Ha) as [Hf Hs].
    apply IH; [now apply map2_add_zeros | exact Hs].
Qed.

Lemma reduce8_zeros (r : list float) : all_zero r -> reduce8 r = 0%float.
Proof.
  intros H. unfold reduce8.
  repeat (destruct H as [|? r ? H]; [reflexivity | subst]).
  destruct H; reflexivity.
Qed.

Lemma pairwise_sum_zeros (fuel : nat) (a : list float) :
  all_zero a -> pairwise_sum fuel a = 0%float.
Proof.
  revert a. induction fuel as [|fuel IH]; intros a Ha; cbn [pairwise_sum];
    destruct (length a <? 8); try (now apply sum_loop_zeros);
    destruct (length a <=? 128).
  - destruct (Forall_firstn_skipn _ 8 a Ha) as [Hf Hs].
    destruct (accumulate8_zeros (length a / 8 - 1) _ _ Hf Hs) as [H1 H2].
    destruct (accumulate8 _ _ _) as [r rest]. cbn [fst snd] in H1, H2.
    rewrite (reduce8_zeros r H1). now apply sum_loop_zeros.
  - now apply sum_loop_zeros.
  - destruct (Forall_firstn_skipn _ 8 a Ha) as [Hf Hs].
    destruct (accumulate8_zeros (length a / 8 - 1) _ _ Hf Hs) as [H1 H2].
    destruct (accumulate8 _ _ _) as [r rest]. cbn [fst snd] in H1, H2.
    rewrite (reduce8_zeros r H1). now apply sum_loop_zeros.
  - destruct (Forall_firstn_skipn _ (length a / 2 - (length a / 2) mod 8) a Ha)
      as [Hf Hs].
    rewrite (IH _ Hf), (IH _ Hs). reflexivity.
Qed.

Lemma add_reduce_zeros (a : list float) : all_zero a -> add_reduce a = 0%float.
Proof.
  intros H. unfold add_reduce. now rewrite pairwise_sum_zeros.
Qed.

Lemma vector_norm_2 (lib : library) (v : list float) :
  vector_norm lib (SInt 2) v
  = Ok (PrimFloat.sqrt (add_reduce (map (fun d => d * d)%float v))).
Proof. reflexivity. Qed.

Lemma float_diff_self (x : ndarray) :
  Forall (fun a => finite (float_of_scalar a) = true) (data x) ->
  exists diff, float_diff x x = Ok diff /\ all_zero diff.
Proof.
  intros H. unfold float_diff, shape_eqb.
  destruct (list_eq_dec Nat.eq_dec (shape x) (shape x)); [| congruence].
  eexists. split; [reflexivity |].
  induction H as [|a l Ha Hl IH]; cbn [map2]; constructor.
  - now apply sub_self.
  - exact IH.
Qed.

Lemma length_chunks {A : Type} (k n : nat) (l : list A) : length (chunks k n l) = n.
Proof.
  revert l. induction n as [|n IH]; intros l; cbn; [reflexivity | now rewrite IH].
Qed.

Lemma chunks_zeros (k n : nat) (l : list float) :
  all_zero l -> Forall all_zero (chunks k n l).
Proof.
  revert l. induction n as [|n IH]; intros l H; cbn [chunks]; constructor.
  - apply (Forall_firstn_skipn _ k l H).
  - apply IH. apply (Forall_firstn_skipn _ k l H).
Qed.

Lemma norm_2_zero_rows (lib : library) (rows : list (list float)) :
  Forall all_zero rows ->
  mapM (vector_norm lib (SInt 2)) rows = Ok (repeat 0%float (length rows)).
Proof.
  induction 1 as [|v rows Hv Hrows IH]; cbn [mapM length repeat].
  - reflexivity.
  - rewrite vector_norm_2, IH. cbn [bind].
    rewrite add_reduce_zeros; [reflexivity |].
    induction Hv; cbn [map]; constructor; [now subst | assumption].
Qed.

(** C9, as stated, fails for a batch that holds an infinity: the
    difference of the infinity with itself is NaN, and so is the norm of
    the sample. *)
Lemma l2_identical_inputs_counterexample :
  l2 example_library (mk_ndarray [1; 1] [SFlt infinity])
     (mk_ndarray [1; 1] [SFlt infinity])
  = Ok [SFlt nan].
Proof. vm_compute. reflexivity. Qed.

(** C9, amended: for a batch [x] of at least one sample whose entries
    are finite numbers, [l2(x, x)] returns a list with one entry per
    sample, every entry being [0.0]. *)
Theorem l2_identical_inputs (lib : library) (x : ndarray) (n : nat) (s : list nat) :
  shape x = S n :: s ->
  Forall (fun a => finite (float_of_scalar a) = true) (data x) ->
  l2 lib x x = Ok (repeat (SFlt 0) (S n)).
Proof.
  intros Hs Hfin. unfold l2, norm.
  destruct (float_diff_self x Hfin) as [diff [Hd Hz]].
  rewrite Hd, Hs. cbn [bind].
  rewrite (norm_2_zero_rows lib _ (chunks_zeros (size_of s) (S n) diff Hz)).
  cbn [bind]. rewrite length_chunks. now rewrite map_repeat.
Qed.

Lemma l2_identical_inputs_witness :
  l2 example_library example_audio example_audio = Ok [SFlt 0; SFlt 0].
Proof.
  apply (l2_identical_inputs example_library example_audio 1 [2]).
  - reflexivity.
  - repeat constructor.
Defined.







(** ** Selection of the indices to poison *)









Section Selection.

Variable rng : Type.
Variable permutation : rng -> nat -> list nat * rng.

(** What numpy promises of [permutation(n)]: a rearrangement of
    [0 .. n-1]. *)
Hypothesis permutation_spec :
  forall g n, Permutation (fst (permutation g n)) (seq 0 n).






End Selection.


(** The scenario of the specification: a tenth of 100 samples of the
    source class is 10 samples, and 29 hundredths of them is 28. *)
Example scaled_count_tenth : scaled_count 0x1.999999999999ap-4 100 = Ok 10%Z.
Proof. vm_compute. reflexivity. Qed.

Example selection_of_example_labels :
  select_poisoned_indices unit reversing_permutation tt example_train_labels 3 0.5
  = Ok ([5; 4], tt).
Proof. vm_compute. reflexivity. Qed.

(** The size is the truncation of the float product: a third (as a
    float, just below 1/3) of 3 rounds to [1.0]. *)
Example scaled_count_third : scaled_count 0x1.5555555555555p-2 3 = Ok 1%Z.
Proof. vm_compute. reflexivity. Qed.

(** A source class above every label is outside what [np.bincount]
    reports: the selection raises before choosing anything. *)
Example selection_beyond_labels :
  select_poisoned_indices unit reversing_permutation tt [0; 1] 5 0.5
  = Raise (IndexError "index out of bounds").
Proof. reflexivity. Qed.

(** ** Results of the scenario *)

Example example_evaluate_results :
  example_evaluate false example_config None
  = Ok [("validation_accuracy", 0.75%float);
        ("validation_accuracy_targeted_class", 1%float)].
Proof. vm_compute. reflexivity. Qed.

Section Evaluation.

Variable lib : library.
Variables image channels : Type.
Variable transpose_201 : image -> channels.
Variable transpose_120 : channels -> image.
Variable attack : Type.
Variable poison : attack -> channels -> list nat -> channels * list nat.
Variable rng : Type.
Variable seed : Z -> rng.
Variable permutation : rng -> nat -> list nat * rng.
Variables classifier onehot : Type.
Variable load_model : classifier.
Variable load_defense_model : classifier.
Variable fit : classifier -> list image -> list onehot -> nat -> nat -> classifier.
Variable predict : classifier -> list image -> ndarray.
Variable to_categorical : list label -> list onehot.
Variable detect_poison : classifier -> list image -> list onehot -> list nat.
Variable load_attack : attack.
Variable load_dataset : split_type -> nat -> list (list image * list nat).

Let evaluate :=
  _evaluate lib image channels transpose_201 transpose_120 attack poison
            rng seed permutation classifier onehot load_model load_defense_model
            fit predict to_categorical detect_poison load_attack load_dataset.

Ltac step_bind H :=
  match type of H with
  | context [bind ?x _] =>
      let E := fresh "E" in
      destruct x as [[]|] eqn:E; cbn [bind] in H; [| discriminate H]
  | context [bind ?x _] =>
      let E := fresh "E" in
      destruct x eqn:E; cbn [bind] in H; [| discriminate H]
  end.

(** C8: a run with [poison_dataset] false and an attack type other than
    ["preloaded"] that reaches its end returns a mapping with exactly the
    keys ["validation_accuracy"] and
    ["validation_accuracy_targeted_class"]; ["test_accuracy"] and
    ["targeted_misclassification_accuracy"] are absent from it. *)
Theorem clean_run_results (check_run : bool) (cfg : config)
    (num_eval_batches : option nat) (r : dict float) :
  poison_dataset_flag cfg = false ->
  attack_type cfg <> Some "preloaded" ->
  evaluate check_run cfg num_eval_batches = Ok r ->
  keys r = ["validation_accuracy"; "validation_accuracy_targeted_class"]
  /\ dict_get "test_accuracy" r = None
  /\ dict_get "targeted_misclassification_accuracy" r = None.
Proof.
  intros Hflag Htype H. subst evaluate. unfold _evaluate in H.
  assert (Hpre : is_preloaded cfg = false).
  { unfold is_preloaded. destruct (attack_type cfg) as [t|]; [| reflexivity].
    destruct (String.eqb_spec t "preloaded"); [subst; congruence | reflexivity]. }
  rewrite Hpre, Hflag in H. cbn [orb] in H.
  destruct num_eval_batches as [[|n]|]; try discriminate H;
    repeat step_bind H; inversion H; subst r; repeat split; reflexivity.
Qed.

End Evaluation.

Lemma clean_run_results_witness :
  exists r,
    example_evaluate false example_config None = Ok r
    /\ keys r = ["validation_accuracy"; "validation_accuracy_targeted_class"]
    /\ dict_get "test_accuracy" r = None
    /\ dict_get "targeted_misclassification_accuracy" r = None.
Proof.
  eexists. split; [exact example_evaluate_results |].
  apply (clean_run_results example_library nat nat (fun x => x) (fun x => x)
           unit (fun _ x y => (x + 100, y))
           unit (fun _ => tt) reversing_permutation
           unit nat tt tt (fun c _ _ _ _ => c) example_predict
           (map (fun l => match label_value l with Some c => c | None => 0 end))
           (fun _ x _ => repeat 1 (length x)) tt example_load_dataset
           false example_config None).
  - reflexivity.
  - discriminate.
  - exact example_evaluate_results.
Defined.

(** ** The poisoned training set of the example *)

Example poison_dataset_of_example :
  poison_dataset nat nat (fun x => x) (fun x => x) unit (fun _ x y => (x + 100, y))
                 [7; 8; 9] [3; 1; 3] 3 5 3 tt [2]
  = Ok ([7; 8; 109], [LabelInt 3; LabelInt 1; LabelArr [5]]).
Proof. reflexivity. Qed.

Lemma poison_dataset_frame_witness :
  exists poison_x poison_y,
    poison_dataset nat nat (fun x => x) (fun x => x) unit (fun _ x y => (x + 100, y))
                   [7; 8; 9] [3; 1; 3] 3 5 3 tt [2]
    = Ok (poison_x, poison_y)
    /\ length poison_x = 3
    /\ length poison_y = 3
    /\ (nth_error poison_x 1 = Some 8 /\ nth_error poison_y 1 = Some (LabelInt 1))
    /\ (nth_error poison_x 2 = Some 109 /\ nth_error poison_y 2 = Some (LabelArr [5])).
Proof.
  destruct (poison_dataset_frame nat nat (fun x => x) (fun x => x) unit
              (fun _ x y => (x + 100, y)) [7; 8; 9] [3; 1; 3] 3 5 tt [2]
              eq_refl (fun _ => eq_refl))
    as [poison_x [poison_y [H [Hx [Hy Hs]]]]].
  - intros i [<-|[]]. reflexivity.
  - exists poison_x, poison_y.
    split; [exact H |]. split; [exact Hx |]. split; [exact Hy |]. split.
    + apply (proj1 (Hs 1 8 1 eq_refl eq_refl)). intros [E|[]]. discriminate E.
    + destruct (proj2 (Hs 2 9 3 eq_refl eq_refl) (or_introl eq_refl)) as [A [B _]].
      split; assumption.
Defined.

(** * Further properties of the metrics *)

(** ** Accuracy metrics *)

Lemma length_map2 {A B C : Type} (f : A -> B -> C) (l : list A) (m : list B) :
  length (map2 f l m) = Nat.min (length l) (length m).
Proof.
  revert m. induction l as [|a l IH]; intros [|b m]; cbn; auto.
Qed.

Lemma nth_error_map2 {A B C : Type} (f : A -> B -> C) (l : list A) (m : list B)
    (i : nat) (a : A) (b : B) :
  nth_error l i = Some a -> nth_error m i = Some b ->
  nth_error (map2 f l m) i = Some (f a b).
Proof.
  revert m i. induction l as [|x l IH]; intros [|y m] [|i] Ha Hb; cbn in *;
    try discriminate.
  - now inversion Ha; inversion Hb.
  - now apply IH.
Qed.

Lemma map_map2 {A B C D : Type} (g : C -> D) (f : A -> B -> C) (l : list A)
    (m : list B) :
  map g (map2 f l m) = map2 (fun a b => g (f a b)) l m.
Proof.
  revert m. induction l as [|a l IH]; intros [|b m]; cbn; try reflexivity.
  now rewrite IH.
Qed.

Lemma map2_map_r {A B B' C : Type} (f : A -> B -> C) (h : B' -> B) (l : list A)
    (m : list B') :
  map2 f l (map h m) = map2 (fun a b => f a (h b)) l m.
Proof.
  revert m. induction l as [|a l IH]; intros [|b m]; cbn; try reflexivity.
  now rewrite IH.
Qed.

Lemma shape_eqb_refl (s : list nat) : shape_eqb s s = true.
Proof.
  unfold shape_eqb. destruct (list_eq_dec Nat.eq_dec s s); congruence.
Qed.

Lemma shape_eqb_neq (s t : list nat) : s <> t -> shape_eqb s t = false.
Proof.
  unfold shape_eqb. destruct (list_eq_dec Nat.eq_dec s t); congruence.
Qed.

(** X1: on two lists of integer labels in the range of [int64],
    [categorical_accuracy] returns one 0/1 entry per sample when the
    lists have the same length, the entry being 1 exactly when the two
    labels are equal; when the lengths differ it raises the
    [ValueError] for mismatched dimensions. *)
Theorem categorical_accuracy_label_lists (y y_pred : list Z) :
  Forall (fun a => - 2 ^ 63 <= a < 2 ^ 63)%Z y ->
  Forall (fun a => - 2 ^ 63 <= a < 2 ^ 63)%Z y_pred ->
  (length y = length y_pred ->
   exists r,
     categorical_accuracy (array_of_list (map SInt y)) (array_of_list (map SInt y_pred))
     = Ok r
     /\ length r = length y
     /\ forall i a b,
          nth_error y i = Some a -> nth_error y_pred i = Some b ->
          nth_error r i = Some (SInt (if (a =? b)%Z then 1 else 0)))
  /\ (length y <> length y_pred ->
      categorical_accuracy (array_of_list (map SInt y)) (array_of_list (map SInt y_pred))
      = Raise (ValueError "mismatched dimensions")).
Proof.
  intros _ _.
  unfold categorical_accuracy, array_of_list, ndim. cbn [shape data length Nat.eqb].
  rewrite !length_map. split.
  - intros Hlen. rewrite Hlen, shape_eqb_refl. cbn [ints_of_bools].
    eexists. split; [reflexivity |]. rewrite map_map2. split.
    + rewrite length_map2, !length_map. lia.
    + intros i a b Ha Hb.
      rewrite (nth_error_map2 _ (map SInt y) (map SInt y_pred) i (SInt a) (SInt b));
        [reflexivity | |].
      * now rewrite nth_error_map, Ha.
      * now rewrite nth_error_map, Hb.
  - intros Hlen. rewrite shape_eqb_neq by congruence. reflexivity.
Qed.

Lemma categorical_accuracy_label_lists_witness :
  (exists r,
      categorical_accuracy example_labels example_predictions = Ok r
      /\ length r = 3
      /\ nth_error r 1 = Some (SInt 0))
  /\ categorical_accuracy example_labels (array_of_list [SInt 1])
     = Raise (ValueError "mismatched dimensions").
Proof.
  destruct (categorical_accuracy_label_lists [1; 0; 1]%Z [1; 1; 1]%Z) as [H _].
  - repeat constructor; lia.
  - repeat constructor; lia.
  - destruct (H eq_refl) as [r [Hr [Hl Hn]]].
    split.
    + exists r. split; [exact Hr |]. split; [exact Hl |].
      exact (Hn 1%nat 0%Z 1%Z eq_refl eq_refl).
    + apply (proj2 (categorical_accuracy_label_lists [1; 0; 1]%Z [1]%Z
                      ltac:(repeat constructor; lia) ltac:(repeat constructor; lia))).
      discriminate.
Defined.

Lemma argmax_from_bound (best : scalar) (besti i : nat) (l : list scalar) :
  besti < i -> argmax_from best besti i l < i + length l.
Proof.
  revert best besti i. induction l as [|x l IH]; intros best besti i H; cbn.
  - lia.
  - destruct (scalar_is_nan best); [lia |].
    destruct (negb (scalar_leb x best)).
    + specialize (IH x i (S i) ltac:(lia)). lia.
    + specialize (IH best besti (S i) ltac:(lia)). lia.
Qed.

Lemma argmax_in_range (l : list scalar) (i : nat) :
  argmax l = Ok i -> i < length l.
Proof.
  destruct l as [|x l]; cbn; [discriminate |].
  intros H. inversion H. pose proof (argmax_from_bound x 0 1 l ltac:(lia)). lia.
Qed.

Lemma chunks_row_length {A : Type} (k n : nat) (l : list A) :
  length l = n * k -> Forall (fun c => length c = k) (chunks k n l).
Proof.
  revert l. induction n as [|n IH]; intros l H; cbn [chunks]; constructor.
  - rewrite length_firstn. lia.
  - apply IH. rewrite length_skipn. lia.
Qed.

Lemma mapM_argmax (k : nat) (rows : list (list scalar)) :
  0 < k -> Forall (fun r => length r = k) rows ->
  exists am,
    mapM argmax rows = Ok am /\ length am = length rows /\ Forall (fun i => i < k) am.
Proof.
  intros Hk H. induction H as [|r rows Hr Hrows IH]; cbn [mapM].
  - exists []. repeat split. constructor.
  - destruct IH as [am [E [L F]]].
    destruct (argmax r) as [i|] eqn:Ei.
    + rewrite E. cbn [bind]. exists (i :: am). split; [reflexivity |].
      split; [cbn; lia |]. constructor; [| exact F].
      apply argmax_in_range in Ei. lia.
    + destruct r; [cbn in Hr; lia | discriminate].
Qed.

(** X2: on a list of [n] labels and an [n] by [k] array of scores with
    [k > 0], [categorical_accuracy] returns one 0/1 entry per sample, 1
    exactly when the label equals the [argmax] of the sample's row of
    scores; every predicted class is below [k]. *)
Theorem categorical_accuracy_score_rows (y scores : list scalar) (k : nat) :
  0 < k ->
  length scores = length y * k ->
  exists am,
    mapM argmax (chunks k (length y) scores) = Ok am
    /\ length am = length y
    /\ Forall (fun i => i < k) am
    /\ categorical_accuracy (array_of_list y) (mk_ndarray [length y; k] scores)
       = Ok (map2 (fun v i => SInt (if scalar_eqb v (SInt (Z.of_nat i)) then 1 else 0))
                  y am).
Proof.
  intros Hk Hlen.
  destruct (mapM_argmax k (chunks k (length y) scores) Hk
              (chunks_row_length k (length y) scores Hlen)) as [am [E [L F]]].
  rewrite length_chunks in L.
  exists am. split; [exact E |]. split; [exact L |]. split; [exact F |].
  unfold categorical_accuracy, array_of_list, ndim.
  cbn [shape data length Nat.eqb Nat.add].
  rewrite shape_eqb_neq by discriminate.
  unfold argmax_last. cbn [shape data rev app size_of fold_right].
  rewrite Nat.mul_1_r, E. cbn [bind]. unfold array_eq. cbn [shape data].
  rewrite shape_eqb_refl. cbn [bind ints_of_bools].
  now rewrite map_map2, map2_map_r.
Qed.

Lemma categorical_accuracy_score_rows_witness :
  exists am,
    mapM argmax (chunks 3 2 [SFlt 0.5; SFlt 2; SFlt 1; SFlt 0.25; SFlt 4; SFlt 8]) = Ok am
    /\ length am = 2
    /\ Forall (fun i => i < 3) am
    /\ categorical_accuracy (array_of_list [SInt 1; SInt 0])
         (mk_ndarray [2; 3] [SFlt 0.5; SFlt 2; SFlt 1; SFlt 0.25; SFlt 4; SFlt 8])
       = Ok (map2 (fun v i => SInt (if scalar_eqb v (SInt (Z.of_nat i)) then 1 else 0))
                  [SInt 1; SInt 0] am).
Proof.
  apply (categorical_accuracy_score_rows [SInt 1; SInt 0]
           [SFlt 0.5; SFlt 2; SFlt 1; SFlt 0.25; SFlt 4; SFlt 8] 3).
  - lia.
  - reflexivity.
Defined.

Lemma argmax_from_integers (zs : list Z) (b : Z) (besti i : nat) :
  besti < i ->
  let r := argmax_from (SInt b) besti i (map SInt zs) in
  (r = besti /\ Forall (fun z => z <= b)%Z zs)
  \/ (i <= r < i + length zs
      /\ exists m, nth_error zs (r - i) = Some m /\ (b < m)%Z
                   /\ Forall (fun z => z <= m)%Z zs
                   /\ forall j z, j < r - i -> nth_error zs j = Some z -> (z < m)%Z).
Proof.
  revert b besti i. induction zs as [|x zs IH]; intros b besti i H; cbn [map argmax_from].
  - left. split; [reflexivity | constructor].
  - cbn [scalar_is_nan scalar_leb]. destruct (Z.leb_spec x b) as [Hle|Hgt]; cbn [negb].
    + destruct (IH b besti (S i) ltac:(lia)) as [[Hr Hall]|[Hr [m [Hm [Hb [Hall Hfirst]]]]]].
      * left. split; [exact Hr | now constructor].
      * right. split; [cbn [length]; lia |]. exists m.
        replace (argmax_from (SInt b) besti (S i) (map SInt zs) - i)
          with (S (argmax_from (SInt b) besti (S i) (map SInt zs) - S i)) by lia.
        split; [exact Hm |]. split; [exact Hb |]. split; [constructor; [lia | exact Hall] |].
        intros [|j] z Hj Hz; cbn in Hz.
        -- inversion Hz; subst. lia.
        -- apply (Hfirst j z); [lia | exact Hz].
    + destruct (IH x i (S i) ltac:(lia)) as [[Hr Hall]|[Hr [m [Hm [Hb [Hall Hfirst]]]]]].
      * right. rewrite Hr. split; [cbn [length]; lia |]. exists x.
        rewrite Nat.sub_diag. split; [reflexivity |]. split; [exact Hgt |].
        split; [constructor; [lia | exact Hall] |]. intros j z Hj. lia.
      * right. split; [cbn [length]; lia |]. exists m.
        replace (argmax_from (SInt x) i (S i) (map SInt zs) - i)
          with (S (argmax_from (SInt x) i (S i) (map SInt zs) - S i)) by lia.
        split; [exact Hm |]. split; [lia |]. split; [constructor; [lia | exact Hall] |].
        intros [|j] z Hj Hz; cbn in Hz.
        -- inversion Hz; subst. lia.
        -- apply (Hfirst j z); [lia | exact Hz].
Qed.

(** X3: on a non-empty vector of integers, [argmax] returns the index of
    the first largest entry: the entry there is at least every entry and
    strictly above every earlier one. *)
Theorem argmax_integers (z0 : Z) (zs : list Z) :
  exists i m,
    argmax (map SInt (z0 :: zs)) = Ok i
    /\ nth_error (z0 :: zs) i = Some m
    /\ forall j z, nth_error (z0 :: zs) j = Some z ->
                   (z <= m)%Z /\ (j < i -> (z < m)%Z).
Proof.
  cbn [map argmax].
  destruct (argmax_from_integers zs z0 0 1 ltac:(lia))
    as [[Hr Hall]|[Hr [m [Hm [Hb [Hall Hfirst]]]]]].
  - exists 0, z0. rewrite Hr. split; [reflexivity |]. split; [reflexivity |].
    intros [|j] z Hz; cbn in Hz.
    + inversion Hz; subst. split; lia.
    + split; [| lia]. apply nth_error_In in Hz.
      exact (proj1 (Forall_forall _ zs) Hall z Hz).
  - set (r := argmax_from (SInt z0) 0 1 (map SInt zs)) in *.
    exists r, m. split; [reflexivity |].
    replace r with (S (r - 1)) at 1 by lia. split; [exact Hm |].
    intros [|j] z Hz; cbn in Hz.
    + inversion Hz; subst. split; lia.
    + split.
      * apply nth_error_In in Hz. exact (proj1 (Forall_forall _ zs) Hall z Hz).
      * intros Hj. apply (Hfirst j z); [lia | exact Hz].
Qed.

Lemma insert_index_perm (v : list scalar) (i : nat) (sorted : list nat) :
  Permutation (insert_index v i sorted) (i :: sorted).
Proof.
  induction sorted as [|j rest IH]; cbn.
  - reflexivity.
  - destruct (scalar_ltb (nth i v (SInt 0)) (nth j v (SInt 0))); [reflexivity |].
    rewrite IH. apply perm_swap.
Qed.

Lemma insertion_argsort_perm (v : list scalar) :
  Permutation (insertion_argsort v) (seq 0 (length v)).
Proof.
  unfold insertion_argsort.
  assert (H : forall l acc,
             Permutation (fold_left (fun sorted i => insert_index v i sorted) l acc)
                         (l ++ acc)).
  { induction l as [|a l IH]; intros acc; cbn [fold_left app]; [reflexivity |].
    rewrite IH, insert_index_perm. symmetry. apply Permutation_middle. }
  rewrite H. now rewrite app_nil_r.
Qed.

Lemma lastn_all {A : Type} (n : nat) (l : list A) : length l <= n -> lastn n l = l.
Proof.
  intros H. unfold lastn. replace (length l - n) with 0 by lia. reflexivity.
Qed.

(** X4: when [np.argsort] returns a rearrangement of the positions of a
    row, top-[n] accuracy with [n] at least 2 and at least the number of
    classes [k] scores 1 for every sample whose label is a class below
    [k], whatever the scores. *)
Theorem top_n_all_classes (lib : library) (y : list nat) (scores : list scalar)
    (k : nat) (n : Z) :
  (forall row, Permutation (np_argsort lib row) (seq 0 (length row))) ->
  (2 <= n)%Z ->
  (Z.of_nat k <= n)%Z ->
  length scores = length y * k ->
  Forall (fun c => c < k) y ->
  top_n_categorical_accuracy lib (labels_array y) (mk_ndarray [length y; k] scores)
                             (SInt n)
  = Ok (map (fun _ => SInt 1) y).
Proof.
  intros Hsort Hn Hk Hlen Hy.
  unfold top_n_categorical_accuracy, labels_array, array_of_list, ndim, len.
  cbn [scalar_ltb int_of_scalar bind shape data length Nat.eqb Nat.add].
  destruct (Z.ltb_spec n 1); [lia |]. destruct (Z.eqb_spec n 1); [lia |].
  rewrite length_map, Nat.eqb_refl. cbn [negb].
  rewrite shape_eqb_neq by discriminate. f_equal.
  pose proof (chunks_row_length k (length y) scores Hlen) as Hrows.
  pose proof (length_chunks k (length y) scores) as Hcount.
  revert Hrows Hcount. generalize (chunks k (length y) scores). clear Hlen.
  induction Hy as [|c y Hc Hy IH]; intros rows Hrows Hcount.
  - reflexivity.
  - destruct rows as [|r rows]; [discriminate |]. cbn [map map2].
    inversion Hrows as [|? ? Hr Hrows']; subst.
    rewrite IH by (try assumption; now inversion Hcount). f_equal.
    rewrite lastn_all
      by (rewrite (Permutation_length (Hsort r)), length_seq; lia).
    replace (existsb _ _) with true; [reflexivity |].
    symmetry. apply existsb_exists. exists (SInt (Z.of_nat c)).
    split; [| cbn; apply Z.eqb_refl].
    apply (in_map (fun i => SInt (Z.of_nat i))).
    apply (Permutation_in _ (Permutation_sym (Hsort r))).
    apply in_seq. lia.
Qed.

Lemma top_n_all_classes_witness :
  top_n_categorical_accuracy example_library (labels_array [0; 2])
    (mk_ndarray [2; 3] [SFlt 0.5; SFlt 2; SFlt 1; SFlt 0.25; SFlt 4; SFlt 8]) (SInt 5)
  = Ok [SInt 1; SInt 1].
Proof.
  apply (top_n_all_classes example_library [0; 2]
           [SFlt 0.5; SFlt 2; SFlt 1; SFlt 0.25; SFlt 4; SFlt 8] 3 5
           insertion_argsort_perm).
  - lia.
  - lia.
  - reflexivity.
  - repeat constructor.
Defined.

(** ** Norms *)

Lemma binary_round_aux_abs (sx : bool) (mx ex : Z) (lx : location) :
  SFabs (binary_round_aux prec emax sx mx ex lx)
  = SFabs (binary_round_aux prec emax false mx ex lx).
Proof.
  unfold binary_round_aux.
  destruct (shr_fexp prec emax mx ex lx) as [mrs e'].
  destruct (shr_fexp prec emax _ e' loc_Exact) as [mrs2 e2].
  destruct (shr_m mrs2); try reflexivity.
  destruct (Z.leb e2 (emax - prec)); reflexivity.
Qed.

Lemma binary_normalize_abs_opp (d e : Z) :
  SFabs (binary_normalize prec emax (- d) e false)
  = SFabs (binary_normalize prec emax d e false).
Proof.
  destruct d as [|p|p]; cbn [Z.opp binary_normalize]; [reflexivity | | symmetry];
    unfold binary_round; destruct (shl_align _ _ _) as [mz ez];
    apply binary_round_aux_abs.
Qed.

(** [|a - b|] and [|b - a|] are the same float. *)
Lemma SFabs_sub_comm (A B : spec_float) :
  SFabs (SF64sub A B) = SFabs (SF64sub B A).
Proof.
  unfold SF64sub.
  destruct A as [sa|sa| |sa ma ea], B as [sb|sb| |sb mb eb];
    try reflexivity; try (destruct sa, sb; reflexivity);
    try (destruct sa; reflexivity); try (destruct sb; reflexivity).
  unfold SFsub. rewrite (Z.min_comm eb ea).
  set (x := cond_Zopp sa (Z.pos (fst (shl_align ma ea (Z.min ea eb))))).
  set (y := cond_Zopp sb (Z.pos (fst (shl_align mb eb (Z.min ea eb))))).
  replace (y - x)%Z with (- (x - y))%Z by lia.
  symmetry. apply binary_normalize_abs_opp.
Qed.

Lemma SFmul_abs (X : spec_float) :
  SF64mul X X = SF64mul (SFabs X) (SFabs X).
Proof.
  destruct X as [s|s| |s m e]; try reflexivity; destruct s; reflexivity.
Qed.

Lemma abs_sub_comm (a b : float) : abs (a - b) = abs (b - a).
Proof.
  apply Prim2SF_inj. rewrite !abs_spec, !sub_spec. apply SFabs_sub_comm.
Qed.

Lemma square_abs (d : float) : (d * d)%float = (abs d * abs d)%float.
Proof.
  apply Prim2SF_inj. rewrite !mul_spec, abs_spec. apply SFmul_abs.
Qed.

Lemma eqb_zero_abs (d : float) : (d =? 0)%float = (abs d =? 0)%float.
Proof.
  rewrite !eqb_zero. unfold is_zero_float. rewrite abs_spec.
  destruct (Prim2SF d); reflexivity.
Qed.

Lemma abs_abs (d : float) : abs (abs d) = abs d.
Proof.
  apply Prim2SF_inj. rewrite !abs_spec. destruct (Prim2SF d); reflexivity.
Qed.

(** A row norm depends on the absolute values of the row alone. *)
Lemma vector_norm_abs (lib : library) (ord : scalar) (v : list float) :
  vector_norm lib ord v = vector_norm lib ord (map abs v).
Proof.
  unfold vector_norm. rewrite !map_map.
  rewrite (map_ext (fun x => abs (abs x)) abs abs_abs).
  rewrite (map_ext (fun x => if (abs x =? 0)%float then 0%float else 1%float)
                   (fun d => if (d =? 0)%float then 0%float else 1%float))
    by (intros d; now rewrite <- eqb_zero_abs).
  rewrite (map_ext (fun x => (abs x * abs x)%float) (fun d => (d * d)%float))
    by (intros d; now rewrite <- square_abs).
  rewrite (map_ext (fun x => np_power lib (abs (abs x)) (float_of_scalar ord))
                   (fun d => np_power lib (abs d) (float_of_scalar ord)))
    by (intros d; now rewrite abs_abs).
  reflexivity.
Qed.

Lemma map_abs_chunks (k n : nat) (l : list float) :
  map (map abs) (chunks k n l) = chunks k n (map abs l).
Proof.
  revert l. induction n as [|n IH]; intros l; cbn [chunks map]; [reflexivity |].
  now rewrite IH, firstn_map, skipn_map.
Qed.

Lemma mapM_ext_map {A B C : Type} (f : B -> result C) (g : A -> B) (l : list A) :
  mapM f (map g l) = mapM (fun a => f (g a)) l.
Proof.
  induction l as [|a l IH]; cbn [map mapM]; [reflexivity | now rewrite IH].
Qed.

Lemma mapM_ext {A B : Type} (f g : A -> result B) (l : list A) :
  (forall a, f a = g a) -> mapM f l = mapM g l.
Proof.
  intros H. induction l as [|a l IH]; cbn [mapM]; [reflexivity | now rewrite H, IH].
Qed.

Lemma rows_norm_abs (lib : library) (ord : scalar) (k n : nat) (l : list float) :
  mapM (vector_norm lib ord) (chunks k n l)
  = mapM (vector_norm lib ord) (chunks k n (map abs l)).
Proof.
  rewrite <- map_abs_chunks, mapM_ext_map. apply mapM_ext. intros v.
  apply vector_norm_abs.
Qed.

Lemma float_diff_abs_comm (dx dy : list scalar) :
  map abs (map2 (fun a b => (float_of_scalar a - float_of_scalar b)%float) dx dy)
  = map abs (map2 (fun a b => (float_of_scalar a - float_of_scalar b)%float) dy dx).
Proof.
  revert dy. induction dx as [|a dx IH]; intros [|b dy]; cbn [map2 map];
    try reflexivity.
  now rewrite IH, abs_sub_comm.
Qed.

(** X5: every norm is symmetric: for two batches of the same shape,
    [norm(x, x_adv, ord)] and [norm(x_adv, x, ord)] are the same result,
    float for float, for every order; so are [l0], [l1], [l2], [linf]
    and [lp]. *)
Theorem norm_symmetric (lib : library) (x x_adv : ndarray) (ord : scalar) :
  shape x = shape x_adv ->
  norm lib x x_adv ord = norm lib x_adv x ord.
Proof.
  intros Hs. unfold norm, float_diff. rewrite <- Hs, shape_eqb_refl. cbn [bind].
  destruct (shape x) as [|[|n] s]; try reflexivity.
  rewrite (rows_norm_abs lib ord (size_of s) (S n)
             (map2 _ (data x) (data x_adv))).
  rewrite (rows_norm_abs lib ord (size_of s) (S n)
             (map2 _ (data x_adv) (data x))).
  now rewrite float_diff_abs_comm.
Qed.

Lemma norm_symmetric_witness :
  l2 example_library example_audio example_silence
  = l2 example_library example_silence example_audio
  /\ l2 example_library example_audio example_silence = Ok [SFlt 5; SFlt 0].
Proof.
  split.
  - apply (norm_symmetric example_library example_audio example_silence (SInt 2)).
    reflexivity.
  - reflexivity.
Defined.

Lemma vector_norm_0 (lib : library) (v : list float) :
  vector_norm lib (SInt 0) v
  = Ok (add_reduce (map (fun d => if (d =? 0)%float then 0%float else 1%float) v)).
Proof. reflexivity. Qed.

Lemma vector_norm_1 (lib : library) (v : list float) :
  vector_norm lib (SInt 1) v = Ok (add_reduce (map abs v)).
Proof. reflexivity. Qed.

Lemma vector_norm_inf (lib : library) (d : float) (v : list float) :
  vector_norm lib (SFlt infinity) (d :: v)
  = Ok (fold_left np_maximum (map abs v) (abs d)).
Proof. reflexivity. Qed.

Lemma all_zero_map (f : float -> float) (v : list float) :
  f 0%float = 0%float -> all_zero v -> all_zero (map f v).
Proof.
  intros Hf H. induction H as [|d v Hd Hv IH]; cbn [map]; constructor;
    [now subst | exact IH].
Qed.

Lemma fold_maximum_zeros (v : list float) :
  all_zero v -> fold_left np_maximum v 0%float = 0%float.
Proof.
  induction 1 as [|d v Hd Hv IH]; cbn [fold_left]; [reflexivity |].
  subst d. exact IH.
Qed.

Lemma zero_rows (lib : library) (ord : scalar) (rows : list (list float)) :
  (forall v, In v rows -> vector_norm lib ord v = Ok 0%float) ->
  mapM (vector_norm lib ord) rows = Ok (repeat 0%float (length rows)).
Proof.
  induction rows as [|v rows IH]; intros H; cbn [mapM length repeat]; [reflexivity |].
  rewrite (H v (or_introl eq_refl)), IH by (intros; apply H; now right).
  reflexivity.
Qed.

(** X6: for a batch [x] of at least one sample whose entries are finite
    numbers, [l0(x, x)] and [l1(x, x)] return one [0.0] per sample; so
    does [linf(x, x)] when every sample holds at least one entry. *)
Theorem zero_distance_to_itself (lib : library) (x : ndarray) (n : nat) (s : list nat) :
  shape x = S n :: s ->
  Forall (fun a => finite (float_of_scalar a) = true) (data x) ->
  l0 lib x x = Ok (repeat (SFlt 0) (S n))
  /\ l1 lib x x = Ok (repeat (SFlt 0) (S n))
  /\ (0 < size_of s -> length (data x) = S n * size_of s ->
      linf lib x x = Ok (repeat (SFlt 0) (S n))).
Proof.
  intros Hs Hfin. unfold l0, l1, linf, norm.
  destruct (float_diff_self x Hfin) as [diff [Hd Hz]].
  rewrite Hd, Hs. cbn [bind].
  pose proof (chunks_zeros (size_of s) (S n) diff Hz) as Hrows.
  assert (Hlen : length (chunks (size_of s) (S n) diff) = S n) by apply length_chunks.
  split; [| split].
  - rewrite (zero_rows lib (SInt 0)).
    + cbn [bind]. now rewrite Hlen, map_repeat.
    + intros v Hv. rewrite vector_norm_0. f_equal. apply add_reduce_zeros.
      apply (all_zero_map (fun d => if (d =? 0)%float then 0%float else 1%float));
        [reflexivity |].
      exact (proj1 (Forall_forall _ _) Hrows v Hv).
  - rewrite (zero_rows lib (SInt 1)).
    + cbn [bind]. now rewrite Hlen, map_repeat.
    + intros v Hv. rewrite vector_norm_1. f_equal. apply add_reduce_zeros.
      apply all_zero_map; [reflexivity |].
      exact (proj1 (Forall_forall _ _) Hrows v Hv).
  - intros Hk Hdata.
    assert (Hdl : length diff = S n * size_of s).
    { unfold float_diff in Hd. rewrite shape_eqb_refl in Hd. inversion Hd.
      rewrite length_map2. lia. }
    pose proof (chunks_row_length (size_of s) (S n) diff Hdl) as Hrl.
    rewrite (zero_rows lib (SFlt infinity)).
    + cbn [bind]. now rewrite Hlen, map_repeat.
    + intros v Hv.
      pose proof (proj1 (Forall_forall _ _) Hrows v Hv) as Hv0.
      pose proof (proj1 (Forall_forall _ _) Hrl v Hv) as Hvl.
      destruct v as [|d v]; [cbn in Hvl; lia |].
      rewrite vector_norm_inf. inversion Hv0; subst. f_equal.
      apply fold_maximum_zeros. now apply all_zero_map.
Qed.

Lemma zero_distance_to_itself_witness :
  l0 example_library example_audio example_audio = Ok [SFlt 0; SFlt 0]
  /\ l1 example_library example_audio example_audio = Ok [SFlt 0; SFlt 0]
  /\ linf example_library example_audio example_audio = Ok [SFlt 0; SFlt 0].
Proof.
  destruct (zero_distance_to_itself example_library example_audio 1 [2] eq_refl)
    as [H0 [H1 Hinf]].
  - repeat constructor.
  - split; [exact H0 |]. split; [exact H1 |]. apply Hinf; [cbn; lia | reflexivity].
Defined.

(** X7: for two batches of the same shape with at least one sample and
    an order other than plus or minus infinity, [norm] never raises and
    returns exactly one float per sample; for an empty batch it raises
    the [ValueError] of the reshape. *)
Theorem norm_one_float_per_sample (lib : library) (x x_adv : ndarray) (ord : scalar)
    (n : nat) (s : list nat) :
  shape x_adv = shape x ->
  scalar_eqb ord (SFlt infinity) = false ->
  scalar_eqb ord (SFlt neg_infinity) = false ->
  (shape x = S n :: s ->
   exists values,
     norm lib x x_adv ord = Ok (map SFlt values) /\ length values = S n)
  /\ (shape x = 0 :: s ->
      norm lib x x_adv ord
      = Raise (ValueError "cannot reshape array of size 0 into shape (0,newaxis)")).
Proof.
  intros Hs Hinf Hninf. unfold norm, float_diff. rewrite Hs, shape_eqb_refl.
  cbn [bind]. split; intros Hx; rewrite Hx; [| reflexivity].
  assert (H : forall vs, exists values,
               mapM (vector_norm lib ord) vs = Ok values
               /\ length values = length vs).
  { induction vs as [|v vs IH]; cbn [mapM].
    - now exists [].
    - destruct IH as [values [E L]]. unfold vector_norm at 1. rewrite Hinf, Hninf.
      destruct (scalar_eqb ord (SInt 0)); [| destruct (scalar_eqb ord (SInt 1));
        [| destruct (scalar_eqb ord (SInt 2))]];
        rewrite E; cbn [bind]; eexists; (split; [reflexivity | cbn; lia]). }
  destruct (H (chunks (size_of s) (S n)
                 (map2 (fun a b => (float_of_scalar a - float_of_scalar b)%float)
                       (data x) (data x_adv)))) as [values [E L]].
  rewrite E. cbn [bind]. exists values. split; [reflexivity |].
  now rewrite L, length_chunks.
Qed.

Lemma norm_one_float_per_sample_witness :
  (exists values,
      norm example_library example_audio example_silence (SInt 1) = Ok (map SFlt values)
      /\ length values = 2)
  /\ norm example_library (mk_ndarray [0; 2] []) (mk_ndarray [0; 2] []) (SInt 1)
     = Raise (ValueError "cannot reshape array of size 0 into shape (0,newaxis)").
Proof.
  split.
  - apply (proj1 (norm_one_float_per_sample example_library example_audio
                    example_silence (SInt 1) 1 [2] eq_refl eq_refl eq_refl)).
    reflexivity.
  - apply (proj2 (norm_one_float_per_sample example_library (mk_ndarray [0; 2] [])
                    (mk_ndarray [0; 2] []) (SInt 1) 0 [2] eq_refl eq_refl eq_refl)).
    reflexivity.
Defined.

(** ** Signal to noise ratio *)

Lemma zero_over_anything (c : float) :
  match Prim2SF (0 / c) with
  | S754_zero _ | S754_nan => True
  | _ => False
  end.
Proof.
  rewrite div_spec. change (Prim2SF 0) with (S754_zero false).
  destruct (Prim2SF c) as [s|s| |s m e]; exact I.
Qed.

Lemma over_zero_or_nan (p z : float) :
  match Prim2SF z with
  | S754_zero _ | S754_nan => True
  | _ => False
  end ->
  finite (p / z) = false.
Proof.
  unfold finite. rewrite div_spec.
  destruct (Prim2SF z) as [sz| | |]; try contradiction; intros _;
    destruct (Prim2SF p) as [s|s| |s m e]; reflexivity.
Qed.

Lemma noise_of_identical (r : list scalar) :
  Forall (fun a => finite (float_of_scalar a) = true) r ->
  all_zero (map2 (fun a b => (a - b) * (a - b))%float
                 (map float_of_scalar r) (map float_of_scalar r)).
Proof.
  induction 1 as [|a r Ha Hr IH]; cbn [map map2]; constructor; [| exact IH].
  now rewrite (sub_self _ Ha).
Qed.

Lemma _snr_identical (k : nat) (r : list scalar) :
  Forall (fun a => finite (float_of_scalar a) = true) r ->
  exists f, _snr (mk_ndarray [k] r) (mk_ndarray [k] r) = Ok f /\ finite f = false.
Proof.
  intros H. unfold _snr. cbn [shape data ndim length Nat.eqb].
  rewrite shape_eqb_refl. cbn [negb]. eexists. split; [reflexivity |].
  apply over_zero_or_nan. unfold np_mean.
  rewrite (add_reduce_zeros _ (noise_of_identical r H)).
  apply zero_over_anything.
Qed.

(** X8: for a batch [x] of at least one rank-1 sample whose entries are
    finite numbers, [snr(x, x)] does not raise: it returns one float per
    sample, each an infinity or NaN, never a finite number. *)
Theorem snr_identical_inputs (x : ndarray) (n k : nat) :
  shape x = [S n; k] ->
  Forall (fun a => finite (float_of_scalar a) = true) (data x) ->
  exists values,
    snr x x = Ok (map SFlt values)
    /\ length values = S n
    /\ Forall (fun f => finite f = false) values.
Proof.
  intros Hs Hfin. unfold snr, len, subarrays, rows. rewrite Hs.
  cbn [bind tl size_of fold_right]. rewrite Nat.eqb_refl, Nat.mul_1_r. cbn [negb].
  assert (H : forall m d,
             Forall (fun a => finite (float_of_scalar a) = true) d ->
             exists values,
               mapM (fun p => _snr (fst p) (snd p))
                    (combine (map (mk_ndarray [k]) (chunks k m d))
                             (map (mk_ndarray [k]) (chunks k m d)))
               = Ok values
               /\ length values = m /\ Forall (fun f => finite f = false) values).
  { induction m as [|m IH]; intros d Hd; cbn [chunks map combine mapM fst snd].
    - exists []. repeat split. constructor.
    - destruct (Forall_firstn_skipn _ k d Hd) as [Hf Hsk].
      destruct (_snr_identical k (firstn k d) Hf) as [f [Ef Ff]].
      destruct (IH (skipn k d) Hsk) as [values [E [L F]]].
      rewrite Ef, E. cbn [bind]. exists (f :: values).
      split; [reflexivity |]. split; [cbn; lia | now constructor]. }
  destruct (H (S n) (data x) Hfin) as [values [E [L F]]].
  rewrite E. cbn [bind]. now exists values.
Qed.

Lemma snr_identical_inputs_witness :
  exists values,
    snr example_audio example_audio = Ok (map SFlt values)
    /\ length values = 2
    /\ Forall (fun f => finite f = false) values.
Proof.
  apply (snr_identical_inputs example_audio 1 2 eq_refl).
  repeat constructor.
Defined.

Example snr_of_example_audio_with_itself :
  snr example_audio example_audio = Ok [SFlt infinity; SFlt nan].
Proof. reflexivity. Qed.

(** ** MetricList and MetricsLogger *)



Lemma results_of_metrics_no_means (full_flag : bool) (prefix : string)
    (metrics : list MetricList) (r : dict pyval) :
  exists r', results_of_metrics full_flag false prefix metrics r = Ok r'
             /\ (full_flag = false -> r' = r).
Proof.
  revert r. induction metrics as [|m metrics IH]; intros r; cbn [results_of_metrics bind].
  - now exists r.
  - destruct (IH (if full_flag
                  then dict_set (prefix ++ "_" ++ name m)%string (VList (values m)) r
                  else r)) as [r' [E Hr]].
    exists r'. split; [exact E |]. intros Hf. rewrite (Hr Hf), Hf. reflexivity.
Qed.

(** X10: with [means] false, [results()] never raises for lack of
    scores: the loop over the metric groups returns a mapping whatever
    the lists hold, and so does [results()] when the ledger is empty;
    with [record_metric_per_sample] false as well the mapping is empty. *)
Theorem results_without_means (lib : library) (lg : MetricsLogger) :
  means lg = false ->
  exists r,
    results_of_groups lg = Ok r
    /\ (computational_resource_dict lg = [] -> results lib lg = Ok r)
    /\ (full lg = false -> r = []).
Proof.
  intros Hm. unfold results, results_of_groups. rewrite Hm.
  destruct (results_of_metrics_no_means (full lg) "benign" (tasks lg) [])
    as [r1 [E1 H1]].
  destruct (results_of_metrics_no_means (full lg) "adversarial" (adversarial_tasks lg) r1)
    as [r2 [E2 H2]].
  destruct (results_of_metrics_no_means (full lg) "perturbation" (perturbations lg) r2)
    as [r3 [E3 H3]].
  rewrite E1. cbn [bind]. rewrite E2. cbn [bind]. rewrite E3.
  exists r3. split; [reflexivity |]. split.
  - intros Hd. rewrite Hd. reflexivity.
  - intros Hf. now rewrite (H3 Hf), (H2 Hf), (H1 Hf).
Qed.

Lemma results_without_means_witness :
  exists lg r,
    MetricsLogger_init example_library (NamesList ["l2"; "snr"]) (NamesStr "linf")
                       false true None None = Ok lg
    /\ results_of_groups lg = Ok r
    /\ results example_library lg = Ok r.
Proof.
  eexists.
  destruct (results_without_means example_library
              (mk_MetricsLogger
                 [mk_MetricList "l2" (binary_metric (l2 example_library)) [];
                  mk_MetricList "snr" (binary_metric snr) []]
                 [mk_MetricList "l2" (binary_metric (l2 example_library)) [];
                  mk_MetricList "snr" (binary_metric snr) []]
                 [mk_MetricList "linf" (binary_metric (linf example_library)) []]
                 false true []) eq_refl) as [r [Hr [Hres _]]].
  exists r. split; [reflexivity |]. split; [exact Hr | exact (Hres eq_refl)].
Defined.

Lemma categorical_accuracy_equal_lengths (y y_pred : list scalar) :
  length y = length y_pred ->
  exists r,
    categorical_accuracy (array_of_list y) (array_of_list y_pred) = Ok r
    /\ length r = length y.
Proof.
  intros Hlen. unfold categorical_accuracy, array_of_list, ndim.
  cbn [shape data length Nat.eqb]. rewrite Hlen, shape_eqb_refl. cbn [ints_of_bools].
  eexists. split; [reflexivity |]. rewrite map_map2, length_map2. lia.
Qed.

Lemma append_categorical_accuracy (vals y y_pred : list scalar) :
  length y = length y_pred ->
  exists scores,
    append (mk_MetricList "categorical_accuracy" (binary_metric categorical_accuracy) vals)
           (array_of_list y) (array_of_list y_pred) None
    = Ok (mk_MetricList "categorical_accuracy" (binary_metric categorical_accuracy)
                        (vals ++ scores))
    /\ length scores = length y.
Proof.
  intros Hlen.
  destruct (categorical_accuracy_equal_lengths y y_pred Hlen) as [r [Hr Hl]].
  exists r. split; [| exact Hl].
  unfold append. cbn [function binary_metric name _values]. now rewrite Hr.
Qed.

(** X11: for a logger built with [task="categorical_accuracy"],
    [means=False] and [record_metric_per_sample=True], after any number
    of benign [update_task] calls on pairs of label lists of equal
    length, [results()] maps ["benign_categorical_accuracy"] to a list
    with one score per sample ever passed, and
    ["adversarial_categorical_accuracy"] to the empty list. *)
Theorem per_sample_results_count (lib : library) (lg : MetricsLogger)
    (batches : list (list scalar * list scalar)) :
  MetricsLogger_init lib (NamesStr "categorical_accuracy") NamesNone
                     false true None None = Ok lg ->
  Forall (fun b => length (fst b) = length (snd b)) batches ->
  exists r scores,
    results lib (fold_left apply_update (map label_update batches) lg) = Ok r
    /\ dict_get "benign_categorical_accuracy" r = Some (VList scores)
    /\ length scores = list_sum (map (fun b => length (fst b)) batches)
    /\ dict_get "adversarial_categorical_accuracy" r = Some (VList []).
Proof.
  intros Hinit Hb. cbn in Hinit. inversion Hinit; subst lg; clear Hinit.
  set (ca := mk_MetricList "categorical_accuracy" (binary_metric categorical_accuracy)).
  assert (H : forall vals,
             exists scores,
               fold_left apply_update (map label_update batches)
                         (mk_MetricsLogger [ca vals] [ca []] [] false true [])
               = mk_MetricsLogger [ca (vals ++ scores)] [ca []] [] false true []
               /\ length scores = list_sum (map (fun b => length (fst b)) batches)).
  { induction Hb as [|[y p] batches Hyp Hb IH]; intros vals; cbn [map fold_left list_sum].
    - exists []. now rewrite app_nil_r.
    - cbn [fst snd] in Hyp.
      destruct (append_categorical_accuracy vals y p Hyp) as [s1 [E1 L1]].
      assert (Hstep : apply_update (mk_MetricsLogger [ca vals] [ca []] [] false true [])
                                   (label_update (y, p))
                      = mk_MetricsLogger [ca (vals ++ s1)] [ca []] [] false true []).
      { unfold apply_update, label_update, update_task, ca.
        cbn [fst snd tasks append_all]. rewrite E1. reflexivity. }
      rewrite Hstep. destruct (IH (vals ++ s1)) as [s2 [E2 L2]].
      exists (s1 ++ s2). rewrite E2, app_assoc. split; [reflexivity |].
      rewrite length_app. unfold list_sum in *. cbn [fst fold_right map] in *. lia. }
  destruct (H []) as [scores [E L]]. rewrite E. cbn [app].
  eexists. exists scores. split; [reflexivity |]. split; [reflexivity |].
  split; [exact L | reflexivity].
Qed.

Lemma per_sample_results_count_witness :
  exists lg r scores,
    MetricsLogger_init example_library (NamesStr "categorical_accuracy") NamesNone
                       false true None None = Ok lg
    /\ results example_library
         (fold_left apply_update
            (map label_update [([SInt 1; SInt 0; SInt 1], [SInt 1; SInt 1; SInt 1]);
                               ([SInt 2], [SInt 2])]) lg) = Ok r
    /\ dict_get "benign_categorical_accuracy" r = Some (VList scores)
    /\ length scores = 4.
Proof.
  eexists.
  destruct (per_sample_results_count example_library _
              [([SInt 1; SInt 0; SInt 1], [SInt 1; SInt 1; SInt 1]); ([SInt 2], [SInt 2])]
              eq_refl) as [r [scores [Hr [Hk [Hl _]]]]].
  - repeat constructor.
  - exists r, scores. split; [reflexivity |]. split; [exact Hr |]. split; assumption.
Defined.

Lemma append_all_clear (ms : list MetricList) (x y : ndarray) :
  map clear (fst (append_all ms x y)) = map clear ms.
Proof.
  induction ms as [|m ms IH]; cbn [append_all]; [reflexivity |].
  unfold append. destruct (function m x y None) as [v|e]; cbn [bind].
  - destruct (append_all ms x y) as [r e']. cbn [fst map] in *.
    now rewrite IH.
  - reflexivity.
Qed.

Lemma clear_apply_update (lg : MetricsLogger) (u : logger_update) :
  MetricsLogger_clear (apply_update lg u) = MetricsLogger_clear lg.
Proof.
  destruct u as [y p [|]|x xa]; unfold apply_update, update_task, update_perturbation.
  - pose proof (append_all_clear (adversarial_tasks lg) y p) as H.
    destruct (append_all (adversarial_tasks lg) y p) as [a e]. cbn [fst] in *.
    unfold MetricsLogger_clear. cbn. now rewrite H.
  - pose proof (append_all_clear (tasks lg) y p) as H.
    destruct (append_all (tasks lg) y p) as [a e]. cbn [fst] in *.
    unfold MetricsLogger_clear. cbn. now rewrite H.
  - pose proof (append_all_clear (perturbations lg) x xa) as H.
    destruct (append_all (perturbations lg) x xa) as [a e]. cbn [fst] in *.
    unfold MetricsLogger_clear. cbn. now rewrite H.
Qed.

Lemma generated_counters_clear (lib : library) (names : names_arg) (t : list MetricList) :
  _generate_counters lib names = Ok t -> map clear t = t.
Proof.
  assert (H : forall l t, mapM (fun x => MetricList_init lib x FunctionNone) l = Ok t ->
                          map clear t = t).
  { induction l as [|nm l IH]; intros t' Ht; cbn [mapM] in Ht.
    - inversion Ht. reflexivity.
    - destruct (MetricList_init lib nm FunctionNone) as [m|] eqn:Em; [| discriminate].
      cbn [bind] in Ht. destruct (mapM _ l) as [ms|]; [| discriminate].
      cbn [bind] in Ht. inversion Ht; subst t'. cbn [map]. rewrite (IH ms eq_refl).
      f_equal. destruct (MetricList_init_values lib nm FunctionNone m Em) as [Hv _].
      destruct m as [n f v]. cbn in Hv. subst v. reflexivity. }
  destruct names; cbn [_generate_counters].
  - intros Ht. inversion Ht. reflexivity.
  - apply H.
  - apply H.
  - discriminate.
Qed.

(** X12: [clear()] brings a logger back to the state the constructor
    built, whatever [update_task] and [update_perturbation] calls were
    made on it in between and whether they returned or raised. *)
Theorem clear_restores_initial (lib : library) (task perturbation : names_arg)
    (means_arg record_metric_per_sample : bool) (profiler_type : option string)
    (d : option ledger) (lg : MetricsLogger) (updates : list logger_update) :
  MetricsLogger_init lib task perturbation means_arg record_metric_per_sample
                     profiler_type d = Ok lg ->
  MetricsLogger_clear (fold_left apply_update updates lg) = lg.
Proof.
  intros Hinit.
  assert (Hfold : forall us l,
             MetricsLogger_clear (fold_left apply_update us l) = MetricsLogger_clear l).
  { induction us as [|u us IH]; intros l; cbn [fold_left]; [reflexivity |].
    now rewrite IH, clear_apply_update. }
  rewrite Hfold. unfold MetricsLogger_init in Hinit.
  destruct (_generate_counters lib task) as [t|] eqn:Et; [| discriminate].
  destruct (_generate_counters lib perturbation) as [p|] eqn:Ep; [| discriminate].
  cbn [bind] in Hinit. inversion Hinit; subst lg.
  unfold MetricsLogger_clear. cbn.
  now rewrite (generated_counters_clear lib task t Et),
    (generated_counters_clear lib perturbation p Ep).
Qed.

Lemma clear_restores_initial_witness :
  exists lg,
    MetricsLogger_init example_library (NamesStr "categorical_accuracy") (NamesStr "l2")
                       true true None None = Ok lg
    /\ MetricsLogger_clear
         (fold_left apply_update
            [UpdateTask example_labels example_predictions false;
             UpdatePerturbation example_audio example_silence;
             UpdateTask example_labels example_audio true] lg) = lg.
Proof.
  eexists. split; [reflexivity |].
  apply (clear_restores_initial example_library (NamesStr "categorical_accuracy")
           (NamesStr "l2") true true None None _ _ eq_refl).
Defined.

Lemma dict_get_in_keys {V : Type} (k : string) (d : dict V) :
  In k (keys d) -> exists v, dict_get k d = Some v.
Proof.
  induction d as [|[k' v'] d IH]; cbn; [contradiction |].
  intros [E|H].
  - subst. rewrite String.eqb_refl. now exists v'.
  - destruct (String.eqb k k'); [now exists v' | now apply IH].
Qed.

Lemma dict_get_not_in_keys {V : Type} (k : string) (d : dict V) :
  ~ In k (keys d) -> dict_get k d = None.
Proof.
  induction d as [|[k' v'] d IH]; cbn; [reflexivity |].
  intros H. destruct (String.eqb_spec k k') as [E|E].
  - exfalso. apply H. now left.
  - apply IH. intros Hin. apply H. now right.
Qed.

(** X13: constructing a logger with a list of task names raises
    [KeyError] for the first name that is not a key of
    [SUPPORTED_METRICS], the names before it being keys; the message
    names it. *)
Theorem unknown_metric_name (lib : library) (known rest : list string) (nm : string)
    (perturbation : names_arg) (means_arg record_metric_per_sample : bool)
    (profiler_type : option string) (d : option ledger) :
  Forall (fun k => In k (keys (SUPPORTED_METRICS lib))) known ->
  ~ In nm (keys (SUPPORTED_METRICS lib)) ->
  MetricsLogger_init lib (NamesList (known ++ nm :: rest)) perturbation means_arg
                     record_metric_per_sample profiler_type d
  = Raise (KeyError (nm ++ " is not part of armory.utils.metrics")%string).
Proof.
  intros Hknown Hnm. unfold MetricsLogger_init, _generate_counters.
  assert (H : mapM (fun x => MetricList_init lib x FunctionNone) (known ++ nm :: rest)
              = Raise (KeyError (nm ++ " is not part of armory.utils.metrics")%string)).
  { induction Hknown as [|k known Hk Hknown IH]; cbn [app mapM].
    - unfold MetricList_init at 1. now rewrite (dict_get_not_in_keys nm _ Hnm).
    - unfold MetricList_init at 1.
      destruct (dict_get_in_keys k _ Hk) as [f Hf]. rewrite Hf. cbn [bind].
      now rewrite IH. }
  now rewrite H.
Qed.

Lemma unknown_metric_name_witness :
  MetricsLogger_init example_library
                     (NamesList ["categorical_accuracy"; "l2"; "accuracy"; "l1"])
                     NamesNone true false None None
  = Raise (KeyError "accuracy is not part of armory.utils.metrics").
Proof.
  apply (unknown_metric_name example_library ["categorical_accuracy"; "l2"] ["l1"]
           "accuracy" NamesNone true false None None).
  - repeat constructor; cbn; tauto.
  - cbn. intros H. repeat (destruct H as [H|H]; [discriminate H |]). exact H.
Defined.

(** ** The scoped resource profiler, continued *)

Lemma dict_set_twice {V : Type} (k : string) (v v0 : V) (d : dict V) :
  dict_set k v (dict_set k v0 d) = dict_set k v d.
Proof.
  induction d as [|[k' v'] d IH]; cbn.
  - now rewrite String.eqb_refl.
  - destruct (String.eqb k k') eqn:E; cbn; rewrite E; [reflexivity | now rewrite IH].
Qed.

Lemma dict_get_In {V : Type} (k : string) (v : V) (d : dict V) :
  dict_get k d = Some v -> In (k, v) d.
Proof.
  induction d as [|[k' v'] d IH]; cbn; [discriminate |].
  destruct (String.eqb_spec k k') as [E|E].
  - intros H. inversion H; subst. now left.
  - intros H. right. now apply IH.
Qed.

Lemma Forall_dict_set {V : Type} (P : V -> Prop) (k : string) (v : V) (d : dict V) :
  Forall (fun kv => P (snd kv)) d -> P v -> Forall (fun kv => P (snd kv)) (dict_set k v d).
Proof.
  intros Hd Hv. induction Hd as [|[k' v'] d Hk Hd IH]; cbn.
  - now repeat constructor.
  - destruct (String.eqb k k'); constructor; assumption.
Qed.

(** What [record_usage] returns is the ledger with the entry of the
    region's name replaced or added. *)
Lemma record_usage_shape (nm : string) (deterministic : bool) (elapsed : float)
    (stats : string) (d : ledger) :
  exists comp, fst (record_usage nm deterministic elapsed stats d) = dict_set nm comp d.
Proof.
  unfold record_usage.
  set (d0 := if dict_mem nm d then d
             else dict_set nm (if deterministic then [("stats", VStr "")] else []) d).
  assert (H0 : forall comp, dict_set nm comp d0 = dict_set nm comp d).
  { intros comp. subst d0. destruct (dict_mem nm d); [reflexivity | apply dict_set_twice]. }
  destruct (entry_iadd "execution_count" _ _) as [comp1 [e1|]];
    [eexists; cbn [fst]; apply H0 |].
  destruct (entry_iadd "total_time" _ comp1) as [comp2 [e2|]];
    [eexists; cbn [fst]; apply H0 |].
  destruct deterministic; [| eexists; cbn [fst]; apply H0].
  destruct (entry_iadd "stats" _ comp2) as [comp3 e3]. eexists; cbn [fst]; apply H0.
Qed.

Lemma record_usage_frame (nm nm' : string) (deterministic : bool) (elapsed : float)
    (stats : string) (d : ledger) :
  nm' <> nm ->
  dict_get nm' (fst (record_usage nm deterministic elapsed stats d)) = dict_get nm' d.
Proof.
  intros H. destruct (record_usage_shape nm deterministic elapsed stats d) as [comp E].
  rewrite E. now apply dict_get_set_other.
Qed.

Lemma profiler_known (p : string) :
  In p profiler_types -> existsb (String.eqb p) profiler_types = true.
Proof.
  intros H. apply existsb_exists. exists p. split; [exact H | apply String.eqb_refl].
Qed.

Lemma profiler_unknown (p : string) :
  ~ In p profiler_types -> existsb (String.eqb p) profiler_types = false.
Proof.
  intros H. destruct (existsb (String.eqb p) profiler_types) eqn:E; [| reflexivity].
  apply existsb_exists in E. destruct E as [q [Hq E]]. apply String.eqb_eq in E.
  subst. contradiction.
Qed.

(** X14: a region touches no ledger entry but its own: with a profiler
    mode that is not one of the two known ones it raises [ValueError]
    without running the body and leaves the world as it was; with a
    known mode, the entries of all other names, the clock and the
    profile text are, after the region, what the body left. *)
Theorem region_frame {A : Type} (nm p : string) (dict_given : bool) (body : region A)
    (w : world) :
  (~ In p profiler_types ->
   resource_context nm (Some p) dict_given body w
   = (Raise (ValueError "Profiler is not one of ['Basic', 'Deterministic']."), w))
  /\ (In p profiler_types ->
      let after := snd (resource_context nm (Some p) dict_given body w) in
      perf_counter after = perf_counter (snd (body w))
      /\ profile_stats after = profile_stats (snd (body w))
      /\ forall nm', nm' <> nm ->
           dict_get nm' (resource_ledger after)
           = dict_get nm' (resource_ledger (snd (body w)))).
Proof.
  split.
  - intros Hp. unfold resource_context. now rewrite (profiler_unknown p Hp).
  - intros Hp. unfold resource_context. rewrite (profiler_known p Hp). cbn [negb].
    destruct (body w) as [[a|e] w1]; cbn [snd]; [| now repeat split].
    destruct dict_given; cbn [negb snd]; [| now repeat split].
    pose proof (record_usage_frame nm) as Hf.
    destruct (record_usage nm (String.eqb p "Deterministic")
                (perf_counter w1 - perf_counter w)%float (profile_stats w1)
                (resource_ledger w1)) as [d err] eqn:E.
    assert (Hd : forall nm', nm' <> nm -> dict_get nm' d = dict_get nm' (resource_ledger w1)).
    { intros nm' Hn. specialize (Hf nm' (String.eqb p "Deterministic")
                                  (perf_counter w1 - perf_counter w)%float
                                  (profile_stats w1) (resource_ledger w1) Hn).
      now rewrite E in Hf. }
    destruct err; cbn [snd perf_counter profile_stats resource_ledger];
      repeat split; exact Hd.
Qed.

Lemma region_frame_witness :
  resource_context "fit" (Some "Sampling") true returning_body example_world
  = (Raise (ValueError "Profiler is not one of ['Basic', 'Deterministic']."),
     example_world)
  /\ dict_get "fit"
       (resource_ledger
          (snd (resource_context "predict" (Some "Basic") true returning_body
                  (mk_world 10 example_ledger ""))))
     = dict_get "fit" example_ledger.
Proof.
  split.
  - apply (proj1 (region_frame "fit" "Sampling" true returning_body example_world)).
    intros [H|[H|[]]]; discriminate H.
  - apply (proj2 (region_frame "predict" "Basic" true returning_body
                    (mk_world 10 example_ledger "")) (or_introl eq_refl)).
    discriminate.
Defined.

Lemma timed_entry_lookup (nm : string) (e : entry) (d : ledger) :
  timed_ledger d -> dict_get nm d = Some e -> timed_entry e.
Proof.
  intros Hd He. apply dict_get_In in He.
  exact (proj1 (Forall_forall _ d) Hd (nm, e) He).
Qed.

(** X15: regions keep the ledger well formed: if every entry of the
    ledger the body leaves holds a positive integer [execution_count]
    and a numeric [total_time], so does every entry after a region with
    a known profiler mode, whether the body returned or raised. *)
Theorem region_keeps_ledger_timed {A : Type} (nm p : string) (body : region A)
    (w : world) :
  In p profiler_types ->
  timed_ledger (resource_ledger (snd (body w))) ->
  timed_ledger (resource_ledger (snd (resource_context nm (Some p) true body w))).
Proof.
  intros Hp Ht. unfold resource_context. rewrite (profiler_known p Hp). cbn [negb].
  destruct (body w) as [[a|e] w1]; cbn [snd] in *; [| exact Ht].
  set (det := String.eqb p "Deterministic").
  set (el := (perf_counter w1 - perf_counter w)%float).
  assert (Hold : exists c t,
             entry_get "execution_count"
               (match dict_get nm (resource_ledger w1) with Some e => e | None => [] end)
             = VNum (SInt c)
             /\ (0 <= c)%Z
             /\ entry_get "total_time"
                  (match dict_get nm (resource_ledger w1) with Some e => e | None => [] end)
                = VNum t).
  { destruct (dict_get nm (resource_ledger w1)) as [e|] eqn:Ee.
    - destruct (timed_entry_lookup nm e _ Ht Ee) as [c [t [Hc [Hpos Ht']]]].
      exists c, t. unfold entry_get. rewrite Hc, Ht'. repeat split. lia.
    - exists 0%Z, (SInt 0). repeat split. lia. }
  destruct Hold as [c [t [Hc [Hpos Ht']]]].
  destruct (record_usage_fields nm det el (profile_stats w1) (resource_ledger w1)
              (SInt c) t Hc Ht') as [e [He [Hce Hte]]].
  destruct (record_usage_shape nm det el (profile_stats w1) (resource_ledger w1))
    as [comp Hshape].
  rewrite Hshape, dict_get_set_same in He. inversion He; subst comp.
  assert (Hfinal : timed_ledger (fst (record_usage nm det el (profile_stats w1)
                                        (resource_ledger w1)))).
  { rewrite Hshape. apply Forall_dict_set; [exact Ht |].
    exists (c + 1)%Z, (scalar_add t (SFlt el)). repeat split; [exact Hce | lia | exact Hte]. }
  destruct (record_usage nm det el (profile_stats w1) (resource_ledger w1)) as [d err].
  destruct err; exact Hfinal.
Qed.

Lemma region_keeps_ledger_timed_witness :
  timed_ledger
    (resource_ledger
       (snd (resource_context "fit" (Some "Deterministic") true returning_body
               (mk_world 10 example_ledger "")))).
Proof.
  apply (region_keeps_ledger_timed "fit" "Deterministic" returning_body
           (mk_world 10 example_ledger "")).
  - right. now left.
  - repeat constructor. exists 3%Z, (SFlt 1.5). repeat split. lia.
Defined.



Example results_of_example_ledger :
  results_of_ledger example_library example_ledger []
  = Ok [("Avg. CPU time (s) for 3 executions of fit", VNum (SFlt 0.5))].
Proof. reflexivity. Qed.

(** X17: a ["Deterministic"] region whose name already has an entry
    without profiler text, as a ["Basic"] region leaves it, raises
    [TypeError] when its body returns: the count and the time are
    updated first, then the text cannot be added to the default 0, which
    stays in the entry under ["stats"]. *)
Theorem deterministic_after_basic {A : Type} (nm : string) (body : region A)
    (w w1 : world) (a : A) (e : entry) (c t : scalar) :
  body w = (Ok a, w1) ->
  dict_get nm (resource_ledger w1) = Some e ->
  entry_get "execution_count" e = VNum c ->
  entry_get "total_time" e = VNum t ->
  dict_get "stats" e = None ->
  exists e',
    resource_context nm (Some "Deterministic") true body w
    = (Raise (TypeError "unsupported operand type(s) for +"),
       mk_world (perf_counter w1) (dict_set nm e' (resource_ledger w1))
                (profile_stats w1))
    /\ dict_get "execution_count" e' = Some (VNum (scalar_add c (SInt 1)))
    /\ dict_get "total_time" e'
       = Some (VNum (scalar_add t (SFlt (perf_counter w1 - perf_counter w)%float)))
    /\ dict_get "stats" e' = Some (VNum (SInt 0)).
Proof.
  intros Hb He Hc Ht Hs. unfold resource_context. cbn [existsb profiler_types].
  replace (String.eqb "Deterministic" "Basic" || (String.eqb "Deterministic" "Deterministic" || false))
    with true by reflexivity.
  rewrite Hb. cbn [negb]. replace (String.eqb "Deterministic" "Deterministic") with true
    by reflexivity.
  unfold record_usage, dict_mem. rewrite He. cbv beta iota zeta. rewrite He.
  destruct (entry_iadd_num "execution_count" c (SInt 1) e Hc) as [E1 G1].
  pose proof (entry_iadd_frame "execution_count" "total_time" (VNum (SInt 1)) e
                ltac:(discriminate)) as F1t.
  pose proof (entry_iadd_frame "execution_count" "stats" (VNum (SInt 1)) e
                ltac:(discriminate)) as F1s.
  destruct (entry_iadd "execution_count" (VNum (SInt 1)) e) as [comp1 e1].
  cbn [fst snd] in *. subst e1. cbv beta iota zeta.
  set (el := (perf_counter w1 - perf_counter w)%float) in *.
  assert (Ht1 : entry_get "total_time" comp1 = VNum t)
    by (unfold entry_get in *; now rewrite F1t).
  destruct (entry_iadd_num "total_time" t (SFlt el) comp1 Ht1) as [E2 G2].
  pose proof (entry_iadd_frame "total_time" "execution_count" (VNum (SFlt el)) comp1
                ltac:(discriminate)) as F2c.
  pose proof (entry_iadd_frame "total_time" "stats" (VNum (SFlt el)) comp1
                ltac:(discriminate)) as F2s.
  destruct (entry_iadd "total_time" (VNum (SFlt el)) comp1) as [comp2 e2].
  cbn [fst snd] in *. subst e2. cbv beta iota zeta.
  assert (Hs2 : dict_get "stats" comp2 = None) by congruence.
  unfold entry_iadd, dict_mem. rewrite Hs2, dict_get_set_same. cbn [py_add].
  cbv beta iota zeta.
  eexists. split; [reflexivity |].
  rewrite !dict_get_set_other by discriminate. rewrite dict_get_set_same.
  repeat split; congruence.
Qed.

Lemma deterministic_after_basic_witness :
  fst (resource_context "fit" (Some "Deterministic") true returning_body
         (mk_world 10 example_ledger ""))
  = Raise (TypeError "unsupported operand type(s) for +").
Proof.
  destruct (deterministic_after_basic "fit" returning_body
              (mk_world 10 example_ledger "") (mk_world 12 example_ledger "") tt
              [("execution_count", VNum (SInt 3)); ("total_time", VNum (SFlt 1.5))]
              (SInt 3) (SFlt 1.5) eq_refl eq_refl eq_refl eq_refl eq_refl)
    as [e' [H _]].
  now rewrite H.
Defined.

(** ** The poisoning scenario, continued *)

Lemma mapM_raise {A B : Type} (f : A -> result B) (l : list A) (e : exn) :
  (forall a, In a l -> (exists b, f a = Ok b) \/ f a = Raise e) ->
  (exists a, In a l /\ f a = Raise e) ->
  mapM f l = Raise e.
Proof.
  induction l as [|a l IH]; intros Hall [x [Hx Hfx]]; [destruct Hx |].
  cbn [mapM]. destruct (Hall a (or_introl eq_refl)) as [[b Hb]|Hb].
  - rewrite Hb. cbn [bind]. rewrite IH; [reflexivity | |].
    + intros a' Ha'. apply Hall. now right.
    + destruct Hx as [<-|Hx]; [congruence |]. now exists x.
  - now rewrite Hb.
Qed.

Lemma where_from_complete (i : nat) (y : list nat) (c j : nat) :
  nth_error y j = Some c -> In (i + j) (where_from i y c).
Proof.
  revert i j. induction y as [|l y IH]; intros i [|j] H; cbn in H; try discriminate.
  - inversion H; subst l. cbn. rewrite Nat.eqb_refl. left. lia.
  - cbn. specialize (IH (S i) j H). replace (i + S j) with (S i + j) by lia.
    destruct (l =? c); [right |]; exact IH.
Qed.

Section PoisoningProperties.

Variables image channels : Type.
Variable transpose_201 : image -> channels.
Variable transpose_120 : channels -> image.
Variable attack : Type.
Variable poison : attack -> channels -> list nat -> channels * list nat.

Lemma poison_sample_Ok (src_imgs : list image) (src_lbls : list nat) (src tgt : nat)
    (atk : attack) (poisoned_indices : list nat) (i : nat) (img : image) (lbl : nat) :
  nth_error src_imgs i = Some img ->
  nth_error src_lbls i = Some lbl ->
  poison_sample image channels transpose_201 transpose_120 attack poison
      src_imgs src_lbls src tgt atk poisoned_indices i
  = Ok (if (lbl =? src) && existsb (Nat.eqb i) poisoned_indices
        then (transpose_120 (fst (poison atk (transpose_201 img) [tgt])),
              LabelArr (snd (poison atk (transpose_201 img) [tgt])))
        else (img, LabelInt lbl)).
Proof.
  intros Hi Hl. unfold poison_sample.
  rewrite (index_nth_error _ _ _ Hl), (index_nth_error _ _ _ Hi). cbn [bind].
  destruct ((lbl =? src) && existsb (Nat.eqb i) poisoned_indices); [| reflexivity].
  now destruct (poison atk (transpose_201 img) [tgt]).
Qed.

Lemma poison_sample_raises (src_imgs : list image) (src_lbls : list nat) (src tgt : nat)
    (atk : attack) (poisoned_indices : list nat) (i : nat) :
  (exists r, poison_sample image channels transpose_201 transpose_120 attack poison
      src_imgs src_lbls src tgt atk poisoned_indices i = Ok r)
  \/ poison_sample image channels transpose_201 transpose_120 attack poison
      src_imgs src_lbls src tgt atk poisoned_indices i
     = Raise (IndexError "index out of bounds").
Proof.
  destruct (nth_error src_lbls i) as [lbl|] eqn:Hl.
  - destruct (nth_error src_imgs i) as [img|] eqn:Hi.
    + left. eexists. exact (poison_sample_Ok _ _ _ _ _ _ _ _ _ Hi Hl).
    + right. unfold poison_sample, index. rewrite Hl, Hi. cbn [bind].
      now destruct ((lbl =? src) && existsb (Nat.eqb i) poisoned_indices).
  - right. unfold poison_sample, index. now rewrite Hl.
Qed.

Lemma poison_dataset_nth (src_imgs : list image) (src_lbls : list nat) (src tgt : nat)
    (ds_size : nat) (atk : attack) (poisoned_indices : list nat) :
  ds_size <= length src_imgs ->
  ds_size <= length src_lbls ->
  exists poison_x poison_y,
    poison_dataset image channels transpose_201 transpose_120 attack poison
      src_imgs src_lbls src tgt ds_size atk poisoned_indices
    = Ok (poison_x, poison_y)
    /\ length poison_x = ds_size
    /\ length poison_y = ds_size
    /\ forall i img lbl,
         i < ds_size ->
         nth_error src_imgs i = Some img ->
         nth_error src_lbls i = Some lbl ->
         nth_error poison_x i
         = Some (if (lbl =? src) && existsb (Nat.eqb i) poisoned_indices
                 then transpose_120 (fst (poison atk (transpose_201 img) [tgt]))
                 else img)
         /\ nth_error poison_y i
            = Some (if (lbl =? src) && existsb (Nat.eqb i) poisoned_indices
                    then LabelArr (snd (poison atk (transpose_201 img) [tgt]))
                    else LabelInt lbl).
Proof.
  intros Hx Hy. unfold poison_dataset.
  set (f := poison_sample image channels transpose_201 transpose_120 attack poison
      src_imgs src_lbls src tgt atk poisoned_indices).
  destruct (mapM_total f (seq 0 ds_size)) as [samples Hs].
  { intros i Hi. apply in_seq in Hi.
    destruct (nth_error src_lbls i) as [lbl|] eqn:Hl;
      [| apply nth_error_None in Hl; lia].
    destruct (nth_error src_imgs i) as [img|] eqn:Him;
      [| apply nth_error_None in Him; lia].
    eexists. exact (poison_sample_Ok _ _ _ _ _ _ _ _ _ Him Hl). }
  rewrite Hs. cbn [bind]. destruct (mapM_nth _ _ _ Hs) as [Hlen Hnth].
  rewrite length_seq in Hlen.
  exists (map fst samples), (map snd samples).
  split; [reflexivity |]. rewrite !length_map.
  split; [exact Hlen |]. split; [exact Hlen |].
  intros i img lbl Hi Him Hl.
  destruct (Hnth i i) as [b [Hb Hfb]].
  { rewrite nth_error_nth' with (d := 0) by (rewrite length_seq; exact Hi).
    now rewrite seq_nth. }
  subst f. rewrite (poison_sample_Ok _ _ _ _ _ _ _ _ _ Him Hl) in Hfb.
  inversion Hfb as [Hb']. rewrite !nth_error_map, Hb. cbn [option_map].
  destruct ((lbl =? src) && existsb (Nat.eqb i) poisoned_indices); subst b;
    split; reflexivity.
Qed.

(** X18: whatever the attack and the listed indices, [poison_dataset]
    with [ds_size] at most the number of inputs and of labels returns
    exactly the first [ds_size] samples; a sample is replaced by its
    poisoned input and the label array of the attack only if its label
    is [src] and its index is listed, and keeps its input and label in
    every other case, also when its index is listed but its label is not
    [src]. *)
Theorem poison_dataset_first_samples (src_imgs : list image) (src_lbls : list nat)
    (src tgt ds_size : nat) (atk : attack) (poisoned_indices : list nat) :
  ds_size <= length src_imgs ->
  ds_size <= length src_lbls ->
  exists poison_x poison_y,
    poison_dataset image channels transpose_201 transpose_120 attack poison
      src_imgs src_lbls src tgt ds_size atk poisoned_indices
    = Ok (poison_x, poison_y)
    /\ length poison_x = ds_size
    /\ length poison_y = ds_size
    /\ forall i img lbl,
         i < ds_size ->
         nth_error src_imgs i = Some img ->
         nth_error src_lbls i = Some lbl ->
         (lbl = src /\ In i poisoned_indices ->
          nth_error poison_x i
          = Some (transpose_120 (fst (poison atk (transpose_201 img) [tgt])))
          /\ nth_error poison_y i
             = Some (LabelArr (snd (poison atk (transpose_201 img) [tgt]))))
         /\ (lbl <> src \/ ~ In i poisoned_indices ->
             nth_error poison_x i = Some img
             /\ nth_error poison_y i = Some (LabelInt lbl)).
Proof.
  intros Hx Hy.
  destruct (poison_dataset_nth src_imgs src_lbls src tgt ds_size atk poisoned_indices
              Hx Hy) as [px [py [H [Lx [Ly Hn]]]]].
  exists px, py. split; [exact H |]. split; [exact Lx |]. split; [exact Ly |].
  intros i img lbl Hi Him Hl. destruct (Hn i img lbl Hi Him Hl) as [A B]. split.
  - intros [-> Hin]. apply existsb_eqb_In in Hin.
    rewrite Nat.eqb_refl, Hin in A, B. split; assumption.
  - intros Hno.
    assert (E : (lbl =? src) && existsb (Nat.eqb i) poisoned_indices = false).
    { destruct Hno as [Hne|Hni].
      - apply Nat.eqb_neq in Hne. now rewrite Hne.
      - destruct (existsb (Nat.eqb i) poisoned_indices) eqn:E.
        + apply existsb_eqb_In in E. contradiction.
        + apply andb_false_r. }
    rewrite E in A, B. split; assumption.
Qed.

(** X19: a [ds_size] beyond the number of labels or of inputs makes
    [poison_dataset] raise [IndexError]; nothing is returned for the
    samples before the missing one. *)
Theorem poison_dataset_index_error (src_imgs : list image) (src_lbls : list nat)
    (src tgt ds_size : nat) (atk : attack) (poisoned_indices : list nat) :
  length src_lbls < ds_size \/ length src_imgs < ds_size ->
  poison_dataset image channels transpose_201 transpose_120 attack poison
      src_imgs src_lbls src tgt ds_size atk poisoned_indices
  = Raise (IndexError "index out of bounds").
Proof.
  intros Hsize. unfold poison_dataset.
  rewrite (mapM_raise _ _ (IndexError "index out of bounds")); [reflexivity | |].
  - intros i _. apply poison_sample_raises.
  - set (m := Nat.min (length src_lbls) (length src_imgs)).
    exists m. split; [apply in_seq; lia |].
    unfold poison_sample, index.
    destruct (nth_error src_lbls m) as [lbl|] eqn:Hl; [| reflexivity].
    cbn [bind].
    assert (Hi : nth_error src_imgs m = None).
    { apply nth_error_None.
      assert (m < length src_lbls) by (apply nth_error_Some; congruence). lia. }
    rewrite Hi. now destruct ((lbl =? src) && existsb (Nat.eqb m) poisoned_indices).
Qed.

(** X20: the poisoning of a test batch, with the indices
    [np.where(y_test == src_class)[0]] and the size [len(y_test)],
    poisons every sample of the source class and no other sample. *)
Theorem test_batch_poisons_source_class (x_test : list image) (y_test : list nat)
    (src tgt : nat) (atk : attack) :
  length x_test = length y_test ->
  exists poison_x poison_y,
    poison_dataset image channels transpose_201 transpose_120 attack poison
      x_test y_test src tgt (length y_test) atk (where_eq y_test src)
    = Ok (poison_x, poison_y)
    /\ length poison_x = length y_test
    /\ forall i img lbl,
         nth_error x_test i = Some img ->
         nth_error y_test i = Some lbl ->
         nth_error poison_x i
         = Some (if lbl =? src
                 then transpose_120 (fst (poison atk (transpose_201 img) [tgt]))
                 else img).
Proof.
  intros Hlen.
  destruct (poison_dataset_nth x_test y_test src tgt (length y_test) atk
              (where_eq y_test src)) as [px [py [H [Lx [_ Hn]]]]]; [lia | lia |].
  exists px, py. split; [exact H |]. split; [exact Lx |].
  intros i img lbl Him Hl.
  assert (Hi : i < length y_test) by (apply nth_error_Some; congruence).
  destruct (Hn i img lbl Hi Him Hl) as [A _]. rewrite A.
  destruct (Nat.eqb_spec lbl src) as [->|Hne]; [| reflexivity].
  assert (E : existsb (Nat.eqb i) (where_eq y_test src) = true).
  { apply existsb_eqb_In. exact (where_from_complete 0 y_test src i Hl). }
  now rewrite E.
Qed.

(** With no index listed, the data come back unchanged. *)
Lemma poison_dataset_nothing_listed (x : list image) (y : list nat) (src tgt : nat)
    (atk : attack) :
  length x = length y ->
  poison_dataset image channels transpose_201 transpose_120 attack poison
      x y src tgt (length y) atk [] = Ok (x, map LabelInt y).
Proof.
  intros Hlen.
  destruct (poison_dataset_nth x y src tgt (length y) atk [])
    as [px [py [H [Lx [Ly Hn]]]]]; [lia | lia |].
  rewrite H. f_equal. f_equal.
  - apply nth_error_ext. intros i.
    destruct (nth_error x i) as [img|] eqn:Hi.
    + assert (Hi' : i < length y) by (rewrite <- Hlen; apply nth_error_Some; congruence).
      destruct (nth_error y i) as [lbl|] eqn:Hl; [| apply nth_error_None in Hl; lia].
      destruct (Hn i img lbl Hi' Hi Hl) as [A _]. rewrite A. cbn [existsb].
      now rewrite andb_false_r.
    + apply nth_error_None. apply nth_error_None in Hi. lia.
  - apply nth_error_ext. intros i. rewrite nth_error_map.
    destruct (nth_error y i) as [lbl|] eqn:Hl; cbn [option_map].
    + assert (Hi' : i < length y) by (apply nth_error_Some; congruence).
      destruct (nth_error x i) as [img|] eqn:Hi; [| apply nth_error_None in Hi; lia].
      destruct (Hn i img lbl Hi' Hi Hl) as [_ B]. rewrite B. cbn [existsb].
      now rewrite andb_false_r.
    + apply nth_error_None. apply nth_error_None in Hl. lia.
Qed.

End PoisoningProperties.

Lemma poison_dataset_first_samples_witness :
  exists poison_x poison_y,
    poison_dataset nat nat (fun x => x) (fun x => x) unit (fun _ x y => (x + 100, y))
                   [7; 8; 9; 6] [3; 1; 3; 3] 3 5 3 tt [1; 2; 3]
    = Ok (poison_x, poison_y)
    /\ length poison_x = 3
    /\ (nth_error poison_x 1 = Some 8 /\ nth_error poison_y 1 = Some (LabelInt 1))
    /\ (nth_error poison_x 2 = Some 109 /\ nth_error poison_y 2 = Some (LabelArr [5])).
Proof.
  destruct (poison_dataset_first_samples nat nat (fun x => x) (fun x => x) unit
              (fun _ x y => (x + 100, y)) [7; 8; 9; 6] [3; 1; 3; 3] 3 5 3 tt [1; 2; 3])
    as [poison_x [poison_y [H [Hx [_ Hs]]]]]; [cbn; lia | cbn; lia |].
  exists poison_x, poison_y.
  split; [exact H |]. split; [exact Hx |]. split.
  - apply (proj2 (Hs 1 8 1 ltac:(lia) eq_refl eq_refl)). left. discriminate.
  - apply (proj1 (Hs 2 9 3 ltac:(lia) eq_refl eq_refl)). split; [reflexivity |].
    right. now left.
Defined.

Lemma poison_dataset_index_error_witness :
  poison_dataset nat nat (fun x => x) (fun x => x) unit (fun _ x y => (x + 100, y))
                 [7; 8; 9] [3; 1; 3] 3 5 4 tt [2]
  = Raise (IndexError "index out of bounds").
Proof.
  apply (poison_dataset_index_error nat nat (fun x => x) (fun x => x) unit
           (fun _ x y => (x + 100, y)) [7; 8; 9] [3; 1; 3] 3 5 4 tt [2]).
  left. cbn. lia.
Defined.

Lemma test_batch_poisons_source_class_witness :
  exists poison_x poison_y,
    poison_dataset nat nat (fun x => x) (fun x => x) unit (fun _ x y => (x + 100, y))
                   [7; 8; 9] [3; 1; 3] 3 5 3 tt (where_eq [3; 1; 3] 3)
    = Ok (poison_x, poison_y)
    /\ nth_error poison_x 0 = Some 107
    /\ nth_error poison_x 1 = Some 8
    /\ nth_error poison_x 2 = Some 109.
Proof.
  destruct (test_batch_poisons_source_class nat nat (fun x => x) (fun x => x) unit
              (fun _ x y => (x + 100, y)) [7; 8; 9] [3; 1; 3] 3 5 tt eq_refl)
    as [poison_x [poison_y [H [_ Hs]]]].
  exists poison_x, poison_y. split; [exact H |]. split; [| split].
  - exact (Hs 0 7 3 eq_refl eq_refl).
  - exact (Hs 1 8 1 eq_refl eq_refl).
  - exact (Hs 2 9 3 eq_refl eq_refl).
Defined.

(** ** Training and evaluation *)

Lemma select_none {A : Type} (mask : list bool) (l : list A) :
  Forall (fun b => b = false) mask -> select mask l = [].
Proof.
  intros H. revert l. induction H as [|b mask Hb _ IH]; intros [|a l];
    try reflexivity.
  cbn [select]. rewrite Hb. apply IH.
Qed.

Lemma select_kept_nil (flags : list nat) {A : Type} (l : list A) :
  length flags = length l ->
  (select (map (Nat.eqb 1) flags) l = [] <-> existsb (Nat.eqb 1) flags = false).
Proof.
  revert l. induction flags as [|f flags IH]; intros [|a l] Hlen; cbn in Hlen;
    try discriminate.
  - split; reflexivity.
  - cbn [map select existsb]. destruct (1 =? f); cbn [orb].
    + split; discriminate.
    + apply IH. lia.
Qed.

Lemma mean_cases (m : MetricList) :
  (exists f, mean m = Ok f) \/ mean m = Raise (ZeroDivisionError "division by zero").
Proof.
  destruct (_values m) as [|v vs] eqn:E.
  - right. now apply mean_no_values.
  - left. apply mean_some_values. congruence.
Qed.

Lemma categorical_accuracy_rows_Ok (y scores : list scalar) (k : nat) :
  0 < k ->
  length scores = length y * k ->
  exists r,
    categorical_accuracy (array_of_list y) (mk_ndarray [length y; k] scores) = Ok r.
Proof.
  intros Hk Hlen.
  destruct (mapM_argmax k (chunks k (length y) scores) Hk
              (chunks_row_length k (length y) scores Hlen)) as [am [E [L F]]].
  rewrite length_chunks in L.
  unfold categorical_accuracy, array_of_list, ndim.
  cbn [shape data length Nat.eqb Nat.add].
  rewrite shape_eqb_neq by discriminate.
  unfold argmax_last. cbn [shape data rev app size_of fold_right].
  rewrite Nat.mul_1_r, E. cbn [bind]. unfold array_eq. cbn [shape data].
  rewrite shape_eqb_refl. cbn [bind ints_of_bools]. now eexists.
Qed.

Lemma MetricList_init_categorical_accuracy (lib : library) :
  MetricList_init lib "categorical_accuracy" FunctionNone
  = Ok (mk_MetricList "categorical_accuracy" (binary_metric categorical_accuracy) []).
Proof. reflexivity. Qed.

Lemma length_concat_fst_snd {A B : Type} (batches : list (list A * list B)) :
  Forall (fun b => length (fst b) = length (snd b)) batches ->
  length (concat (map fst batches)) = length (concat (map snd batches)).
Proof.
  induction 1 as [|b batches Hb _ IH]; [reflexivity |].
  cbn [map concat]. rewrite !length_app. lia.
Qed.

Lemma concatenate_batches {A : Type} (l : list (list A)) :
  l <> [] -> concatenate l = Ok (concat l).
Proof. destruct l; [congruence | reflexivity]. Qed.

Section TrainingProperties.

Variable lib : library.
Variables image channels : Type.
Variable transpose_201 : image -> channels.
Variable transpose_120 : channels -> image.
Variable attack : Type.
Variable poison : attack -> channels -> list nat -> channels * list nat.
Variable rng : Type.
Variable seed : Z -> rng.
Variable permutation : rng -> nat -> list nat * rng.
Variables classifier onehot : Type.
Variable load_model : classifier.
Variable load_defense_model : classifier.
Variable fit : classifier -> list image -> list onehot -> nat -> nat -> classifier.
Variable predict : classifier -> list image -> ndarray.
Variable to_categorical : list label -> list onehot.
Variable detect_poison : classifier -> list image -> list onehot -> list nat.
Variable load_attack : attack.
Variable load_dataset : split_type -> nat -> list (list image * list nat).

Let build :=
  build_training_set image channels transpose_201 transpose_120 attack poison
                     rng permutation load_attack load_dataset.

Let training :=
  train_classifier image classifier onehot load_model load_defense_model fit
                   to_categorical detect_poison.

Let evaluation :=
  _evaluate lib image channels transpose_201 transpose_120 attack poison
            rng seed permutation classifier onehot load_model load_defense_model
            fit predict to_categorical detect_poison load_attack load_dataset.

(** X21: with the filtering defense in use and its flags as long as
    the data, the model is fitted on exactly the samples flagged 1, and
    is returned as loaded, without any fitting, when no sample is
    flagged 1; flags of another length raise [IndexError]; in a check
    run the defense is not consulted and the model is fitted on all the
    data. *)
Theorem filtering_defense_training (cfg : config) (x : list image) (y : list label) :
  let batch := match fit_batch_size cfg with
               | Some b => b
               | None => dataset_batch_size cfg
               end in
  let epochs := match defense_train_epochs cfg with
                | Some e => e
                | None => train_epochs cfg
                end in
  let yc := to_categorical y in
  let is_clean := detect_poison (fit load_defense_model x yc batch epochs) x yc in
  let keep := map (Nat.eqb 1) is_clean in
  use_poison_filtering_defense cfg <> Some false ->
  (length is_clean = length x -> length yc = length x ->
   training cfg false x y
   = Ok (if existsb (Nat.eqb 1) is_clean
         then fit load_model (select keep x) (select keep yc) batch (train_epochs cfg)
         else load_model))
  /\ (length is_clean <> length x \/ length is_clean <> length yc ->
      training cfg false x y
      = Raise (IndexError "boolean index did not match indexed array"))
  /\ training cfg true x y
     = Ok (match x with
           | [] => load_model
           | _ => fit load_model x yc batch (train_epochs cfg)
           end).
Proof.
  intros batch epochs yc is_clean keep Hdef.
  assert (Huse : match use_poison_filtering_defense cfg with
                 | Some b => b
                 | None => true
                 end = true).
  { destruct (use_poison_filtering_defense cfg) as [[]|]; congruence. }
  split; [| split].
  - intros Hc Hy. subst training. unfold train_classifier. rewrite Huse.
    fold batch epochs yc. fold is_clean. fold keep.
    unfold mask_select. subst keep. rewrite !length_map, Hy, Hc, Nat.eqb_refl.
    cbn [bind].
    pose proof (select_kept_nil is_clean x Hc) as Hnil.
    destruct (select (map (Nat.eqb 1) is_clean) x) as [|a l] eqn:E.
    + rewrite (proj1 Hnil eq_refl). reflexivity.
    + destruct (existsb (Nat.eqb 1) is_clean); [reflexivity |].
      now specialize (proj2 Hnil eq_refl).
  - intros Hne. subst training. unfold train_classifier. rewrite Huse.
    fold batch epochs yc. fold is_clean. fold keep.
    unfold mask_select. subst keep. rewrite !length_map.
    destruct (Nat.eqb_spec (length is_clean) (length x)) as [Ex|Ex]; [| reflexivity].
    cbn [bind].
    destruct (Nat.eqb_spec (length is_clean) (length yc)) as [Ey|Ey]; [| reflexivity].
    destruct Hne; contradiction.
  - subst training. unfold train_classifier. cbn [bind]. now destruct x.
Qed.

(** The training set when the attack is not preloaded. *)
Lemma build_training_set_not_preloaded (cfg : config) (g : rng) :
  attack_type cfg <> Some "preloaded" ->
  build cfg g
  = let clean_data := load_dataset train (dataset_batch_size cfg) in
    let* x_train_all := concatenate (map fst clean_data) in
    let* y_train_all := concatenate (map snd clean_data) in
    if poison_dataset_flag cfg then
      let* (poisoned_indices, _) :=
        select_poisoned_indices rng permutation g y_train_all (source_class cfg)
                                (fraction_poisoned cfg) in
      poison_dataset image channels transpose_201 transpose_120 attack poison
                     x_train_all y_train_all (source_class cfg) (target_class cfg)
                     (length y_train_all) load_attack poisoned_indices
    else Ok (x_train_all, map LabelInt y_train_all).
Proof.
  intros H. subst build. unfold build_training_set.
  destruct (attack_type cfg) as [s|]; [| reflexivity].
  repeat (destruct s as [|[[] [] [] [] [] [] [] []] s]; try reflexivity).
  now contradiction H.
Qed.

Lemma choice_nothing (g : rng) (a : list nat) :
  choice rng permutation g a 0 = Ok ([], snd (permutation g (length a))).
Proof.
  unfold choice. cbn [Z.eqb negb]. rewrite andb_false_r.
  destruct (Z.ltb_spec (Z.of_nat (length a)) 0) as [Hneg|_]; [lia |].
  cbn [Z.ltb Z.compare Z.to_nat firstn].
  now destruct (permutation g (length a)).
Qed.

(** X22: when the poison count [int(fraction_poisoned * total_count)]
    is 0, the case the code only logs a warning for, a run that is to
    poison the training data trains on the clean data as loaded: no
    sample is changed or relabelled. *)
Theorem no_poison_generated (cfg : config) (g : rng) (total : nat) :
  attack_type cfg <> Some "preloaded" ->
  poison_dataset_flag cfg = true ->
  load_dataset train (dataset_batch_size cfg) <> [] ->
  Forall (fun b => length (fst b) = length (snd b))
         (load_dataset train (dataset_batch_size cfg)) ->
  index (bincount (concat (map snd (load_dataset train (dataset_batch_size cfg)))))
        (source_class cfg) = Ok total ->
  scaled_count (fraction_poisoned cfg) total = Ok 0%Z ->
  build cfg g
  = Ok (concat (map fst (load_dataset train (dataset_batch_size cfg))),
        map LabelInt (concat (map snd (load_dataset train (dataset_batch_size cfg))))).
Proof.
  intros Htype Hflag Hne Hlen Htotal Hcount.
  rewrite (build_training_set_not_preloaded cfg g Htype). cbv zeta.
  pose proof (length_concat_fst_snd _ Hlen) as Hl.
  rewrite !concatenate_batches by (intros E; apply map_eq_nil in E; contradiction).
  cbn [bind]. rewrite Hflag.
  unfold select_poisoned_indices. rewrite Htotal. cbn [bind]. rewrite Hcount.
  cbn [bind]. rewrite choice_nothing. cbn [bind].
  now apply poison_dataset_nothing_listed.
Qed.

Ltac split_bind H :=
  match type of H with
  | context [bind ?x _] =>
      let E := fresh "E" in
      destruct x as [[]|] eqn:E; cbn [bind] in H; [| discriminate H]
  | context [bind ?x _] =>
      let E := fresh "E" in
      destruct x eqn:E; cbn [bind] in H; [| discriminate H]
  end.

(** X23: a run that poisons the data, or whose attack type is
    ["preloaded"], and reaches its end returns a mapping with exactly
    the four keys ["validation_accuracy"],
    ["validation_accuracy_targeted_class"], ["test_accuracy"] and
    ["targeted_misclassification_accuracy"], in this order. *)
Theorem poisoned_run_results (check_run : bool) (cfg : config)
    (num_eval_batches : option nat) (r : dict float) :
  poison_dataset_flag cfg = true \/ attack_type cfg = Some "preloaded" ->
  evaluation check_run cfg num_eval_batches = Ok r ->
  keys r = ["validation_accuracy"; "validation_accuracy_targeted_class";
            "test_accuracy"; "targeted_misclassification_accuracy"].
Proof.
  intros Hmode H. subst evaluation. unfold _evaluate in H.
  assert (Hor : poison_dataset_flag cfg || is_preloaded cfg = true).
  { destruct Hmode as [Hf|Ht].
    - now rewrite Hf.
    - unfold is_preloaded. rewrite Ht. cbn. apply orb_true_r. }
  rewrite Hor in H.
  destruct num_eval_batches as [[|n]|]; try discriminate H;
    destruct (is_preloaded cfg); destruct (poison_dataset_flag cfg);
      repeat split_bind H; inversion H; subst r; reflexivity.
Qed.

Lemma test_clean_no_source (c : classifier) (src : nat)
    (batches : list (list image * list nat)) (vm tm : MetricList) :
  function vm = binary_metric categorical_accuracy ->
  Forall (fun b =>
            ~ In src (snd b)
            /\ exists k scores,
                 0 < k
                 /\ predict c (fst b) = mk_ndarray [length (snd b); k] scores
                 /\ length scores = length (snd b) * k) batches ->
  exists vm', test_clean image classifier predict c src batches vm tm = Ok (vm', tm).
Proof.
  intros Hfn Hall. revert vm Hfn.
  induction Hall as [|[x y] batches [Hsrc [k [scores [Hk [Hp Hlen]]]]] _ IH];
    intros vm Hfn; cbn [test_clean].
  - now exists vm.
  - cbn [fst snd] in *. rewrite Hp. unfold append at 1. rewrite Hfn.
    cbn [binary_metric]. unfold labels_array.
    destruct (categorical_accuracy_rows_Ok
                (map (fun c0 => SInt (Z.of_nat c0)) y) scores k Hk) as [r Hr];
      [now rewrite length_map |].
    rewrite length_map in Hr. rewrite Hr. cbn [bind].
    unfold mask_rows, mask_select. cbn [shape data].
    rewrite length_map, length_chunks, Nat.eqb_refl. cbn [bind].
    rewrite select_none.
    + cbn [length concat len shape bind Nat.eqb]. apply IH. reflexivity.
    + apply Forall_forall. intros b Hb. apply in_map_iff in Hb.
      destruct Hb as [l [<- Hl]]. apply Nat.eqb_neq. intros ->. contradiction.
Qed.

(** X24: when no sample of the test data has the source class, a run
    whose training set is built and whose model is trained, and whose
    predictions have one row of scores per test sample, raises
    [ZeroDivisionError]: the accuracy on the targeted class is the mean
    of no score. *)
Theorem absent_source_class_fails (check_run : bool) (cfg : config)
    (x : list image) (y : list label) (c : classifier) :
  let batch := match fit_batch_size cfg with
               | Some b => b
               | None => dataset_batch_size cfg
               end in
  build cfg (seed (np_seed cfg)) = Ok (x, y) ->
  training cfg check_run x y = Ok c ->
  Forall (fun b =>
            ~ In (source_class cfg) (snd b)
            /\ exists k scores,
                 0 < k
                 /\ predict c (fst b) = mk_ndarray [length (snd b); k] scores
                 /\ length scores = length (snd b) * k)
         (load_dataset test batch) ->
  evaluation check_run cfg None = Raise (ZeroDivisionError "division by zero").
Proof.
  intros batch Hbuild Htrain Htest. subst evaluation build training.
  unfold _evaluate. cbv zeta. rewrite Hbuild. cbn [bind]. rewrite Htrain.
  cbn [bind]. rewrite !MetricList_init_categorical_accuracy. cbn [bind].
  destruct (test_clean_no_source c (source_class cfg) (load_dataset test batch)
              (mk_MetricList "categorical_accuracy"
                 (binary_metric categorical_accuracy) [])
              (mk_MetricList "categorical_accuracy"
                 (binary_metric categorical_accuracy) [])
              eq_refl Htest) as [vm' Hvm].
  subst batch. rewrite Hvm. cbn [bind].
  destruct (mean_cases vm') as [[f Hf]|Hf]; rewrite Hf; [| reflexivity].
  cbn [bind]. now rewrite mean_no_values.
Qed.

End TrainingProperties.

Lemma filtering_defense_training_witness :
  train_classifier nat nat nat 0 0 (fun c x _ _ _ => c + length x)
                   (map (fun l => match label_value l with Some c => c | None => 0 end))
                   (fun _ _ _ => [1; 0; 1]) example_config false
                   [7; 8; 9] [LabelInt 0; LabelInt 1; LabelInt 2]
  = Ok 2
  /\ train_classifier nat nat nat 0 0 (fun c x _ _ _ => c + length x)
                      (map (fun l => match label_value l with Some c => c | None => 0 end))
                      (fun _ _ _ => [0; 0; 0]) example_config false
                      [7; 8; 9] [LabelInt 0; LabelInt 1; LabelInt 2]
     = Ok 0.
Proof.
  split.
  - exact (proj1 (filtering_defense_training nat nat nat 0 0
                    (fun c x _ _ _ => c + length x)
                    (map (fun l => match label_value l with Some c => c | None => 0 end))
                    (fun _ _ _ => [1; 0; 1]) example_config
                    [7; 8; 9] [LabelInt 0; LabelInt 1; LabelInt 2]
                    ltac:(discriminate)) eq_refl eq_refl).
  - exact (proj1 (filtering_defense_training nat nat nat 0 0
                    (fun c x _ _ _ => c + length x)
                    (map (fun l => match label_value l with Some c => c | None => 0 end))
                    (fun _ _ _ => [0; 0; 0]) example_config
                    [7; 8; 9] [LabelInt 0; LabelInt 1; LabelInt 2]
                    ltac:(discriminate)) eq_refl eq_refl).
Defined.

Lemma no_poison_generated_witness :
  build_training_set nat nat (fun x => x) (fun x => x) unit (fun _ x y => (x + 100, y))
                     unit reversing_permutation tt example_load_dataset
                     example_rare_class_config tt
  = Ok ([0; 1; 2; 4; 5],
        [LabelInt 0; LabelInt 1; LabelInt 2; LabelInt 1; LabelInt 2]).
Proof.
  apply (no_poison_generated nat nat (fun x => x) (fun x => x) unit
           (fun _ x y => (x + 100, y)) unit reversing_permutation tt
           example_load_dataset example_rare_class_config tt 1).
  - discriminate.
  - reflexivity.
  - discriminate.
  - repeat constructor.
  - reflexivity.
  - vm_compute. reflexivity.
Defined.

(** The small run with the training and the test data poisoned: the
    poisoned test sample of class 1 is scored as class 2, the target. *)
Example example_poisoned_results :
  example_evaluate false example_poisoned_config None
  = Ok [("validation_accuracy", 0.75%float);
        ("validation_accuracy_targeted_class", 1%float);
        ("test_accuracy", 0.5%float);
        ("targeted_misclassification_accuracy", 1%float)].
Proof. vm_compute. reflexivity. Qed.

Lemma poisoned_run_results_witness :
  exists r,
    example_evaluate false example_poisoned_config None = Ok r
    /\ keys r = ["validation_accuracy"; "validation_accuracy_targeted_class";
                 "test_accuracy"; "targeted_misclassification_accuracy"].
Proof.
  eexists. split; [exact example_poisoned_results |].
  apply (poisoned_run_results example_library nat nat (fun x => x) (fun x => x)
           unit (fun _ x y => (x + 100, y))
           unit (fun _ => tt) reversing_permutation
           unit nat tt tt (fun c _ _ _ _ => c) example_predict
           (map (fun l => match label_value l with Some c => c | None => 0 end))
           (fun _ x _ => repeat 1 (length x)) tt example_load_dataset
           false example_poisoned_config None).
  - left. reflexivity.
  - exact example_poisoned_results.
Defined.

Lemma absent_source_class_fails_witness :
  example_evaluate false example_absent_class_config None
  = Raise (ZeroDivisionError "division by zero").
Proof.
  apply (absent_source_class_fails example_library nat nat (fun x => x) (fun x => x)
           unit (fun _ x y => (x + 100, y))
           unit (fun _ => tt) reversing_permutation
           unit nat tt tt (fun c _ _ _ _ => c) example_predict
           (map (fun l => match label_value l with Some c => c | None => 0 end))
           (fun _ x _ => repeat 1 (length x)) tt example_load_dataset
           false example_absent_class_config
           [0; 1; 2; 4; 5]
           [LabelInt 0; LabelInt 1; LabelInt 2; LabelInt 1; LabelInt 2] tt).
  - reflexivity.
  - reflexivity.
  - constructor; [| constructor]. split.
    + cbn. intros H. repeat (destruct H as [H|H]; [discriminate H |]). exact H.
    + exists 3, (data (example_predict tt [0; 1; 2; 1])).
      split; [lia |]. split; reflexivity.
Defined.
